(** * Force subsystems of Simbody: TwoPointSpring and UniformGravity

    A shallow embedding of [SimbodyForcesRep.h]: the realize hooks of
    [TwoPointSpringSubsystemRep] and [UniformGravitySubsystemRep] as
    computations in a state-and-exception monad over the [State], and the
    properties the specification states about them.

    The C++ type [Real] is a build-time typedef, so the embedding is
    parametric in the arithmetic ([RealOps]).  Two instances are used:
    the real numbers (exact arithmetic) and IEEE-754 binary64 as given by
    the Standard Library's executable [SpecFloat]. *)

From Stdlib Require Import ZArith String Bool Reals Lra Lia SpecFloat.
From stdpp Require Import base list.

Local Open Scope string_scope.
Local Open Scope list_scope.
Local Open Scope Z_scope.

(** ** The arithmetic of [Real] *)

Class RealOps (Real : Type) := {
  r0 : Real;                       (* the literal 0 *)
  r1 : Real;                       (* the literal 1 *)
  rhalf : Real;                    (* the literal 0.5 *)
  radd : Real -> Real -> Real;
  rsub : Real -> Real -> Real;
  rmul : Real -> Real -> Real;
  rdiv : Real -> Real -> Real;
  rsqrt : Real -> Real;
  rltb : Real -> Real -> bool;     (* a < b *)
  reqb : Real -> Real -> bool      (* a == b *)
}.

(** Exact real arithmetic. *)
#[export] Instance R_ops : RealOps R := {
  r0 := 0%R; r1 := 1%R; rhalf := (1/2)%R;
  radd := Rplus; rsub := Rminus; rmul := Rmult; rdiv := Rdiv;
  rsqrt := sqrt;
  rltb a b := if Rlt_dec a b then true else false;
  reqb a b := if Req_dec_T a b then true else false
}.

(** IEEE-754 binary64 ([double]): precision 53, maximal exponent 1024. *)
Definition binary64 : Type := spec_float.
Definition b64_zero : binary64 := S754_zero false.
Definition b64_one  : binary64 := S754_finite false 4503599627370496 (-52).
Definition b64_half : binary64 := S754_finite false 4503599627370496 (-53).
Definition b64_of_Z (z : Z) : binary64 := binary_normalize 53 1024 z 0 false.

#[export] Instance binary64_ops : RealOps binary64 := {
  r0 := b64_zero; r1 := b64_one; rhalf := b64_half;
  radd := SFadd 53 1024; rsub := SFsub 53 1024;
  rmul := SFmul 53 1024; rdiv := SFdiv 53 1024;
  rsqrt := SFsqrt 53 1024;
  rltb := SFltb;
  reqb := SFeqb
}.

(** The type that [Real] stands for, as a class: a definition or a statement
    that leaves it implicit gets the one of its section. *)
Class RealType := realType : Type.

Declare Scope real_scope.
Delimit Scope real_scope with real.
Infix "+" := radd : real_scope.
Infix "-" := rsub : real_scope.
Infix "*" := rmul : real_scope.
Infix "/" := rdiv : real_scope.

(** ** Small vectors and transforms

    [Vec3], [Rotation], [Transform] and [SpatialVec] are SimTKcommon types
    (not part of this header). *)

Section Model.
Context {Real : RealType} {ops : RealOps Real}.

(** Modelled from the spec: [Vec3], a triple of [Real]s with componentwise
    arithmetic, dot product [~a*b], cross product [a % b] and [norm()]. *)
Record Vec3 := mkVec3 { vx : Real; vy : Real; vz : Real }.

Definition Vec3_add (a b : Vec3) : Vec3 :=
  mkVec3 (vx a + vx b)%real (vy a + vy b)%real (vz a + vz b)%real.
Definition Vec3_sub (a b : Vec3) : Vec3 :=
  mkVec3 (vx a - vx b)%real (vy a - vy b)%real (vz a - vz b)%real.
(** [s * v] *)
Definition Vec3_scale (s : Real) (v : Vec3) : Vec3 :=
  mkVec3 (s * vx v)%real (s * vy v)%real (s * vz v)%real.
(** [v * s] *)
Definition Vec3_times (v : Vec3) (s : Real) : Vec3 :=
  mkVec3 (vx v * s)%real (vy v * s)%real (vz v * s)%real.
(** [v / s] *)
Definition Vec3_over (v : Vec3) (s : Real) : Vec3 :=
  mkVec3 (vx v / s)%real (vy v / s)%real (vz v / s)%real.
(** [~a * b] *)
Definition Vec3_dot (a b : Vec3) : Real :=
  (vx a * vx b + vy a * vy b + vz a * vz b)%real.
(** [a % b] *)
Definition Vec3_cross (a b : Vec3) : Vec3 :=
  mkVec3 (vy a * vz b - vz a * vy b)%real
         (vz a * vx b - vx a * vz b)%real
         (vx a * vy b - vy a * vx b)%real.
Definition Vec3_norm (a : Vec3) : Real := rsqrt (Vec3_dot a a).
(** [Vec3(0)] *)
Definition Vec3_zero : Vec3 := mkVec3 r0 r0 r0.

(** Modelled from the spec: [UnitVec3(v, true)] stores [v] as it is
    ("trust me; already normalized"). *)
Record UnitVec3 := mkUnitVec3_trusted { asVec3 : Vec3 }.

(** Modelled from the spec: a [Rotation] is a 3x3 matrix given by its rows,
    [R * v] the matrix-vector product; a [Transform] X_GB has a rotation
    [R()] and a translation [T()]. *)
Record Rotation := mkRotation { row0 : Vec3; row1 : Vec3; row2 : Vec3 }.
Definition Rotation_apply (R : Rotation) (v : Vec3) : Vec3 :=
  mkVec3 (Vec3_dot (row0 R) v) (Vec3_dot (row1 R) v) (Vec3_dot (row2 R) v).
Record Transform := mkTransform { X_R : Rotation; X_T : Vec3 }.

(** Modelled from the spec: [SpatialVec(torque, force)], a pair of [Vec3]
    with componentwise [+=] and [-=]. *)
Record SpatialVec := mkSpatialVec { sv_torque : Vec3; sv_force : Vec3 }.
Definition SpatialVec_add (a b : SpatialVec) : SpatialVec :=
  mkSpatialVec (Vec3_add (sv_torque a) (sv_torque b))
               (Vec3_add (sv_force a) (sv_force b)).
Definition SpatialVec_sub (a b : SpatialVec) : SpatialVec :=
  mkSpatialVec (Vec3_sub (sv_torque a) (sv_torque b))
               (Vec3_sub (sv_force a) (sv_force b)).
Definition SpatialVec_zero : SpatialVec := mkSpatialVec Vec3_zero Vec3_zero.

(** ** Stages *)

(** Modelled from the spec: the stage ladder, in increasing order. *)
Inductive Stage :=
| Allocated | Built | Modeled | Parametrized | Timed
| Configured | Moving | Dynamics | Reaction.

Definition stageIndex (g : Stage) : nat :=
  match g with
  | Allocated => 0 | Built => 1 | Modeled => 2 | Parametrized => 3
  | Timed => 4 | Configured => 5 | Moving => 6 | Dynamics => 7
  | Reaction => 8
  end.
Definition Stage_ltb (a b : Stage) : bool := (stageIndex a <? stageIndex b)%nat.

(** ** State entries of the two force subsystems

    Field prefixes follow the names the code gives the references:
    [p.stiffness], [cc.x], [dc.f1_G], [pc.gMagnitude]. *)

(** [TwoPointSpringSubsystemRep::Parameters] *)
Record TwoPointSpring_Parameters := mkSpringParameters {
  p_stiffness : Real;
  p_naturalLength : Real;
  p_gravity : Vec3;
  p_damping : Real
}.
(** The constructor [Parameters(k, x0)]. *)
Definition TwoPointSpring_Parameters_init (k x0 : Real) : TwoPointSpring_Parameters :=
  mkSpringParameters k x0 Vec3_zero r0.

(** [TwoPointSpringSubsystemRep::ConfigurationCache] *)
Record TwoPointSpring_ConfigurationCache := mkSpringConfigurationCache {
  cc_station1_G : Vec3;
  cc_station2_G : Vec3;
  cc_v_G : Vec3;
  cc_x : Real;
  cc_fscalar : Real;
  cc_pe : Real
}.
(** [TwoPointSpringSubsystemRep::DynamicsCache] *)
Record TwoPointSpring_DynamicsCache := mkSpringDynamicsCache {
  dc_f1_G : Vec3
}.

(** [UniformGravitySubsystemRep::Parameters] *)
Record UniformGravity_Parameters := mkGravityParameters {
  gp_gravity : Vec3;
  gp_zeroHeight : Real;
  gp_enabled : bool
}.
(** The constructors [Parameters()] and [Parameters(g, z)]. *)
Definition UniformGravity_Parameters_default : UniformGravity_Parameters :=
  mkGravityParameters Vec3_zero r0 true.
Definition UniformGravity_Parameters_init (g : Vec3) (z : Real) : UniformGravity_Parameters :=
  mkGravityParameters g z true.

(** [UniformGravitySubsystemRep::ParameterCache] *)
Record UniformGravity_ParameterCache := mkGravityParameterCache {
  pc_gDirection : UnitVec3;
  pc_gMagnitude : Real
}.

(** The [AbstractValue]s stored in the [State]: a [Value<T>] for one of the
    state-entry types above; [downcast] to another type fails. *)
Inductive AbstractValue :=
| Value_SpringParameters (v : TwoPointSpring_Parameters)
| Value_SpringConfigurationCache (v : TwoPointSpring_ConfigurationCache)
| Value_SpringDynamicsCache (v : TwoPointSpring_DynamicsCache)
| Value_GravityParameters (v : UniformGravity_Parameters)
| Value_GravityParameterCache (v : UniformGravity_ParameterCache).

(** ** The state, the kinematics provider and the force accumulators *)

(** Modelled from the spec: a slot of the state container, as
    [allocateDiscreteVariable] / [allocateCacheEntry] create it: the owning
    subsystem, the stage tag and the value. *)
Record Slot := mkSlot {
  slotOwner : Z;
  slotStage : Stage;
  slotValue : AbstractValue
}.

(** Modelled from the spec: what a [MatterSubsystem] answers for a state:
    per body its mass, center of mass (body frame) and configuration X_GB;
    the particle masses; the generalized speeds u. *)
Record Body := mkBody {
  bodyMass : Real;
  bodyCenterOfMass : Vec3;
  bodyConfiguration : Transform
}.
Record MatterSubsystem := mkMatterSubsystem {
  matterBodies : list Body;
  matterParticleMasses : list Real;
  matterU : list Real
}.

(** Modelled from the spec: the [State] with the current stage, the
    discrete variables and cache entries of the subsystems, the matter
    subsystems of the [MultibodySystem], and the force accumulators of
    [MultibodySystemRep]: per matter subsystem the rigid body, particle and
    mobility forces, and one potential energy. *)
Record State := mkState {
  stage : Stage;
  discreteVars : list Slot;
  cacheEntries : list Slot;
  matterSubsystems : list MatterSubsystem;
  rigidBodyForces : list (list SpatialVec);
  particleForces : list (list Vec3);
  mobilityForces : list (list Real);
  potentialEnergy : Real
}.

Definition set_discreteVars (v : list Slot) (s : State) : State :=
  mkState (stage s) v (cacheEntries s) (matterSubsystems s)
          (rigidBodyForces s) (particleForces s) (mobilityForces s)
          (potentialEnergy s).
Definition set_cacheEntries (v : list Slot) (s : State) : State :=
  mkState (stage s) (discreteVars s) v (matterSubsystems s)
          (rigidBodyForces s) (particleForces s) (mobilityForces s)
          (potentialEnergy s).
Definition set_rigidBodyForces (v : list (list SpatialVec)) (s : State) : State :=
  mkState (stage s) (discreteVars s) (cacheEntries s) (matterSubsystems s)
          v (particleForces s) (mobilityForces s) (potentialEnergy s).
Definition set_particleForces (v : list (list Vec3)) (s : State) : State :=
  mkState (stage s) (discreteVars s) (cacheEntries s) (matterSubsystems s)
          (rigidBodyForces s) v (mobilityForces s) (potentialEnergy s).
Definition set_mobilityForces (v : list (list Real)) (s : State) : State :=
  mkState (stage s) (discreteVars s) (cacheEntries s) (matterSubsystems s)
          (rigidBodyForces s) (particleForces s) v (potentialEnergy s).
Definition set_potentialEnergy (v : Real) (s : State) : State :=
  mkState (stage s) (discreteVars s) (cacheEntries s) (matterSubsystems s)
          (rigidBodyForces s) (particleForces s) (mobilityForces s) v.
Definition set_stage (g : Stage) (s : State) : State :=
  mkState g (discreteVars s) (cacheEntries s) (matterSubsystems s)
          (rigidBodyForces s) (particleForces s) (mobilityForces s)
          (potentialEnergy s).

(** Vectors are indexed by a C++ [int]. *)
Definition vec_get {A} (l : list A) (i : Z) : option A :=
  if i <? 0 then None else l !! Z.to_nat i.
Definition vec_set {A} (l : list A) (i : Z) (a : A) : list A :=
  if i <? 0 then l else <[Z.to_nat i := a]> l.
Definition vec_size {A} (l : list A) : Z := Z.of_nat (length l).

(** ** Exceptions and the monad of the realize hooks *)

Inductive Exception :=
(** thrown by [SimTK_STAGECHECK_GE_ALWAYS] *)
| StageTooLow (currentStage targetStage : Stage) (where_ : string)
(** thrown by [SimTK_VALUECHECK_NONNEG_ALWAYS] *)
| ValueWasNegative (valName : string) (val : Real) (where_ : string)
(** a failed [assert] *)
| AssertionFailed (expr : string)
(** a slot, matter subsystem or vector element that does not exist, a slot
    whose value has another type than the [downcast] asks for, or a cache
    entry read before the stage of its tag has been realized *)
| BadAccess (what : string).

Inductive Outcome (A : Type) :=
| Returned (a : A)
| Threw (e : Exception).
Arguments Returned {A} a.
Arguments Threw {A} e.

(** A hook runs on the state, changes it in place, and returns or throws;
    what it changed before a throw stays changed. *)
Definition M (A : Type) : Type := State -> Outcome A * State.

Definition ret {A} (a : A) : M A := fun s => (Returned a, s).
Definition bind {A B} (m : M A) (k : A -> M B) : M B :=
  fun s => match m s with
           | (Returned a, s') => k a s'
           | (Threw e, s') => (Threw e, s')
           end.
Definition throw {A} (e : Exception) : M A := fun s => (Threw e, s).
Definition gets {A} (f : State -> A) : M A := fun s => (Returned (f s), s).
Definition modify (f : State -> State) : M unit := fun s => (Returned tt, f s).
Definition orThrow {A} (o : option A) (e : Exception) : M A :=
  match o with Some a => ret a | None => throw e end.

Notation "x <- m ;; k" := (bind m (fun x => k))
  (at level 20, m at level 99, k at level 200, only parsing).

(** [for (int i = 0; i < n; ++i) body(i)], started at [lo] with [n]
    iterations left. *)
Fixpoint forUpTo (lo : Z) (n : nat) (body : Z -> M unit) : M unit :=
  match n with
  | O => ret tt
  | S n' => _ <- body lo ;; forUpTo (lo + 1) n' body
  end.
Definition for_ (n : Z) (body : Z -> M unit) : M unit :=
  forUpTo 0 (Z.to_nat n) body.

(** Modelled from the spec: [SimTK_STAGECHECK_GE_ALWAYS(current, target, where)]
    reports the hook and the required and actual stage when the current
    stage is below the target. *)
Definition SimTK_STAGECHECK_GE_ALWAYS (target : Stage) (where_ : string) : M unit :=
  current <- gets stage ;;
  if Stage_ltb current target
  then throw (StageTooLow current target where_)
  else ret tt.

(** Modelled from the spec: [SimTK_VALUECHECK_NONNEG_ALWAYS(val, name, where)]
    reports the field and the calling location when [val < 0]. *)
Definition SimTK_VALUECHECK_NONNEG_ALWAYS (val : Real) (valName where_ : string) : M unit :=
  if rltb val r0
  then throw (ValueWasNegative valName val where_)
  else ret tt.

(** [assert(cond)], as in a build that keeps its assertions: a failed one
    ends the hook. *)
Definition assert_ (cond : bool) (expr : string) : M unit :=
  if cond then ret tt else throw (AssertionFailed expr).

(** ** The state container, the multibody system and its accumulators *)

(** Modelled from the spec: [State::allocateDiscreteVariable] and
    [State::allocateCacheEntry] append a slot and return its index;
    [getDiscreteVariable], [getCacheEntry] and [updCacheEntry] reach a slot
    by its index.  [getCacheEntry] fails while the stage of the container is
    below the tag of the slot; [updCacheEntry], the write access of the
    realize hook that owns the slot, does not look at the stage (the state
    has no record of the stage that is being realized; every use of it
    below is in the realize hook of the stage of the slot).  The tag
    of a variable is the stage its assignment invalidates, not a stage from
    which it can be read (the hooks read the variables tagged
    [Parametrized] from [realizeParameters] on, at stage [Modeled]):
    [getDiscreteVariable] does not look at the stage. *)
Definition allocateDiscreteVariable (owner : Z) (g : Stage) (v : AbstractValue) : M Z :=
  vars <- gets discreteVars ;;
  _ <- modify (set_discreteVars (vars ++ [mkSlot owner g v])) ;;
  ret (vec_size vars).
Definition allocateCacheEntry (owner : Z) (g : Stage) (v : AbstractValue) : M Z :=
  entries <- gets cacheEntries ;;
  _ <- modify (set_cacheEntries (entries ++ [mkSlot owner g v])) ;;
  ret (vec_size entries).
Definition getDiscreteVariable (index : Z) : M AbstractValue :=
  vars <- gets discreteVars ;;
  slot <- orThrow (vec_get vars index) (BadAccess "getDiscreteVariable") ;;
  ret (slotValue slot).
Definition getCacheEntry (index : Z) : M AbstractValue :=
  entries <- gets cacheEntries ;;
  slot <- orThrow (vec_get entries index) (BadAccess "getCacheEntry") ;;
  current <- gets stage ;;
  if Stage_ltb current (slotStage slot)
  then throw (BadAccess "getCacheEntry: stage")
  else ret (slotValue slot).
Definition updCacheEntry (index : Z) : M AbstractValue :=
  entries <- gets cacheEntries ;;
  slot <- orThrow (vec_get entries index) (BadAccess "updCacheEntry") ;;
  ret (slotValue slot).
(** Assignment through the reference [updCacheEntry(s, index)] gave. *)
Definition putCacheEntry (index : Z) (v : AbstractValue) : M unit :=
  entries <- gets cacheEntries ;;
  slot <- orThrow (vec_get entries index) (BadAccess "updCacheEntry") ;;
  modify (set_cacheEntries
            (vec_set entries index (mkSlot (slotOwner slot) (slotStage slot) v))).

(** Modelled from the spec: the matter subsystems of the [MultibodySystem]
    and the kinematics queries of a [MatterSubsystem]. *)
Definition getNMatterSubsystems : M Z :=
  ms <- gets matterSubsystems ;; ret (vec_size ms).
Definition getMatterSubsystem (i : Z) : M MatterSubsystem :=
  ms <- gets matterSubsystems ;;
  orThrow (vec_get ms i) (BadAccess "getMatterSubsystem").
Definition getNBodies (matter : MatterSubsystem) : Z := vec_size (matterBodies matter).
Definition getNParticles (matter : MatterSubsystem) : Z := vec_size (matterParticleMasses matter).
Definition getNMobilities (matter : MatterSubsystem) : Z := vec_size (matterU matter).
Definition getBody (matter : MatterSubsystem) (body : Z) : M Body :=
  orThrow (vec_get (matterBodies matter) body) (BadAccess "body").
Definition getBodyConfiguration (matter : MatterSubsystem) (body : Z) : M Transform :=
  b <- getBody matter body ;; ret (bodyConfiguration b).
Definition getBodyMass (matter : MatterSubsystem) (body : Z) : M Real :=
  b <- getBody matter body ;; ret (bodyMass b).
Definition getBodyCenterOfMass (matter : MatterSubsystem) (body : Z) : M Vec3 :=
  b <- getBody matter body ;; ret (bodyCenterOfMass b).
Definition getParticleMass (matter : MatterSubsystem) (i : Z) : M Real :=
  orThrow (vec_get (matterParticleMasses matter) i) (BadAccess "getParticleMasses").
Definition getU (matter : MatterSubsystem) : list Real := matterU matter.

(** Modelled from the spec: the accumulators of [MultibodySystemRep].
    [updRigidBodyForces(s, msub)] and its siblings give a reference to the
    vector of matter subsystem [msub]; the reference is used for [size()],
    for [v[i] += e], [v[i] -= e] and for [v -= w]. *)
Section Accumulator.
Context {E : Type}.
Variable get : State -> list (list E).
Variable set : list (list E) -> State -> State.
Variable what : string.

Definition vectorRef (msub : Z) : M (list E) :=
  f <- gets get ;; orThrow (vec_get f msub) (BadAccess what).
Definition vectorUpd (msub : Z) : M unit :=
  _ <- vectorRef msub ;; ret tt.
Definition vectorSize (msub : Z) : M Z :=
  v <- vectorRef msub ;; ret (vec_size v).
Definition vectorModifyAt (msub i : Z) (f : E -> E) : M unit :=
  v <- vectorRef msub ;;
  e <- orThrow (vec_get v i) (BadAccess "operator[]") ;;
  modify (fun s => set (vec_set (get s) msub (vec_set v i (f e))) s).
Definition vectorModify (msub : Z) (f : list E -> list E) : M unit :=
  v <- vectorRef msub ;;
  modify (fun s => set (vec_set (get s) msub (f v)) s).
End Accumulator.

Definition updRigidBodyForces := vectorUpd rigidBodyForces "updRigidBodyForces".
Definition updParticleForces := vectorUpd particleForces "updParticleForces".
Definition updMobilityForces := vectorUpd mobilityForces "updMobilityForces".
Definition rigidBodyForces_size := vectorSize rigidBodyForces "updRigidBodyForces".
Definition particleForces_size := vectorSize particleForces "updParticleForces".
Definition mobilityForces_size := vectorSize mobilityForces "updMobilityForces".
(** [rigidBodyForces[i] += v] *)
Definition rigidBodyForces_addAt (msub i : Z) (v : SpatialVec) : M unit :=
  vectorModifyAt rigidBodyForces set_rigidBodyForces "updRigidBodyForces"
                 msub i (fun e => SpatialVec_add e v).
(** [rigidBodyForces[i] -= v] *)
Definition rigidBodyForces_subAt (msub i : Z) (v : SpatialVec) : M unit :=
  vectorModifyAt rigidBodyForces set_rigidBodyForces "updRigidBodyForces"
                 msub i (fun e => SpatialVec_sub e v).
(** [particleForces[i] += v] *)
Definition particleForces_addAt (msub i : Z) (v : Vec3) : M unit :=
  vectorModifyAt particleForces set_particleForces "updParticleForces"
                 msub i (fun e => Vec3_add e v).
(** [mobilityForces -= w], elementwise; [Vector] asserts that both have the
    same size. *)
Definition mobilityForces_sub (msub : Z) (w : list Real) : M unit :=
  size <- mobilityForces_size msub ;;
  _ <- assert_ (size =? vec_size w) "size() == w.size()" ;;
  vectorModify mobilityForces set_mobilityForces "updMobilityForces"
               msub (fun v => zip_with rsub v w).
(** [pe += v] through the reference [updPotentialEnergy(s)]. *)
Definition potentialEnergy_add (v : Real) : M unit :=
  modify (fun s => set_potentialEnergy (potentialEnergy s + v)%real s).

(** ** TwoPointSpringSubsystemRep *)

Record TwoPointSpringSubsystemRep := mkSpringRep {
  spring_mySubsystemIndex : Z;
  (* topological variables *)
  body1 : Z;
  body2 : Z;
  station1 : Vec3;
  station2 : Vec3;
  spring_defaultParameters : TwoPointSpring_Parameters;
  (* filled in during realizeConstruction *)
  spring_parameterVarsIndex : Z;
  spring_configurationCacheIndex : Z;
  spring_dynamicsCacheIndex : Z;
  spring_built : bool
}.

Definition TwoPointSpring_getParameters (this : TwoPointSpringSubsystemRep)
  : M TwoPointSpring_Parameters :=
  v <- getDiscreteVariable (spring_parameterVarsIndex this) ;;
  match v with
  | Value_SpringParameters p => ret p
  | _ => throw (BadAccess "Value<Parameters>::downcast")
  end.
Definition TwoPointSpring_getConfigurationCache (this : TwoPointSpringSubsystemRep)
  : M TwoPointSpring_ConfigurationCache :=
  v <- getCacheEntry (spring_configurationCacheIndex this) ;;
  match v with
  | Value_SpringConfigurationCache cc => ret cc
  | _ => throw (BadAccess "Value<ConfigurationCache>::downcast")
  end.
(** [updConfigurationCache] gives a reference into the slot (here: checks
    the slot and gives its content); [putConfigurationCache] is the
    assignment of the fields through that reference. *)
Definition TwoPointSpring_updConfigurationCache (this : TwoPointSpringSubsystemRep)
  : M TwoPointSpring_ConfigurationCache :=
  v <- updCacheEntry (spring_configurationCacheIndex this) ;;
  match v with
  | Value_SpringConfigurationCache cc => ret cc
  | _ => throw (BadAccess "Value<ConfigurationCache>::downcast")
  end.
Definition TwoPointSpring_putConfigurationCache (this : TwoPointSpringSubsystemRep)
  (cc : TwoPointSpring_ConfigurationCache) : M unit :=
  putCacheEntry (spring_configurationCacheIndex this) (Value_SpringConfigurationCache cc).
Definition TwoPointSpring_getDynamicsCache (this : TwoPointSpringSubsystemRep)
  : M TwoPointSpring_DynamicsCache :=
  v <- getCacheEntry (spring_dynamicsCacheIndex this) ;;
  match v with
  | Value_SpringDynamicsCache dc => ret dc
  | _ => throw (BadAccess "Value<DynamicsCache>::downcast")
  end.
Definition TwoPointSpring_updDynamicsCache (this : TwoPointSpringSubsystemRep)
  : M TwoPointSpring_DynamicsCache :=
  v <- updCacheEntry (spring_dynamicsCacheIndex this) ;;
  match v with
  | Value_SpringDynamicsCache dc => ret dc
  | _ => throw (BadAccess "Value<DynamicsCache>::downcast")
  end.
Definition TwoPointSpring_putDynamicsCache (this : TwoPointSpringSubsystemRep)
  (dc : TwoPointSpring_DynamicsCache) : M unit :=
  putCacheEntry (spring_dynamicsCacheIndex this) (Value_SpringDynamicsCache dc).

Definition TwoPointSpring_getDamping (this : TwoPointSpringSubsystemRep) : M Real :=
  p <- TwoPointSpring_getParameters this ;; ret (p_damping p).
Definition TwoPointSpring_getStiffness (this : TwoPointSpringSubsystemRep) : M Real :=
  p <- TwoPointSpring_getParameters this ;; ret (p_stiffness p).
Definition TwoPointSpring_getNaturalLength (this : TwoPointSpringSubsystemRep) : M Real :=
  p <- TwoPointSpring_getParameters this ;; ret (p_naturalLength p).
Definition TwoPointSpring_getPotentialEnergy (this : TwoPointSpringSubsystemRep) : M Real :=
  cc <- TwoPointSpring_getConfigurationCache this ;; ret (cc_pe cc).
Definition TwoPointSpring_getForceOnStation1 (this : TwoPointSpringSubsystemRep) : M Vec3 :=
  dc <- TwoPointSpring_getDynamicsCache this ;; ret (dc_f1_G dc).

(** The hook fills in the [mutable] indices of the object: it returns the
    object as it is afterwards.  [ConfigurationCache] and [DynamicsCache]
    have no constructor, so [new Value<ConfigurationCache>()] and
    [new Value<DynamicsCache>()] leave their fields uninitialized: the
    model takes what they happen to hold as the argument [uninitialized]. *)
Definition TwoPointSpring_realizeConstruction (this : TwoPointSpringSubsystemRep)
  (uninitialized : TwoPointSpring_ConfigurationCache * TwoPointSpring_DynamicsCache)
  : M TwoPointSpringSubsystemRep :=
  pvi <- allocateDiscreteVariable (spring_mySubsystemIndex this) Parametrized
           (Value_SpringParameters (spring_defaultParameters this)) ;;
  cci <- allocateCacheEntry (spring_mySubsystemIndex this) Configured
           (Value_SpringConfigurationCache (fst uninitialized)) ;;
  dci <- allocateCacheEntry (spring_mySubsystemIndex this) Dynamics
           (Value_SpringDynamicsCache (snd uninitialized)) ;;
  ret (mkSpringRep (spring_mySubsystemIndex this) (body1 this) (body2 this)
         (station1 this) (station2 this) (spring_defaultParameters this)
         pvi cci dci true).

Definition TwoPointSpring_realizeModeling (this : TwoPointSpringSubsystemRep) : M unit :=
  let loc := "TwoPointSpring::realizeModeling()" in
  SimTK_STAGECHECK_GE_ALWAYS Built loc.

Definition TwoPointSpring_realizeParameters (this : TwoPointSpringSubsystemRep) : M unit :=
  let loc := "TwoPointSpring::realizeParameters()" in
  _ <- SimTK_STAGECHECK_GE_ALWAYS Modeled loc ;;
  k <- TwoPointSpring_getStiffness this ;;
  _ <- SimTK_VALUECHECK_NONNEG_ALWAYS k "stiffness" loc ;;
  x0 <- TwoPointSpring_getNaturalLength this ;;
  SimTK_VALUECHECK_NONNEG_ALWAYS x0 "naturalLength" loc.

Definition TwoPointSpring_realizeTime (this : TwoPointSpringSubsystemRep) : M unit :=
  let loc := "TwoPointSpring::realizeTime()" in
  SimTK_STAGECHECK_GE_ALWAYS Parametrized loc.

Definition TwoPointSpring_realizeConfiguration (this : TwoPointSpringSubsystemRep) : M unit :=
  let loc := "TwoPointSpring::realizeConfiguration()" in
  _ <- SimTK_STAGECHECK_GE_ALWAYS Timed loc ;;
  p <- TwoPointSpring_getParameters this ;;
  _ <- TwoPointSpring_updConfigurationCache this ;;
  matter1 <- getMatterSubsystem 0 ;;
  X_GB1 <- getBodyConfiguration matter1 (body1 this) ;;
  matter2 <- getMatterSubsystem 0 ;;
  X_GB2 <- getBodyConfiguration matter2 (body2 this) ;;
  let station1_G := Rotation_apply (X_R X_GB1) (station1 this) in
  let station2_G := Rotation_apply (X_R X_GB2) (station2 this) in
  let p1_G := Vec3_add (X_T X_GB1) station1_G in
  let p2_G := Vec3_add (X_T X_GB2) station2_G in
  let v_G := Vec3_sub p2_G p1_G in
  let x := Vec3_norm v_G in
  let stretch := (x - p_naturalLength p)%real in
  let fscalar := (p_stiffness p * stretch)%real in
  let pe := (rhalf * fscalar * stretch)%real in
  TwoPointSpring_putConfigurationCache this
    (mkSpringConfigurationCache station1_G station2_G v_G x fscalar pe).

Definition TwoPointSpring_realizeMotion (this : TwoPointSpringSubsystemRep) : M unit :=
  let loc := "TwoPointSpring::realizeMotion()" in
  SimTK_STAGECHECK_GE_ALWAYS Configured loc.

Definition TwoPointSpring_realizeDynamics (this : TwoPointSpringSubsystemRep) : M unit :=
  let loc := "TwoPointSpring::realizeDynamics()" in
  _ <- SimTK_STAGECHECK_GE_ALWAYS Moving loc ;;
  cc <- TwoPointSpring_getConfigurationCache this ;;
  _ <- TwoPointSpring_updDynamicsCache this ;;
  let f1_G := Vec3_scale (cc_fscalar cc / cc_x cc)%real (cc_v_G cc) in
  _ <- TwoPointSpring_putDynamicsCache this (mkSpringDynamicsCache f1_G) ;;
  matter <- getMatterSubsystem 0 ;;
  let nBodies := getNBodies matter in
  let nParticles := getNParticles matter in
  let nMobilities := getNMobilities matter in
  _ <- updRigidBodyForces 0 ;;
  _ <- updParticleForces 0 ;;
  _ <- updMobilityForces 0 ;;
  rsize <- rigidBodyForces_size 0 ;;
  _ <- assert_ (rsize =? nBodies) "rigidBodyForces.size() == nBodies" ;;
  psize <- particleForces_size 0 ;;
  _ <- assert_ (psize =? nParticles) "particleForces.size() == nParticles" ;;
  msize <- mobilityForces_size 0 ;;
  _ <- assert_ (msize =? nMobilities) "mobilityForces.size() == nMobilities" ;;
  _ <- potentialEnergy_add (cc_pe cc) ;;
  _ <- rigidBodyForces_addAt 0 (body1 this)
         (mkSpatialVec (Vec3_cross (cc_station1_G cc) f1_G) f1_G) ;;
  _ <- rigidBodyForces_subAt 0 (body2 this)
         (mkSpatialVec (Vec3_cross (cc_station2_G cc) f1_G) f1_G) ;;
  d <- TwoPointSpring_getDamping this ;;
  if negb (reqb d r0)
  then d' <- TwoPointSpring_getDamping this ;;
       mobilityForces_sub 0 (map (rmul d') (getU matter))
  else ret tt.

Definition TwoPointSpring_realizeReaction (this : TwoPointSpringSubsystemRep) : M unit :=
  let loc := "TwoPointSpring::realizeReaction()" in
  SimTK_STAGECHECK_GE_ALWAYS Dynamics loc.

(** ** UniformGravitySubsystemRep *)

Record UniformGravitySubsystemRep := mkGravityRep {
  gravity_mySubsystemIndex : Z;
  (* topological variables *)
  gravity_defaultParameters : UniformGravity_Parameters;
  (* filled in during realizeConstruction *)
  gravity_parameterVarsIndex : Z;
  gravity_parameterCacheIndex : Z;
  gravity_configurationCacheIndex : Z;
  gravity_built : bool
}.

Definition UniformGravity_getParameters (this : UniformGravitySubsystemRep)
  : M UniformGravity_Parameters :=
  v <- getDiscreteVariable (gravity_parameterVarsIndex this) ;;
  match v with
  | Value_GravityParameters p => ret p
  | _ => throw (BadAccess "Value<Parameters>::downcast")
  end.
Definition UniformGravity_getParameterCache (this : UniformGravitySubsystemRep)
  : M UniformGravity_ParameterCache :=
  v <- getCacheEntry (gravity_parameterCacheIndex this) ;;
  match v with
  | Value_GravityParameterCache pc => ret pc
  | _ => throw (BadAccess "Value<ParameterCache>::downcast")
  end.
Definition UniformGravity_updParameterCache (this : UniformGravitySubsystemRep)
  : M UniformGravity_ParameterCache :=
  v <- updCacheEntry (gravity_parameterCacheIndex this) ;;
  match v with
  | Value_GravityParameterCache pc => ret pc
  | _ => throw (BadAccess "Value<ParameterCache>::downcast")
  end.
Definition UniformGravity_putParameterCache (this : UniformGravitySubsystemRep)
  (pc : UniformGravity_ParameterCache) : M unit :=
  putCacheEntry (gravity_parameterCacheIndex this) (Value_GravityParameterCache pc).

Definition UniformGravity_getGravity (this : UniformGravitySubsystemRep) : M Vec3 :=
  p <- UniformGravity_getParameters this ;; ret (gp_gravity p).
Definition UniformGravity_getZeroHeight (this : UniformGravitySubsystemRep) : M Real :=
  p <- UniformGravity_getParameters this ;; ret (gp_zeroHeight p).
Definition UniformGravity_isEnabled (this : UniformGravitySubsystemRep) : M bool :=
  p <- UniformGravity_getParameters this ;; ret (gp_enabled p).
Definition UniformGravity_getGravityMagnitude (this : UniformGravitySubsystemRep) : M Real :=
  pc <- UniformGravity_getParameterCache this ;; ret (pc_gMagnitude pc).
Definition UniformGravity_getGravityDirection (this : UniformGravitySubsystemRep) : M UnitVec3 :=
  pc <- UniformGravity_getParameterCache this ;; ret (pc_gDirection pc).

(** [ParameterCache] has no constructor either: [new Value<ParameterCache>()]
    leaves its fields uninitialized, and the model takes what they happen
    to hold as the argument [uninitialized]. *)
Definition UniformGravity_realizeConstruction (this : UniformGravitySubsystemRep)
  (uninitialized : UniformGravity_ParameterCache)
  : M UniformGravitySubsystemRep :=
  pvi <- allocateDiscreteVariable (gravity_mySubsystemIndex this) Parametrized
           (Value_GravityParameters (gravity_defaultParameters this)) ;;
  pci <- allocateCacheEntry (gravity_mySubsystemIndex this) Parametrized
           (Value_GravityParameterCache uninitialized) ;;
  ret (mkGravityRep (gravity_mySubsystemIndex this) (gravity_defaultParameters this)
         pvi pci (gravity_configurationCacheIndex this) true).

Definition UniformGravity_realizeParameters (this : UniformGravitySubsystemRep) : M unit :=
  let loc := "UniformGravity::realizeParameters()" in
  _ <- SimTK_STAGECHECK_GE_ALWAYS Modeled loc ;;
  _ <- UniformGravity_updParameterCache this ;;
  g <- UniformGravity_getGravity this ;;
  let gMagnitude := Vec3_norm g in
  let gDirection :=
    mkUnitVec3_trusted
      (if reqb gMagnitude r0 then mkVec3 r0 r0 r1 else Vec3_over g gMagnitude) in
  UniformGravity_putParameterCache this
    (mkGravityParameterCache gDirection gMagnitude).

Definition UniformGravity_realizeConfiguration (this : UniformGravitySubsystemRep) : M unit :=
  let loc := "UniformGravity::realizeConfiguration()" in
  SimTK_STAGECHECK_GE_ALWAYS Timed loc.

Definition UniformGravity_realizeDynamics (this : UniformGravitySubsystemRep) : M unit :=
  let loc := "UniformGravity::realizeDynamics()" in
  _ <- SimTK_STAGECHECK_GE_ALWAYS Moving loc ;;
  enabled <- UniformGravity_isEnabled this ;;
  nothingToDo <- (if negb enabled then ret true
                  else gMagnitude <- UniformGravity_getGravityMagnitude this ;;
                       ret (reqb gMagnitude r0)) ;;
  if nothingToDo : bool then ret tt else
  g <- UniformGravity_getGravity this ;;
  gMagnitude <- UniformGravity_getGravityMagnitude this ;;
  zeroHeight <- UniformGravity_getZeroHeight this ;;
  let gh0 := (gMagnitude * zeroHeight)%real in
  nMatterSubsystems <- getNMatterSubsystems ;;
  for_ nMatterSubsystems (fun msub =>
    matter <- getMatterSubsystem msub ;;
    let nBodies := getNBodies matter in
    let nParticles := getNParticles matter in
    _ <- updRigidBodyForces msub ;;
    _ <- updParticleForces msub ;;
    rsize <- rigidBodyForces_size msub ;;
    _ <- assert_ (rsize =? nBodies) "rigidBodyForces.size() == nBodies" ;;
    psize <- particleForces_size msub ;;
    _ <- assert_ (psize =? nParticles) "particleForces.size() == nParticles" ;;
    _ <- (if negb (nParticles =? 0)
          then for_ nParticles (fun i =>
                 m_i <- getParticleMass matter i ;;
                 particleForces_addAt msub i (Vec3_times g m_i))
          else ret tt) ;;
    for_ nBodies (fun i =>
      m <- getBodyMass matter i ;;
      com_B <- getBodyCenterOfMass matter i ;;
      X_GB <- getBodyConfiguration matter i ;;
      let com_B_G := Rotation_apply (X_R X_GB) com_B in
      let com_G := Vec3_add (X_T X_GB) com_B_G in
      _ <- potentialEnergy_add (m * (Vec3_dot g com_G - gh0))%real ;;
      rigidBodyForces_addAt msub i
        (mkSpatialVec (Vec3_cross com_B_G (Vec3_scale m g)) (Vec3_scale m g)))).

(** ** EmptyForcesSubsystemRep and the dispatch of the hooks *)

(** A force subsystem of the system: one of the three classes. *)
Inductive ForceSubsystemRep :=
| TwoPointSpringSubsystem (rep : TwoPointSpringSubsystemRep)
| UniformGravitySubsystem (rep : UniformGravitySubsystemRep)
| EmptyForcesSubsystem.

(** Modelled from the spec: a hook a class does not override does nothing
    (the base class [ForceSubsystemRep] is not part of this header). *)
Definition realizeDynamics (f : ForceSubsystemRep) : M unit :=
  match f with
  | TwoPointSpringSubsystem rep => TwoPointSpring_realizeDynamics rep
  | UniformGravitySubsystem rep => UniformGravity_realizeDynamics rep
  | EmptyForcesSubsystem => ret tt
  end.

(** One Dynamics pass: the hooks of the subsystems one after the other. *)
Fixpoint realizeDynamicsAll (fs : list ForceSubsystemRep) : M unit :=
  match fs with
  | [] => ret tt
  | f :: fs' => _ <- realizeDynamics f ;; realizeDynamicsAll fs'
  end.

(** ** The realize hooks and the stage each requires *)

(** The realize hooks of the two classes. *)
Inductive Hook :=
| Spring_realizeModeling | Spring_realizeParameters | Spring_realizeTime
| Spring_realizeConfiguration | Spring_realizeMotion | Spring_realizeDynamics
| Spring_realizeReaction
| Gravity_realizeParameters | Gravity_realizeConfiguration
| Gravity_realizeDynamics.

Definition runHook (h : Hook) (spring : TwoPointSpringSubsystemRep)
  (gravity : UniformGravitySubsystemRep) : M unit :=
  match h with
  | Spring_realizeModeling => TwoPointSpring_realizeModeling spring
  | Spring_realizeParameters => TwoPointSpring_realizeParameters spring
  | Spring_realizeTime => TwoPointSpring_realizeTime spring
  | Spring_realizeConfiguration => TwoPointSpring_realizeConfiguration spring
  | Spring_realizeMotion => TwoPointSpring_realizeMotion spring
  | Spring_realizeDynamics => TwoPointSpring_realizeDynamics spring
  | Spring_realizeReaction => TwoPointSpring_realizeReaction spring
  | Gravity_realizeParameters => UniformGravity_realizeParameters gravity
  | Gravity_realizeConfiguration => UniformGravity_realizeConfiguration gravity
  | Gravity_realizeDynamics => UniformGravity_realizeDynamics gravity
  end.

(** The stage a hook realizes, and the stage before it on the ladder. *)
Definition hookStage (h : Hook) : Stage :=
  match h with
  | Spring_realizeModeling => Modeled
  | Spring_realizeParameters | Gravity_realizeParameters => Parametrized
  | Spring_realizeTime => Timed
  | Spring_realizeConfiguration | Gravity_realizeConfiguration => Configured
  | Spring_realizeMotion => Moving
  | Spring_realizeDynamics | Gravity_realizeDynamics => Dynamics
  | Spring_realizeReaction => Reaction
  end.
Definition Stage_prev (g : Stage) : Stage :=
  match g with
  | Allocated => Allocated | Built => Allocated | Modeled => Built
  | Parametrized => Modeled | Timed => Parametrized | Configured => Timed
  | Moving => Configured | Dynamics => Moving | Reaction => Dynamics
  end.
Definition requiredStage (h : Hook) : Stage := Stage_prev (hookStage h).

(** How a hook identifies itself in its reports. *)
Definition hookName (h : Hook) : string :=
  match h with
  | Spring_realizeModeling => "TwoPointSpring::realizeModeling()"
  | Spring_realizeParameters => "TwoPointSpring::realizeParameters()"
  | Spring_realizeTime => "TwoPointSpring::realizeTime()"
  | Spring_realizeConfiguration => "TwoPointSpring::realizeConfiguration()"
  | Spring_realizeMotion => "TwoPointSpring::realizeMotion()"
  | Spring_realizeDynamics => "TwoPointSpring::realizeDynamics()"
  | Spring_realizeReaction => "TwoPointSpring::realizeReaction()"
  | Gravity_realizeParameters => "UniformGravity::realizeParameters()"
  | Gravity_realizeConfiguration => "UniformGravity::realizeConfiguration()"
  | Gravity_realizeDynamics => "UniformGravity::realizeDynamics()"
  end.

Definition isStageTooLow (e : Exception) : bool :=
  match e with StageTooLow _ _ _ => true | _ => false end.
Definition isValueWasNegative (e : Exception) : bool :=
  match e with ValueWasNegative _ _ _ => true | _ => false end.
Definition threw {A} (P : Exception -> bool) (o : Outcome A) : bool :=
  match o with Threw e => P e | Returned _ => false end.

(** ** The accessors that write the variables *)

(** Modelled from the spec: [updDiscreteVariable] gives write access to a
    variable; mutating a variable invalidates what was realized at the
    variable's own stage or later, so a state that had reached that stage
    falls back to the stage before it. *)
Definition invalidateStage (g : Stage) (s : State) : State :=
  if Stage_ltb (stage s) g then s else set_stage (Stage_prev g) s.
Definition updDiscreteVariable (index : Z) : M AbstractValue :=
  vars <- gets discreteVars ;;
  slot <- orThrow (vec_get vars index) (BadAccess "updDiscreteVariable") ;;
  _ <- modify (invalidateStage (slotStage slot)) ;;
  ret (slotValue slot).
(** Assignment through the reference [updDiscreteVariable(s, index)] gave. *)
Definition putDiscreteVariable (index : Z) (v : AbstractValue) : M unit :=
  vars <- gets discreteVars ;;
  slot <- orThrow (vec_get vars index) (BadAccess "updDiscreteVariable") ;;
  modify (set_discreteVars
            (vec_set vars index (mkSlot (slotOwner slot) (slotStage slot) v))).

(** [updParameters] gives a reference to the [Parameters] in the slot;
    [putParameters] is the assignment of a field through that reference,
    written as the whole record with the field replaced. *)
Definition TwoPointSpring_updParameters (this : TwoPointSpringSubsystemRep)
  : M TwoPointSpring_Parameters :=
  v <- updDiscreteVariable (spring_parameterVarsIndex this) ;;
  match v with
  | Value_SpringParameters p => ret p
  | _ => throw (BadAccess "Value<Parameters>::downcast")
  end.
Definition TwoPointSpring_putParameters (this : TwoPointSpringSubsystemRep)
  (p : TwoPointSpring_Parameters) : M unit :=
  putDiscreteVariable (spring_parameterVarsIndex this) (Value_SpringParameters p).

Definition TwoPointSpring_getGravity (this : TwoPointSpringSubsystemRep) : M Vec3 :=
  p <- TwoPointSpring_getParameters this ;; ret (p_gravity p).

(** [updGravity(s) = g], [updDamping(s) = d], [updStiffness(s) = k] and
    [updNaturalLength(s) = x0]: the reference [updParameters(s)] gives, and
    the assignment to its field. *)
Definition TwoPointSpring_updGravity (this : TwoPointSpringSubsystemRep) (g : Vec3) : M unit :=
  p <- TwoPointSpring_updParameters this ;;
  TwoPointSpring_putParameters this
    (mkSpringParameters (p_stiffness p) (p_naturalLength p) g (p_damping p)).
Definition TwoPointSpring_updDamping (this : TwoPointSpringSubsystemRep) (d : Real) : M unit :=
  p <- TwoPointSpring_updParameters this ;;
  TwoPointSpring_putParameters this
    (mkSpringParameters (p_stiffness p) (p_naturalLength p) (p_gravity p) d).
Definition TwoPointSpring_updStiffness (this : TwoPointSpringSubsystemRep) (k : Real) : M unit :=
  p <- TwoPointSpring_updParameters this ;;
  TwoPointSpring_putParameters this
    (mkSpringParameters k (p_naturalLength p) (p_gravity p) (p_damping p)).
Definition TwoPointSpring_updNaturalLength (this : TwoPointSpringSubsystemRep) (x0 : Real)
  : M unit :=
  p <- TwoPointSpring_updParameters this ;;
  TwoPointSpring_putParameters this
    (mkSpringParameters (p_stiffness p) x0 (p_gravity p) (p_damping p)).

Definition UniformGravity_updParameters (this : UniformGravitySubsystemRep)
  : M UniformGravity_Parameters :=
  v <- updDiscreteVariable (gravity_parameterVarsIndex this) ;;
  match v with
  | Value_GravityParameters p => ret p
  | _ => throw (BadAccess "Value<Parameters>::downcast")
  end.
Definition UniformGravity_putParameters (this : UniformGravitySubsystemRep)
  (p : UniformGravity_Parameters) : M unit :=
  putDiscreteVariable (gravity_parameterVarsIndex this) (Value_GravityParameters p).

(** [updGravity(s) = g], [updZeroHeight(s) = z] and [updIsEnabled(s) = b]. *)
Definition UniformGravity_updGravity (this : UniformGravitySubsystemRep) (g : Vec3) : M unit :=
  p <- UniformGravity_updParameters this ;;
  UniformGravity_putParameters this
    (mkGravityParameters g (gp_zeroHeight p) (gp_enabled p)).
Definition UniformGravity_updZeroHeight (this : UniformGravitySubsystemRep) (z : Real) : M unit :=
  p <- UniformGravity_updParameters this ;;
  UniformGravity_putParameters this
    (mkGravityParameters (gp_gravity p) z (gp_enabled p)).
Definition UniformGravity_updIsEnabled (this : UniformGravitySubsystemRep) (b : bool) : M unit :=
  p <- UniformGravity_updParameters this ;;
  UniformGravity_putParameters this
    (mkGravityParameters (gp_gravity p) (gp_zeroHeight p) b).

(** ** The constructors *)

(** The constructors set the topological variables and the default
    parameters and [built(false)]; the indices are left as they are
    (garbage unless built): [uninitialized] stands for what they hold.
    The index of the subsystem is the one its system gave it. *)
Definition TwoPointSpringSubsystemRep_new (b1 : Z) (s1 : Vec3) (b2 : Z) (s2 : Vec3)
  (k x0 : Real) (mySubsystemIndex : Z) (uninitialized : Z * Z * Z)
  : TwoPointSpringSubsystemRep :=
  let '(i1, i2, i3) := uninitialized in
  mkSpringRep mySubsystemIndex b1 b2 s1 s2 (TwoPointSpring_Parameters_init k x0)
    i1 i2 i3 false.
Definition UniformGravitySubsystemRep_default (mySubsystemIndex : Z)
  (uninitialized : Z * Z * Z) : UniformGravitySubsystemRep :=
  let '(i1, i2, i3) := uninitialized in
  mkGravityRep mySubsystemIndex UniformGravity_Parameters_default i1 i2 i3 false.
Definition UniformGravitySubsystemRep_new (g : Vec3) (z : Real) (mySubsystemIndex : Z)
  (uninitialized : Z * Z * Z) : UniformGravitySubsystemRep :=
  let '(i1, i2, i3) := uninitialized in
  mkGravityRep mySubsystemIndex (UniformGravity_Parameters_init g z) i1 i2 i3 false.

(** * The vocabulary of the properties *)

(** ** Closed forms of what the hooks compute *)

(** What the spring's realizeConfiguration computes from the parameters
    [p] and the two bodies. *)
Definition spring_configuration (this : TwoPointSpringSubsystemRep)
  (p : TwoPointSpring_Parameters) (b1 b2 : Body) : TwoPointSpring_ConfigurationCache :=
  let X_GB1 := bodyConfiguration b1 in
  let X_GB2 := bodyConfiguration b2 in
  let station1_G := Rotation_apply (X_R X_GB1) (station1 this) in
  let station2_G := Rotation_apply (X_R X_GB2) (station2 this) in
  let p1_G := Vec3_add (X_T X_GB1) station1_G in
  let p2_G := Vec3_add (X_T X_GB2) station2_G in
  let v_G := Vec3_sub p2_G p1_G in
  let x := Vec3_norm v_G in
  let stretch := (x - p_naturalLength p)%real in
  let fscalar := (p_stiffness p * stretch)%real in
  let pe := (rhalf * fscalar * stretch)%real in
  mkSpringConfigurationCache station1_G station2_G v_G x fscalar pe.

(** The state after the spring's realizeDynamics has run through. *)
Definition spring_dynamics_result (this : TwoPointSpringSubsystemRep)
  (cc : TwoPointSpring_ConfigurationCache) (p : TwoPointSpring_Parameters)
  (matter : MatterSubsystem) (slot : Slot)
  (rbf : list SpatialVec) (F1 F2 : SpatialVec) (mf : list Real) (s : State) : State :=
  let f1_G := Vec3_scale (cc_fscalar cc / cc_x cc)%real (cc_v_G cc) in
  let rbf1 := vec_set rbf (body1 this)
                (SpatialVec_add F1 (mkSpatialVec (Vec3_cross (cc_station1_G cc) f1_G) f1_G)) in
  let rbf2 := vec_set rbf1 (body2 this)
                (SpatialVec_sub F2 (mkSpatialVec (Vec3_cross (cc_station2_G cc) f1_G) f1_G)) in
  mkState (stage s) (discreteVars s)
    (vec_set (cacheEntries s) (spring_dynamicsCacheIndex this)
       (mkSlot (slotOwner slot) (slotStage slot)
          (Value_SpringDynamicsCache (mkSpringDynamicsCache f1_G))))
    (matterSubsystems s)
    (vec_set (vec_set (rigidBodyForces s) 0 rbf1) 0 rbf2)
    (particleForces s)
    (if negb (reqb (p_damping p) r0)
     then vec_set (mobilityForces s) 0
            (zip_with rsub mf (map (rmul (p_damping p)) (matterU matter)))
     else mobilityForces s)
    (potentialEnergy s + cc_pe cc)%real.

(** What gravity's realizeParameters computes from the parameters [p]. *)
Definition gravity_parameterCache (p : UniformGravity_Parameters)
  : UniformGravity_ParameterCache :=
  let g := gp_gravity p in
  let gMagnitude := Vec3_norm g in
  mkGravityParameterCache
    (mkUnitVec3_trusted
       (if reqb gMagnitude r0 then mkVec3 r0 r0 r1 else Vec3_over g gMagnitude))
    gMagnitude.

(** What gravity adds to a particle and to a body. *)
Definition gravity_particleForce (g : Vec3) (f : Vec3) (m : Real) : Vec3 :=
  Vec3_add f (Vec3_times g m).

Definition gravity_bodyForce (g : Vec3) (F : SpatialVec) (b : Body) : SpatialVec :=
  let com_B_G := Rotation_apply (X_R (bodyConfiguration b)) (bodyCenterOfMass b) in
  SpatialVec_add F
    (mkSpatialVec (Vec3_cross com_B_G (Vec3_scale (bodyMass b) g))
                  (Vec3_scale (bodyMass b) g)).

Definition gravity_bodyEnergy (g : Vec3) (gh0 : Real) (pe : Real) (b : Body) : Real :=
  let com_B_G := Rotation_apply (X_R (bodyConfiguration b)) (bodyCenterOfMass b) in
  let com_G := Vec3_add (X_T (bodyConfiguration b)) com_B_G in
  (pe + bodyMass b * (Vec3_dot g com_G - gh0))%real.

(** The body of the loop over the matter subsystems. *)
Definition gravity_subsystem_body (g : Vec3) (gh0 : Real) (msub : Z) : M unit :=
  matter <- getMatterSubsystem msub ;;
  let nBodies := getNBodies matter in
  let nParticles := getNParticles matter in
  _ <- updRigidBodyForces msub ;;
  _ <- updParticleForces msub ;;
  rsize <- rigidBodyForces_size msub ;;
  _ <- assert_ (rsize =? nBodies) "rigidBodyForces.size() == nBodies" ;;
  psize <- particleForces_size msub ;;
  _ <- assert_ (psize =? nParticles) "particleForces.size() == nParticles" ;;
  _ <- (if negb (nParticles =? 0)
        then for_ nParticles (fun i =>
               m_i <- getParticleMass matter i ;;
               particleForces_addAt msub i (Vec3_times g m_i))
        else ret tt) ;;
  for_ nBodies (fun i =>
    m <- getBodyMass matter i ;;
    com_B <- getBodyCenterOfMass matter i ;;
    X_GB <- getBodyConfiguration matter i ;;
    let com_B_G := Rotation_apply (X_R X_GB) com_B in
    let com_G := Vec3_add (X_T X_GB) com_B_G in
    _ <- potentialEnergy_add (m * (Vec3_dot g com_G - gh0))%real ;;
    rigidBodyForces_addAt msub i
      (mkSpatialVec (Vec3_cross com_B_G (Vec3_scale m g)) (Vec3_scale m g))).

(** What gravity does to the buffers and the energy of one matter subsystem. *)
Definition gravity_subsystem_rbf (g : Vec3) (rbf : list SpatialVec) (matter : MatterSubsystem) :=
  zip_with (gravity_bodyForce g) rbf (matterBodies matter).

Definition gravity_subsystem_pf (g : Vec3) (pf : list Vec3) (matter : MatterSubsystem) :=
  zip_with (gravity_particleForce g) pf (matterParticleMasses matter).

Definition gravity_subsystem_pe (g : Vec3) (gh0 : Real) (pe : Real) (matter : MatterSubsystem) :=
  fold_left (gravity_bodyEnergy g gh0) (matterBodies matter) pe.

Definition bodiesSized (rbf : list SpatialVec) (matter : MatterSubsystem) : Prop :=
  length rbf = length (matterBodies matter).

Definition particlesSized (pf : list Vec3) (matter : MatterSubsystem) : Prop :=
  length pf = length (matterParticleMasses matter).

(** The state after gravity's realizeDynamics has run through with a
    nonzero cached magnitude. *)
Definition gravity_dynamics_result (p : UniformGravity_Parameters)
  (pc : UniformGravity_ParameterCache) (s : State) : State :=
  let g := gp_gravity p in
  let gh0 := (pc_gMagnitude pc * gp_zeroHeight p)%real in
  mkState (stage s) (discreteVars s) (cacheEntries s) (matterSubsystems s)
    (zip_with (gravity_subsystem_rbf g) (rigidBodyForces s) (matterSubsystems s))
    (zip_with (gravity_subsystem_pf g) (particleForces s) (matterSubsystems s))
    (mobilityForces s)
    (fold_left (gravity_subsystem_pe g gh0) (matterSubsystems s) (potentialEnergy s)).

(** ** What a computation reports, keeps and reads

    [noStageError m]: [m] never reports a stage error.
    [keeps P m]: whatever [m] does, the state after it is [P]-related to
    the state before.  [lockstep R m]: run on two [R]-related states, [m]
    has the same outcome and leaves [R]-related states; so [m] reads
    nothing that [R] lets differ. *)

Definition noStageError {A} (m : M A) : Prop :=
  forall s, threw isStageTooLow (fst (m s)) = false.

Definition keeps (P : State -> State -> Prop) {A} (m : M A) : Prop :=
  forall s, P s (snd (m s)).

Definition lockstep (R : State -> State -> Prop) {A} (m : M A) : Prop :=
  forall s t, R s t -> fst (m s) = fst (m t) /\ R (snd (m s)) (snd (m t)).

(** The force buffers of every matter subsystem but 0 are as before. *)
Definition othersKept (s t : State) : Prop :=
  forall msub, msub <> 0 ->
    vec_get (rigidBodyForces t) msub = vec_get (rigidBodyForces s) msub /\
    vec_get (particleForces t) msub = vec_get (particleForces s) msub /\
    vec_get (mobilityForces t) msub = vec_get (mobilityForces s) msub.

(** Two states that differ at most in the matter subsystems other than 0
    and in their force buffers. *)
Definition agreeOnSubsystem0 (s t : State) : Prop :=
  stage s = stage t /\
  discreteVars s = discreteVars t /\
  cacheEntries s = cacheEntries t /\
  potentialEnergy s = potentialEnergy t /\
  vec_get (matterSubsystems s) 0 = vec_get (matterSubsystems t) 0 /\
  vec_get (rigidBodyForces s) 0 = vec_get (rigidBodyForces t) 0 /\
  vec_get (particleForces s) 0 = vec_get (particleForces t) 0 /\
  vec_get (mobilityForces s) 0 = vec_get (mobilityForces t) 0.

(** ** The accumulators as a whole *)

(** The contents of the force accumulators of a state. *)
Record Forces := mkForces {
  F_rigidBody : list (list SpatialVec);
  F_particle : list (list Vec3);
  F_mobility : list (list Real);
  F_potentialEnergy : Real
}.

Definition forcesOf (s : State) : Forces :=
  mkForces (rigidBodyForces s) (particleForces s) (mobilityForces s)
           (potentialEnergy s).

Definition withForces (f : Forces) (s : State) : State :=
  mkState (stage s) (discreteVars s) (cacheEntries s) (matterSubsystems s)
          (F_rigidBody f) (F_particle f) (F_mobility f) (F_potentialEnergy f).

(** The elementwise sum of two accumulator contents. *)
Definition Forces_add (a b : Forces) : Forces :=
  mkForces (zip_with (zip_with SpatialVec_add) (F_rigidBody a) (F_rigidBody b))
           (zip_with (zip_with Vec3_add) (F_particle a) (F_particle b))
           (zip_with (zip_with radd) (F_mobility a) (F_mobility b))
           (F_potentialEnergy a + F_potentialEnergy b)%real.

(** Zeroed accumulators of the sizes of [a]. *)
Definition Forces_zero (a : Forces) : Forces :=
  mkForces (map (map (fun _ => SpatialVec_zero)) (F_rigidBody a))
           (map (map (fun _ => Vec3_zero)) (F_particle a))
           (map (map (fun _ => r0)) (F_mobility a))
           r0.

Definition sameShape {A B} (l : list (list A)) (k : list (list B)) : Prop :=
  Forall2 (fun x y => length x = length y) l k.

Definition Forces_sameShape (a b : Forces) : Prop :=
  sameShape (F_rigidBody a) (F_rigidBody b) /\
  sameShape (F_particle a) (F_particle b) /\
  sameShape (F_mobility a) (F_mobility b).

(** The state with its accumulators zeroed, as at the start of a Dynamics
    pass, and what a force subsystem alone adds to zeroed accumulators. *)
Definition zeroed (s : State) : State := withForces (Forces_zero (forcesOf s)) s.

Definition contribution (f : ForceSubsystemRep) (s : State) : Forces :=
  forcesOf (snd (realizeDynamics f (zeroed s))).

(** Two cache slots are alike when they are equal or both hold a spring's
    DynamicsCache, which realizeDynamics writes before it reads. *)
Definition slotsAlike (a b : Slot) : Prop :=
  a = b \/
  exists d1 d2, slotValue a = Value_SpringDynamicsCache d1 /\
                slotValue b = Value_SpringDynamicsCache d2.

(** Two states with the same inputs of a Dynamics pass and accumulators of
    the same sizes. *)
Definition inputsAlike (s t : State) : Prop :=
  stage s = stage t /\
  discreteVars s = discreteVars t /\
  Forall2 slotsAlike (cacheEntries s) (cacheEntries t) /\
  matterSubsystems s = matterSubsystems t /\
  Forces_sameShape (forcesOf s) (forcesOf t).

(** The cache entries at [index] of the two states have the same tag. *)
Definition sameTagAt (index : Z) (s t : State) : Prop :=
  option_map slotStage (vec_get (cacheEntries s) index) =
  option_map slotStage (vec_get (cacheEntries t) index).

(** Every cache entry has the same tag in both states. *)
Definition tagsAlike (s t : State) : Prop :=
  forall index, sameTagAt index s t.

(** [t] is [s] with [a] added to its accumulators; the cache entry at
    [index], the one the hook at hand reads, is tagged alike in both. *)
Definition shifted (index : Z) (a : Forces) (s t : State) : Prop :=
  inputsAlike s t /\
  sameTagAt index s t /\
  Forces_sameShape (forcesOf s) a /\
  forcesOf t = Forces_add (forcesOf s) a.

(** The cache entry a force subsystem reads in its realizeDynamics. *)
Definition cacheRead (f : ForceSubsystemRep) : Z :=
  match f with
  | TwoPointSpringSubsystem rep => spring_configurationCacheIndex rep
  | UniformGravitySubsystem rep => gravity_parameterCacheIndex rep
  | EmptyForcesSubsystem => 0
  end.

(** ** What a hook leaves of the slots *)

(** The cache entry at [index] is allocated and may be read at stage [g]:
    its tag is not above [g]. *)
Definition cacheReadableAt (g : Stage) (index : Z) (s : State) : bool :=
  match vec_get (cacheEntries s) index with
  | Some slot => negb (Stage_ltb g (slotStage slot))
  | None => false
  end.

(** Every slot of [s] is in [s'], at the index it had. *)
Definition slotsKept (s s' : State) : Prop :=
  (forall i slot, vec_get (discreteVars s) i = Some slot ->
                  vec_get (discreteVars s') i = Some slot) /\
  (forall i slot, vec_get (cacheEntries s) i = Some slot ->
                  vec_get (cacheEntries s') i = Some slot).

(** [l'] is [l] but for the value of the slot at [i]: as many slots, the
    other slots as they were, and the slot at [i] with its owner and its
    stage tag. *)
Definition slotsExcept (i : Z) (l l' : list Slot) : Prop :=
  vec_size l' = vec_size l /\
  (forall j, j <> i -> vec_get l' j = vec_get l j) /\
  (forall slot, vec_get l i = Some slot ->
     exists slot', vec_get l' i = Some slot' /\
                   slotOwner slot' = slotOwner slot /\
                   slotStage slot' = slotStage slot).

(** [s'] is [s] but for the value of the cache entry at [i]. *)
Definition wroteCacheEntry (i : Z) (s s' : State) : Prop :=
  stage s' = stage s /\
  discreteVars s' = discreteVars s /\
  matterSubsystems s' = matterSubsystems s /\
  forcesOf s' = forcesOf s /\
  slotsExcept i (cacheEntries s) (cacheEntries s').

(** [s'] is [s] but for the value of the variable at [i] and the stage,
    fallen back below the variable's stage tag. *)
Definition wroteVariable (i : Z) (s s' : State) : Prop :=
  (forall slot, vec_get (discreteVars s) i = Some slot ->
     stage s' = stage (invalidateStage (slotStage slot) s)) /\
  cacheEntries s' = cacheEntries s /\
  matterSubsystems s' = matterSubsystems s /\
  forcesOf s' = forcesOf s /\
  slotsExcept i (discreteVars s) (discreteVars s').

(** The hooks with nothing to compute. *)
Definition computesNothing (h : Hook) : bool :=
  match h with
  | Spring_realizeModeling | Spring_realizeParameters | Spring_realizeTime
  | Spring_realizeMotion | Spring_realizeReaction
  | Gravity_realizeConfiguration => true
  | _ => false
  end.

(** What gravity's realizeDynamics leaves as it was: all but the rigid
    body forces, the particle forces and the potential energy. *)
Definition keptByGravityDynamics (s s' : State) : Prop :=
  stage s' = stage s /\
  discreteVars s' = discreteVars s /\
  cacheEntries s' = cacheEntries s /\
  matterSubsystems s' = matterSubsystems s /\
  mobilityForces s' = mobilityForces s.

(** What the spring's realizeDynamics leaves as it was: the stage, the
    variables, the matter subsystems, the particle forces and every cache
    entry but the value of the one at [i]. *)
Definition keptBySpringDynamics (i : Z) (s s' : State) : Prop :=
  stage s' = stage s /\
  discreteVars s' = discreteVars s /\
  matterSubsystems s' = matterSubsystems s /\
  particleForces s' = particleForces s /\
  slotsExcept i (cacheEntries s) (cacheEntries s').

End Model.

Arguments Returned {Real A} a.
Arguments Threw {Real A} e.

(** * Values of binary64 *)

Definition b64_nan : binary64 := S754_nan.
Definition Vec3_nan : @Vec3 binary64 := mkVec3 b64_nan b64_nan b64_nan.
Definition SpatialVec_nan : @SpatialVec binary64 := mkSpatialVec Vec3_nan Vec3_nan.
Definition b64_is_finite (x : binary64) : bool :=
  match x with S754_zero _ | S754_finite _ _ _ => true | _ => false end.
Definition Vec3_is_finite (v : @Vec3 binary64) : bool :=
  b64_is_finite (vx v) && b64_is_finite (vy v) && b64_is_finite (vz v).

(** * A concrete system in binary64 *)

Definition f64 (z : Z) : binary64 := b64_of_Z z.
Definition v64 (x y z : Z) : @Vec3 binary64 := mkVec3 (f64 x) (f64 y) (f64 z).
Definition identity64 : @Rotation binary64 :=
  mkRotation (v64 1 0 0) (v64 0 1 0) (v64 0 0 1).
(** Matter subsystem 0: a body of mass 2 with its center of mass at height
    5, a body of mass 3 at (2, 0, 0), one particle, two mobilities.
    Matter subsystem 1: one body and two particles. *)
Definition example_bodyA : @Body binary64 :=
  mkBody (f64 2) (v64 0 5 0) (mkTransform identity64 (v64 0 0 0)).
Definition example_bodyB : @Body binary64 :=
  mkBody (f64 3) (v64 0 0 0) (mkTransform identity64 (v64 2 0 0)).
Definition example_bodyC : @Body binary64 :=
  mkBody (f64 1) (v64 0 0 0) (mkTransform identity64 (v64 0 1 0)).
Definition example_matter0 : @MatterSubsystem binary64 :=
  mkMatterSubsystem [example_bodyA; example_bodyB] [f64 1] [f64 1; f64 2].
Definition example_matter1 : @MatterSubsystem binary64 :=
  mkMatterSubsystem [example_bodyC] [f64 1; f64 2] [].
(** A spring of stiffness 100 and natural length 1 between the origins of
    the two bodies of subsystem 0, and gravity (0, -10, 0). *)
Definition example_spring0 : @TwoPointSpringSubsystemRep binary64 :=
  mkSpringRep 0 0 1 (v64 0 0 0) (v64 0 0 0)
    (TwoPointSpring_Parameters_init (f64 100) (f64 1)) (-1) (-1) (-1) false.
Definition example_gravity0 : @UniformGravitySubsystemRep binary64 :=
  mkGravityRep 1 (UniformGravity_Parameters_init (v64 0 (-10) 0) (f64 0))
    (-1) (-1) (-1) false.
Definition example_allocated : @State binary64 :=
  mkState Allocated [] [] [example_matter0; example_matter1]
    [[SpatialVec_zero; SpatialVec_zero]; [SpatialVec_zero]]
    [[Vec3_zero]; [Vec3_zero; Vec3_zero]]
    [[f64 0; f64 0]; []]
    (f64 0).
(** The two subsystems after realizeConstruction, and the state then. *)
Definition example_spring : @TwoPointSpringSubsystemRep binary64 :=
  mkSpringRep 0 0 1 (v64 0 0 0) (v64 0 0 0)
    (TwoPointSpring_Parameters_init (f64 100) (f64 1)) 0 0 1 true.
Definition example_gravity : @UniformGravitySubsystemRep binary64 :=
  mkGravityRep 1 (UniformGravity_Parameters_init (v64 0 (-10) 0) (f64 0))
    1 2 (-1) true.
(** What the uninitialized cache entries happen to hold. *)
Definition example_uninitialized_spring
  : @TwoPointSpring_ConfigurationCache binary64 * @TwoPointSpring_DynamicsCache binary64 :=
  (mkSpringConfigurationCache (v64 7 7 7) (v64 7 7 7) (v64 7 7 7) (f64 7) (f64 7) (f64 7),
   mkSpringDynamicsCache (v64 7 7 7)).
Definition example_uninitialized_gravity : @UniformGravity_ParameterCache binary64 :=
  mkGravityParameterCache (mkUnitVec3_trusted (v64 7 7 7)) (f64 7).
Definition example_built : @State binary64 :=
  Eval vm_compute in
    snd (bind (TwoPointSpring_realizeConstruction example_spring0
                 example_uninitialized_spring)
           (fun _ => UniformGravity_realizeConstruction example_gravity0
                       example_uninitialized_gravity)
           example_allocated).
(** Up to the Timed stage, with both realizeParameters run. *)
Definition example_timed : @State binary64 :=
  Eval vm_compute in
    snd (bind (TwoPointSpring_realizeParameters example_spring)
           (fun _ => UniformGravity_realizeParameters example_gravity)
           (set_stage Timed example_built)).
(** Up to the Moving stage, with the spring's realizeConfiguration run. *)
Definition example_moving : @State binary64 :=
  Eval vm_compute in
    set_stage Moving
      (snd (TwoPointSpring_realizeConfiguration example_spring example_timed)).
(** The same system with gravity switched off, with a damped spring, and
    with the second station moved onto the first. *)
Definition example_disabled : @State binary64 :=
  set_discreteVars
    [mkSlot 0 Parametrized
       (Value_SpringParameters (TwoPointSpring_Parameters_init (f64 100) (f64 1)));
     mkSlot 1 Parametrized
       (Value_GravityParameters (mkGravityParameters (v64 0 (-10) 0) (f64 0) false))]
    example_moving.
Definition example_damped : @State binary64 :=
  set_discreteVars
    [mkSlot 0 Parametrized
       (Value_SpringParameters
          (mkSpringParameters (f64 100) (f64 1) Vec3_zero b64_half));
     mkSlot 1 Parametrized
       (Value_GravityParameters (UniformGravity_Parameters_init (v64 0 (-10) 0) (f64 0)))]
    example_moving.
Definition example_negative : @State binary64 :=
  set_discreteVars
    [mkSlot 0 Parametrized
       (Value_SpringParameters (TwoPointSpring_Parameters_init (f64 (-1)) (f64 1)));
     mkSlot 1 Parametrized
       (Value_GravityParameters (UniformGravity_Parameters_init (v64 0 (-10) 0) (f64 0)))]
    example_timed.
Definition example_coincident_spring : @TwoPointSpringSubsystemRep binary64 :=
  mkSpringRep 0 0 1 (v64 2 0 0) (v64 0 0 0)
    (TwoPointSpring_Parameters_init (f64 100) (f64 1)) 0 0 1 true.

(** The Moving state with the rigid body forces of matter subsystem 0
    one slot short. *)
Definition example_missized : @State binary64 :=
  set_rigidBodyForces [[SpatialVec_zero]; [SpatialVec_zero]] example_moving.
(** Gravity alone, built, in a system whose one matter subsystem has no
    bodies, no particles and no mobilities. *)
Definition example_gravity_alone : @UniformGravitySubsystemRep binary64 :=
  mkGravityRep 0 (UniformGravity_Parameters_init (v64 0 (-10) 0) (f64 0)) 0 0 (-1) true.
Definition example_massless : @State binary64 :=
  mkState Moving
    [mkSlot 0 Parametrized
       (Value_GravityParameters (UniformGravity_Parameters_init (v64 0 (-10) 0) (f64 0)))]
    [mkSlot 0 Parametrized
       (Value_GravityParameterCache
          (mkGravityParameterCache (mkUnitVec3_trusted (v64 0 (-1) 0)) (f64 10)))]
    [mkMatterSubsystem [] [] []] [[]] [[]] [[]] (f64 0).

(** Two gravity vectors that are not zero and whose norm is not computed
    as it is: with 2^600 in one component the sum of the squares
    overflows, with 2^-600 it underflows. *)
Definition b64_huge : binary64 := Eval vm_compute in f64 (2 ^ 600).
Definition b64_faint : binary64 := Eval vm_compute in rdiv (f64 1) (f64 (2 ^ 600)).
Definition example_huge_parameters : @UniformGravity_Parameters binary64 :=
  UniformGravity_Parameters_init (mkVec3 b64_huge (f64 0) (f64 0)) (f64 0).
Definition example_faint_parameters : @UniformGravity_Parameters binary64 :=
  UniformGravity_Parameters_init (mkVec3 (f64 0) b64_faint (f64 0)) (f64 0).
(** The system of [example_allocated] with [example_gravity_alone] as its
    one force subsystem, at the Modeled stage, with each of the two. *)
Definition example_huge : @State binary64 :=
  mkState Modeled
    [mkSlot 0 Parametrized (Value_GravityParameters example_huge_parameters)]
    [mkSlot 0 Parametrized (Value_GravityParameterCache example_uninitialized_gravity)]
    [example_matter0; example_matter1]
    [[SpatialVec_zero; SpatialVec_zero]; [SpatialVec_zero]]
    [[Vec3_zero]; [Vec3_zero; Vec3_zero]]
    [[f64 0; f64 0]; []]
    (f64 0).
Definition example_faint : @State binary64 :=
  set_discreteVars
    [mkSlot 0 Parametrized (Value_GravityParameters example_faint_parameters)]
    example_huge.
(** A gravity vector of norm 7, and the direction computed for it. *)
Definition example_slanted_parameters : @UniformGravity_Parameters binary64 :=
  UniformGravity_Parameters_init (v64 2 3 6) (f64 0).
Definition example_slanted : @State binary64 :=
  set_discreteVars
    [mkSlot 0 Parametrized (Value_GravityParameters example_slanted_parameters)]
    example_huge.
Definition example_slanted_direction : @UnitVec3 binary64 :=
  Eval vm_compute in mkUnitVec3_trusted (Vec3_over (v64 2 3 6) (f64 7)).
(** The three after realizeParameters. *)
Definition example_slanted_realized : @State binary64 :=
  Eval vm_compute in
    snd (UniformGravity_realizeParameters example_gravity_alone example_slanted).
Definition example_huge_realized : @State binary64 :=
  Eval vm_compute in
    snd (UniformGravity_realizeParameters example_gravity_alone example_huge).
Definition example_faint_realized : @State binary64 :=
  Eval vm_compute in
    snd (UniformGravity_realizeParameters example_gravity_alone example_faint).

(** * A concrete state over the reals *)

(** A state over the reals with gravity (0, -10, 0) at the Modeled stage. *)
Definition example_gravityR : @UniformGravitySubsystemRep R :=
  mkGravityRep 0 (UniformGravity_Parameters_init (mkVec3 0 (-10) 0) 0)%R 0 0 (-1) true.
Definition example_modeledR : @State R :=
  mkState Modeled
    [mkSlot 0 Parametrized
       (Value_GravityParameters (UniformGravity_Parameters_init (mkVec3 0 (-10) 0) 0)%R)]
    [mkSlot 0 Parametrized
       (Value_GravityParameterCache
          (mkGravityParameterCache (mkUnitVec3_trusted (mkVec3 7 7 7)) 7)%R)]
    [] [] [] [] 0%R.

(** A state over the reals at the Moving stage: gravity (0, -10, 0) with
    its cache filled, one body of mass 2 at height 5, and accumulators
    that are not zero. *)
Definition example_movingR : @State R :=
  mkState Moving
    [mkSlot 0 Parametrized
       (Value_GravityParameters (UniformGravity_Parameters_init (mkVec3 0 (-10) 0) 0)%R)]
    [mkSlot 0 Parametrized
       (Value_GravityParameterCache
          (mkGravityParameterCache (mkUnitVec3_trusted (mkVec3 0 (-1) 0)) 10)%R)]
    [mkMatterSubsystem
       [mkBody 2 (mkVec3 0 0 0)
          (mkTransform (mkRotation (mkVec3 1 0 0) (mkVec3 0 1 0) (mkVec3 0 0 1))
             (mkVec3 0 5 0))]%R
       [] []]
    [[mkSpatialVec (mkVec3 0 0 0) (mkVec3 1 0 0)]%R] [[]] [[]] 3%R.

(** * Properties *)

Section Properties.
Context {Real : RealType} {ops : RealOps Real}.

Local Notation "x <- m ;; k" := (bind m (fun x => k))
  (at level 20, m at level 99, k at level 200, only parsing).

(** ** Running the monad *)

Lemma bind_returned {A B} (m : M A) (k : A -> M B) s a s' :
  m s = (Returned a, s') -> bind m k s = k a s'.
Proof. unfold bind. intros ->. reflexivity. Qed.

Lemma bind_threw {A B} (m : M A) (k : A -> M B) s e s' :
  m s = (Threw e, s') -> bind m k s = (Threw e, s').
Proof. unfold bind. intros ->. reflexivity. Qed.

Lemma stagecheck_low g w s :
  Stage_ltb (stage s) g = true ->
  SimTK_STAGECHECK_GE_ALWAYS g w s = (Threw (StageTooLow (stage s) g w), s).
Proof. unfold SimTK_STAGECHECK_GE_ALWAYS, bind, gets. intros ->. reflexivity. Qed.

Lemma stagecheck_ok g w s :
  Stage_ltb (stage s) g = false ->
  SimTK_STAGECHECK_GE_ALWAYS g w s = (Returned tt, s).
Proof. unfold SimTK_STAGECHECK_GE_ALWAYS, bind, gets. intros ->. reflexivity. Qed.

(** ** Which computations never report a stage error *)

Create HintDb nostage.

Lemma noStageError_ret {A} (a : A) : noStageError (ret a).
Proof. intros s. reflexivity. Qed.
Lemma noStageError_gets {A} (f : State -> A) : noStageError (gets f).
Proof. intros s. reflexivity. Qed.
Lemma noStageError_modify f : noStageError (modify f).
Proof. intros s. reflexivity. Qed.
Lemma noStageError_throw {A} e :
  isStageTooLow e = false -> noStageError (throw (A:=A) e).
Proof. intros H s. exact H. Qed.
Lemma noStageError_bind {A B} (m : M A) (k : A -> M B) :
  noStageError m -> (forall a, noStageError (k a)) -> noStageError (bind m k).
Proof.
  intros Hm Hk s. unfold bind. specialize (Hm s).
  destruct (m s) as [[a|e] s']; simpl in *.
  - apply Hk.
  - exact Hm.
Qed.
Lemma noStageError_orThrow {A} (o : option A) what :
  noStageError (orThrow o (BadAccess what)).
Proof. destruct o; intros s; reflexivity. Qed.
Lemma noStageError_assert c e : noStageError (assert_ c e).
Proof. destruct c; intros s; reflexivity. Qed.
Lemma noStageError_valuecheck v n w :
  noStageError (SimTK_VALUECHECK_NONNEG_ALWAYS v n w).
Proof.
  unfold SimTK_VALUECHECK_NONNEG_ALWAYS. destruct (rltb v r0); intros s; reflexivity.
Qed.
Lemma noStageError_forUpTo n : forall lo body,
  (forall i, noStageError (body i)) -> noStageError (forUpTo lo n body).
Proof.
  induction n as [|n IH]; intros lo body Hb; simpl.
  - apply noStageError_ret.
  - apply noStageError_bind; [apply Hb|]. intros _. apply IH, Hb.
Qed.
Lemma noStageError_if {A} (b : bool) (m1 m2 : M A) :
  noStageError m1 -> noStageError m2 -> noStageError (if b then m1 else m2).
Proof. destruct b; auto. Qed.

#[local] Hint Resolve noStageError_ret noStageError_gets noStageError_modify
  noStageError_orThrow noStageError_assert noStageError_valuecheck
  noStageError_if : nostage.

Ltac nostage :=
  repeat first
    [ progress intros
    | apply noStageError_bind
    | apply noStageError_forUpTo
    | apply noStageError_if
    | apply noStageError_throw; reflexivity
    | solve [auto with nostage]
    | match goal with
      | |- noStageError (match ?v with _ => _ end) => destruct v
      end ].

Lemma noStageError_getDiscreteVariable i : noStageError (getDiscreteVariable i).
Proof. unfold getDiscreteVariable. nostage. Qed.
Lemma noStageError_getCacheEntry i : noStageError (getCacheEntry i).
Proof. unfold getCacheEntry. nostage. Qed.
Lemma noStageError_updCacheEntry i : noStageError (updCacheEntry i).
Proof. unfold updCacheEntry. nostage. Qed.
Lemma noStageError_putCacheEntry i v : noStageError (putCacheEntry i v).
Proof. unfold putCacheEntry. nostage. Qed.
Lemma noStageError_getMatterSubsystem i : noStageError (getMatterSubsystem i).
Proof. unfold getMatterSubsystem. nostage. Qed.
Lemma noStageError_getBody m i : noStageError (getBody m i).
Proof. unfold getBody. nostage. Qed.
Lemma noStageError_vectorRef {E} (get : State -> list (list E)) what msub :
  noStageError (vectorRef get what msub).
Proof. unfold vectorRef. nostage. Qed.
Lemma noStageError_vectorModifyAt {E} (get : State -> list (list E)) set what msub i f :
  noStageError (vectorModifyAt get set what msub i f).
Proof. unfold vectorModifyAt. nostage. Qed.

#[local] Hint Resolve noStageError_getDiscreteVariable noStageError_getCacheEntry
  noStageError_updCacheEntry noStageError_putCacheEntry noStageError_getMatterSubsystem noStageError_getBody
  noStageError_vectorRef noStageError_vectorModifyAt : nostage.

Lemma noStageError_spring_getParameters this :
  noStageError (TwoPointSpring_getParameters this).
Proof. unfold TwoPointSpring_getParameters. nostage. Qed.
Lemma noStageError_spring_getConfigurationCache this :
  noStageError (TwoPointSpring_getConfigurationCache this).
Proof. unfold TwoPointSpring_getConfigurationCache. nostage. Qed.
Lemma noStageError_spring_getDynamicsCache this :
  noStageError (TwoPointSpring_getDynamicsCache this).
Proof. unfold TwoPointSpring_getDynamicsCache. nostage. Qed.
Lemma noStageError_spring_updConfigurationCache this :
  noStageError (TwoPointSpring_updConfigurationCache this).
Proof. unfold TwoPointSpring_updConfigurationCache. nostage. Qed.
Lemma noStageError_spring_updDynamicsCache this :
  noStageError (TwoPointSpring_updDynamicsCache this).
Proof. unfold TwoPointSpring_updDynamicsCache. nostage. Qed.
Lemma noStageError_gravity_updParameterCache this :
  noStageError (UniformGravity_updParameterCache this).
Proof. unfold UniformGravity_updParameterCache. nostage. Qed.
Lemma noStageError_gravity_getParameters this :
  noStageError (UniformGravity_getParameters this).
Proof. unfold UniformGravity_getParameters. nostage. Qed.
Lemma noStageError_gravity_getParameterCache this :
  noStageError (UniformGravity_getParameterCache this).
Proof. unfold UniformGravity_getParameterCache. nostage. Qed.

#[local] Hint Resolve noStageError_spring_getParameters
  noStageError_spring_getConfigurationCache noStageError_spring_getDynamicsCache
  noStageError_gravity_getParameters noStageError_gravity_getParameterCache
  noStageError_spring_updConfigurationCache noStageError_spring_updDynamicsCache
  noStageError_gravity_updParameterCache
  : nostage.

Create HintDb hooks.
#[local] Hint Unfold
  TwoPointSpring_getDamping TwoPointSpring_getStiffness
  TwoPointSpring_getNaturalLength
  TwoPointSpring_putConfigurationCache
  TwoPointSpring_putDynamicsCache
  UniformGravity_getGravity UniformGravity_getZeroHeight UniformGravity_isEnabled
  UniformGravity_getGravityMagnitude
  UniformGravity_putParameterCache
  getNMatterSubsystems getBodyConfiguration getBodyMass getBodyCenterOfMass
  getParticleMass
  updRigidBodyForces updParticleForces updMobilityForces
  rigidBodyForces_size particleForces_size mobilityForces_size
  rigidBodyForces_addAt rigidBodyForces_subAt particleForces_addAt
  mobilityForces_sub potentialEnergy_add
  vectorUpd vectorSize vectorModify for_ : hooks.

(** A hook is its stage check followed by a body that reports no stage
    error. *)
Lemma hook_shape (h : Hook) spring gravity :
  exists body : M unit,
    noStageError body /\
    forall s, runHook h spring gravity s =
      bind (SimTK_STAGECHECK_GE_ALWAYS (requiredStage h) (hookName h))
           (fun _ => body) s.
Proof.
  assert (Hnoop : forall g w s,
    SimTK_STAGECHECK_GE_ALWAYS g w s =
    bind (SimTK_STAGECHECK_GE_ALWAYS g w) (fun _ => ret tt) s).
  { intros g w s. unfold bind.
    destruct (SimTK_STAGECHECK_GE_ALWAYS g w s) as [[[]|e] s']; reflexivity. }
  destruct h; simpl;
    try (exists (ret tt); split; [apply noStageError_ret | intros s; apply Hnoop]);
    (eexists; split; [|intros s; reflexivity]);
    autounfold with hooks; nostage.
Qed.

(** C8: a realize hook of the spring or of gravity reports a stage error
    exactly when the state's stage is below the stage before the one the
    hook realizes; the report names the actual stage, the required stage
    and the hook; the state is left as it was and nothing handles the
    error. *)
Theorem realize_stage_precondition (h : Hook) spring gravity s :
  (threw isStageTooLow (fst (runHook h spring gravity s)) = true
   <-> Stage_ltb (stage s) (requiredStage h) = true) /\
  (if Stage_ltb (stage s) (requiredStage h)
   then runHook h spring gravity s =
          (Threw (StageTooLow (stage s) (requiredStage h) (hookName h)), s)
   else threw isStageTooLow (fst (runHook h spring gravity s)) = false).
Proof.
  destruct (hook_shape h spring gravity) as (body & Hbody & Hrun).
  assert (Hif : if Stage_ltb (stage s) (requiredStage h)
   then runHook h spring gravity s =
          (Threw (StageTooLow (stage s) (requiredStage h) (hookName h)), s)
   else threw isStageTooLow (fst (runHook h spring gravity s)) = false).
  { destruct (Stage_ltb (stage s) (requiredStage h)) eqn:Hlt.
    - rewrite Hrun. apply bind_threw, stagecheck_low, Hlt.
    - rewrite Hrun. erewrite bind_returned by (apply stagecheck_ok, Hlt).
      apply Hbody. }
  split; [|exact Hif].
  destruct (Stage_ltb (stage s) (requiredStage h)).
  - rewrite Hif. simpl. tauto.
  - rewrite Hif. split; discriminate.
Qed.

(** ** Reading the slots *)

Lemma getDiscreteVariable_run i s :
  getDiscreteVariable i s =
    match vec_get (discreteVars s) i with
    | Some slot => (Returned (slotValue slot), s)
    | None => (Threw (BadAccess "getDiscreteVariable"), s)
    end.
Proof.
  unfold getDiscreteVariable, bind, gets.
  destruct (vec_get (discreteVars s) i); reflexivity.
Qed.

Lemma getCacheEntry_run i s :
  getCacheEntry i s =
    match vec_get (cacheEntries s) i with
    | Some slot =>
        if Stage_ltb (stage s) (slotStage slot)
        then (Threw (BadAccess "getCacheEntry: stage"), s)
        else (Returned (slotValue slot), s)
    | None => (Threw (BadAccess "getCacheEntry"), s)
    end.
Proof.
  unfold getCacheEntry, bind, gets.
  destruct (vec_get (cacheEntries s) i) as [slot|]; simpl; [|reflexivity].
  destruct (Stage_ltb (stage s) (slotStage slot)); reflexivity.
Qed.

Lemma updCacheEntry_run i s :
  updCacheEntry i s =
    match vec_get (cacheEntries s) i with
    | Some slot => (Returned (slotValue slot), s)
    | None => (Threw (BadAccess "updCacheEntry"), s)
    end.
Proof.
  unfold updCacheEntry, bind, gets.
  destruct (vec_get (cacheEntries s) i); reflexivity.
Qed.

Lemma putCacheEntry_run i v s :
  putCacheEntry i v s =
    match vec_get (cacheEntries s) i with
    | Some slot =>
        (Returned tt,
         set_cacheEntries
           (vec_set (cacheEntries s) i (mkSlot (slotOwner slot) (slotStage slot) v)) s)
    | None => (Threw (BadAccess "updCacheEntry"), s)
    end.
Proof.
  unfold putCacheEntry, bind, gets.
  destruct (vec_get (cacheEntries s) i); reflexivity.
Qed.

(** The accessors only read: they leave the state as it is, and what they
    return depends on the slots only. *)
Lemma spring_getParameters_inv this s o s' :
  TwoPointSpring_getParameters this s = (o, s') -> s' = s.
Proof.
  unfold TwoPointSpring_getParameters, bind. rewrite getDiscreteVariable_run.
  destruct (vec_get _ _) as [[? ? []]|]; simpl; intros [= _ <-]; reflexivity.
Qed.
Lemma spring_getParameters_frame this s t :
  discreteVars t = discreteVars s ->
  fst (TwoPointSpring_getParameters this t) = fst (TwoPointSpring_getParameters this s).
Proof.
  intros H. unfold TwoPointSpring_getParameters, bind.
  rewrite !getDiscreteVariable_run, H.
  destruct (vec_get _ _) as [[? ? []]|]; reflexivity.
Qed.
Lemma gravity_getParameters_inv this s o s' :
  UniformGravity_getParameters this s = (o, s') -> s' = s.
Proof.
  unfold UniformGravity_getParameters, bind. rewrite getDiscreteVariable_run.
  destruct (vec_get _ _) as [[? ? []]|]; simpl; intros [= _ <-]; reflexivity.
Qed.
Lemma gravity_getParameters_frame this s t :
  discreteVars t = discreteVars s ->
  fst (UniformGravity_getParameters this t) = fst (UniformGravity_getParameters this s).
Proof.
  intros H. unfold UniformGravity_getParameters, bind.
  rewrite !getDiscreteVariable_run, H.
  destruct (vec_get _ _) as [[? ? []]|]; reflexivity.
Qed.
Lemma spring_getConfigurationCache_inv this s o s' :
  TwoPointSpring_getConfigurationCache this s = (o, s') -> s' = s.
Proof.
  unfold TwoPointSpring_getConfigurationCache, bind. rewrite getCacheEntry_run.
  destruct (vec_get _ _) as [[? ? []]|]; simpl;
    try destruct (Stage_ltb _ _); intros [= _ <-]; reflexivity.
Qed.
Lemma spring_getDynamicsCache_inv this s o s' :
  TwoPointSpring_getDynamicsCache this s = (o, s') -> s' = s.
Proof.
  unfold TwoPointSpring_getDynamicsCache, bind. rewrite getCacheEntry_run.
  destruct (vec_get _ _) as [[? ? []]|]; simpl;
    try destruct (Stage_ltb _ _); intros [= _ <-]; reflexivity.
Qed.
Lemma gravity_getParameterCache_inv this s o s' :
  UniformGravity_getParameterCache this s = (o, s') -> s' = s.
Proof.
  unfold UniformGravity_getParameterCache, bind. rewrite getCacheEntry_run.
  destruct (vec_get _ _) as [[? ? []]|]; simpl;
    try destruct (Stage_ltb _ _); intros [= _ <-]; reflexivity.
Qed.

Lemma spring_updConfigurationCache_inv this s o s' :
  TwoPointSpring_updConfigurationCache this s = (o, s') -> s' = s.
Proof.
  unfold TwoPointSpring_updConfigurationCache, bind. rewrite updCacheEntry_run.
  destruct (vec_get _ _) as [[? ? []]|]; simpl; intros [= _ <-]; reflexivity.
Qed.
Lemma spring_updDynamicsCache_inv this s o s' :
  TwoPointSpring_updDynamicsCache this s = (o, s') -> s' = s.
Proof.
  unfold TwoPointSpring_updDynamicsCache, bind. rewrite updCacheEntry_run.
  destruct (vec_get _ _) as [[? ? []]|]; simpl; intros [= _ <-]; reflexivity.
Qed.
Lemma gravity_updParameterCache_inv this s o s' :
  UniformGravity_updParameterCache this s = (o, s') -> s' = s.
Proof.
  unfold UniformGravity_updParameterCache, bind. rewrite updCacheEntry_run.
  destruct (vec_get _ _) as [[? ? []]|]; simpl; intros [= _ <-]; reflexivity.
Qed.

(** What a read of a cache entry, and what the write access to it, says of
    the slot. *)
Lemma spring_getConfigurationCache_slot this s cc :
  TwoPointSpring_getConfigurationCache this s = (Returned cc, s) <->
  exists slot, vec_get (cacheEntries s) (spring_configurationCacheIndex this) = Some slot /\
               slotValue slot = Value_SpringConfigurationCache cc /\
               Stage_ltb (stage s) (slotStage slot) = false.
Proof.
  unfold TwoPointSpring_getConfigurationCache, bind. rewrite getCacheEntry_run.
  destruct (vec_get _ _) as [[o g v]|]; simpl.
  - destruct (Stage_ltb (stage s) g) eqn:Hg.
    + split; [discriminate|]. intros (slot & [= <-] & _ & H). simpl in H. congruence.
    + split.
      * destruct v; intros [= <-]. eauto.
      * intros (slot & [= <-] & Hv & _). simpl in Hv. rewrite Hv. reflexivity.
  - split; [discriminate|]. intros (slot & [=] & _).
Qed.
Lemma spring_getDynamicsCache_slot this s dc :
  TwoPointSpring_getDynamicsCache this s = (Returned dc, s) <->
  exists slot, vec_get (cacheEntries s) (spring_dynamicsCacheIndex this) = Some slot /\
               slotValue slot = Value_SpringDynamicsCache dc /\
               Stage_ltb (stage s) (slotStage slot) = false.
Proof.
  unfold TwoPointSpring_getDynamicsCache, bind. rewrite getCacheEntry_run.
  destruct (vec_get _ _) as [[o g v]|]; simpl.
  - destruct (Stage_ltb (stage s) g) eqn:Hg.
    + split; [discriminate|]. intros (slot & [= <-] & _ & H). simpl in H. congruence.
    + split.
      * destruct v; intros [= <-]. eauto.
      * intros (slot & [= <-] & Hv & _). simpl in Hv. rewrite Hv. reflexivity.
  - split; [discriminate|]. intros (slot & [=] & _).
Qed.
Lemma gravity_getParameterCache_slot this s pc :
  UniformGravity_getParameterCache this s = (Returned pc, s) <->
  exists slot, vec_get (cacheEntries s) (gravity_parameterCacheIndex this) = Some slot /\
               slotValue slot = Value_GravityParameterCache pc /\
               Stage_ltb (stage s) (slotStage slot) = false.
Proof.
  unfold UniformGravity_getParameterCache, bind. rewrite getCacheEntry_run.
  destruct (vec_get _ _) as [[o g v]|]; simpl.
  - destruct (Stage_ltb (stage s) g) eqn:Hg.
    + split; [discriminate|]. intros (slot & [= <-] & _ & H). simpl in H. congruence.
    + split.
      * destruct v; intros [= <-]. eauto.
      * intros (slot & [= <-] & Hv & _). simpl in Hv. rewrite Hv. reflexivity.
  - split; [discriminate|]. intros (slot & [=] & _).
Qed.
Lemma spring_updConfigurationCache_slot this s cc :
  TwoPointSpring_updConfigurationCache this s = (Returned cc, s) <->
  exists slot, vec_get (cacheEntries s) (spring_configurationCacheIndex this) = Some slot /\
               slotValue slot = Value_SpringConfigurationCache cc.
Proof.
  unfold TwoPointSpring_updConfigurationCache, bind. rewrite updCacheEntry_run.
  destruct (vec_get _ _) as [[o g v]|]; simpl.
  - split.
    + destruct v; intros [= <-]. eauto.
    + intros (slot & [= <-] & Hv). simpl in Hv. rewrite Hv. reflexivity.
  - split; [discriminate|]. intros (slot & [=] & _).
Qed.
Lemma spring_updDynamicsCache_slot this s dc :
  TwoPointSpring_updDynamicsCache this s = (Returned dc, s) <->
  exists slot, vec_get (cacheEntries s) (spring_dynamicsCacheIndex this) = Some slot /\
               slotValue slot = Value_SpringDynamicsCache dc.
Proof.
  unfold TwoPointSpring_updDynamicsCache, bind. rewrite updCacheEntry_run.
  destruct (vec_get _ _) as [[o g v]|]; simpl.
  - split.
    + destruct v; intros [= <-]. eauto.
    + intros (slot & [= <-] & Hv). simpl in Hv. rewrite Hv. reflexivity.
  - split; [discriminate|]. intros (slot & [=] & _).
Qed.
Lemma gravity_updParameterCache_slot this s pc :
  UniformGravity_updParameterCache this s = (Returned pc, s) <->
  exists slot, vec_get (cacheEntries s) (gravity_parameterCacheIndex this) = Some slot /\
               slotValue slot = Value_GravityParameterCache pc.
Proof.
  unfold UniformGravity_updParameterCache, bind. rewrite updCacheEntry_run.
  destruct (vec_get _ _) as [[o g v]|]; simpl.
  - split.
    + destruct v; intros [= <-]. eauto.
    + intros (slot & [= <-] & Hv). simpl in Hv. rewrite Hv. reflexivity.
  - split; [discriminate|]. intros (slot & [=] & _).
Qed.

(** Rewriting a state to a pair of its outcome and itself. *)
Lemma run_eta {A} (m : M A) s :
  (forall o s', m s = (o, s') -> s' = s) -> m s = (fst (m s), s).
Proof. intros H. destruct (m s) as [o s'] eqn:E. simpl. f_equal. eauto. Qed.

(** C9: with the stage check passed, the spring's realizeParameters
    reports a value-domain error exactly when the stiffness or the natural
    length is below zero, naming the first offending field, its value and
    the hook; otherwise it returns; in every case the state, and with it
    each variable, is left as it was. *)
Theorem spring_realizeParameters_value_domain this s p :
  Stage_ltb (stage s) Modeled = false ->
  TwoPointSpring_getParameters this s = (Returned p, s) ->
  snd (TwoPointSpring_realizeParameters this s) = s /\
  (threw isValueWasNegative (fst (TwoPointSpring_realizeParameters this s)) = true
   <-> rltb (p_stiffness p) r0 = true \/ rltb (p_naturalLength p) r0 = true) /\
  fst (TwoPointSpring_realizeParameters this s) =
    (if rltb (p_stiffness p) r0
     then Threw (ValueWasNegative "stiffness" (p_stiffness p)
                   "TwoPointSpring::realizeParameters()")
     else if rltb (p_naturalLength p) r0
     then Threw (ValueWasNegative "naturalLength" (p_naturalLength p)
                   "TwoPointSpring::realizeParameters()")
     else Returned tt).
Proof.
  intros Hstage Hp.
  assert (Hrun : TwoPointSpring_realizeParameters this s =
    (if rltb (p_stiffness p) r0
     then Threw (ValueWasNegative "stiffness" (p_stiffness p)
                   "TwoPointSpring::realizeParameters()")
     else if rltb (p_naturalLength p) r0
     then Threw (ValueWasNegative "naturalLength" (p_naturalLength p)
                   "TwoPointSpring::realizeParameters()")
     else Returned tt, s)).
  { unfold TwoPointSpring_realizeParameters.
    erewrite bind_returned by (apply stagecheck_ok, Hstage).
    unfold TwoPointSpring_getStiffness, TwoPointSpring_getNaturalLength,
      SimTK_VALUECHECK_NONNEG_ALWAYS.
    erewrite bind_returned by (erewrite bind_returned by exact Hp; reflexivity).
    destruct (rltb (p_stiffness p) r0).
    - reflexivity.
    - erewrite bind_returned by reflexivity.
      erewrite bind_returned by (erewrite bind_returned by exact Hp; reflexivity).
      destruct (rltb (p_naturalLength p) r0); reflexivity. }
  rewrite Hrun. simpl. split; [reflexivity|]. split; [|reflexivity].
  destruct (rltb (p_stiffness p) r0); simpl; [tauto|].
  destruct (rltb (p_naturalLength p) r0); simpl; [tauto|].
  split; [discriminate | intros [H|H]; discriminate].
Qed.

Lemma spring_getParameters_transfer this s t p :
  discreteVars t = discreteVars s ->
  TwoPointSpring_getParameters this s = (Returned p, s) ->
  TwoPointSpring_getParameters this t = (Returned p, t).
Proof.
  intros H Hs. rewrite (run_eta _ t (spring_getParameters_inv this t)).
  rewrite (spring_getParameters_frame this s t H), Hs. reflexivity.
Qed.
Lemma gravity_getParameters_transfer this s t p :
  discreteVars t = discreteVars s ->
  UniformGravity_getParameters this s = (Returned p, s) ->
  UniformGravity_getParameters this t = (Returned p, t).
Proof.
  intros H Hs. rewrite (run_eta _ t (gravity_getParameters_inv this t)).
  rewrite (gravity_getParameters_frame this s t H), Hs. reflexivity.
Qed.
Lemma gravity_getParameterCache_transfer this s t pc :
  stage t = stage s ->
  cacheEntries t = cacheEntries s ->
  UniformGravity_getParameterCache this s = (Returned pc, s) ->
  UniformGravity_getParameterCache this t = (Returned pc, t).
Proof.
  intros Hg Hc. rewrite !gravity_getParameterCache_slot, Hg, Hc. tauto.
Qed.
Lemma spring_getConfigurationCache_transfer this s t cc :
  stage t = stage s ->
  cacheEntries t = cacheEntries s ->
  TwoPointSpring_getConfigurationCache this s = (Returned cc, s) ->
  TwoPointSpring_getConfigurationCache this t = (Returned cc, t).
Proof.
  intros Hg Hc. rewrite !spring_getConfigurationCache_slot, Hg, Hc. tauto.
Qed.
Lemma gravity_updParameterCache_transfer this s t pc :
  cacheEntries t = cacheEntries s ->
  UniformGravity_updParameterCache this s = (Returned pc, s) ->
  UniformGravity_updParameterCache this t = (Returned pc, t).
Proof.
  intros Hc. rewrite !gravity_updParameterCache_slot, Hc. tauto.
Qed.
Lemma spring_updConfigurationCache_transfer this s t cc :
  cacheEntries t = cacheEntries s ->
  TwoPointSpring_updConfigurationCache this s = (Returned cc, s) ->
  TwoPointSpring_updConfigurationCache this t = (Returned cc, t).
Proof.
  intros Hc. rewrite !spring_updConfigurationCache_slot, Hc. tauto.
Qed.
Lemma spring_updDynamicsCache_transfer this s t dc :
  cacheEntries t = cacheEntries s ->
  TwoPointSpring_updDynamicsCache this s = (Returned dc, s) ->
  TwoPointSpring_updDynamicsCache this t = (Returned dc, t).
Proof.
  intros Hc. rewrite !spring_updDynamicsCache_slot, Hc. tauto.
Qed.

(** What the first lines of gravity's realizeDynamics decide: whether there
    is nothing to do. *)
Lemma gravity_nothingToDo_run this s p :
  UniformGravity_getParameters this s = (Returned p, s) ->
  (gp_enabled p = false \/
   exists pc, UniformGravity_getParameterCache this s = (Returned pc, s) /\
              reqb (pc_gMagnitude pc) r0 = true) ->
  UniformGravity_realizeDynamics this s =
    (if Stage_ltb (stage s) Moving
     then Threw (StageTooLow (stage s) Moving "UniformGravity::realizeDynamics()")
     else Returned tt, s).
Proof.
  intros Hp Hskip. unfold UniformGravity_realizeDynamics.
  destruct (Stage_ltb (stage s) Moving) eqn:Hstage.
  { apply bind_threw, stagecheck_low, Hstage. }
  erewrite bind_returned by (apply stagecheck_ok, Hstage).
  unfold UniformGravity_isEnabled.
  erewrite bind_returned by (erewrite bind_returned by exact Hp; reflexivity).
  destruct Hskip as [-> | (pc & Hpc & Hzero)]; simpl.
  - erewrite bind_returned by reflexivity. reflexivity.
  - destruct (gp_enabled p); simpl.
    + unfold UniformGravity_getGravityMagnitude.
      erewrite bind_returned
        by (erewrite bind_returned
              by (erewrite bind_returned by exact Hpc; reflexivity);
            reflexivity).
      rewrite Hzero. reflexivity.
    + erewrite bind_returned by reflexivity. reflexivity.
Qed.

(** C5: when gravity is disabled, or its cached magnitude is zero, its
    realizeDynamics leaves the whole state as it was: every body, particle
    and mobility force and the potential energy; past the stage check it
    returns; and with any other matter subsystems and accumulators in the
    state it does the same, so it reads none of them.  The gravity vector
    in [p] is arbitrary. *)
Theorem gravity_realizeDynamics_short_circuit this s p :
  UniformGravity_getParameters this s = (Returned p, s) ->
  (gp_enabled p = false \/
   exists pc, UniformGravity_getParameterCache this s = (Returned pc, s) /\
              reqb (pc_gMagnitude pc) r0 = true) ->
  snd (UniformGravity_realizeDynamics this s) = s /\
  (Stage_ltb (stage s) Moving = false ->
   UniformGravity_realizeDynamics this s = (Returned tt, s)) /\
  (forall matter rbf pf mf pe,
     UniformGravity_realizeDynamics this
       (mkState (stage s) (discreteVars s) (cacheEntries s) matter rbf pf mf pe) =
     (fst (UniformGravity_realizeDynamics this s),
      mkState (stage s) (discreteVars s) (cacheEntries s) matter rbf pf mf pe)).
Proof.
  intros Hp Hskip.
  rewrite (gravity_nothingToDo_run this s p Hp Hskip). simpl.
  split; [reflexivity|]. split.
  - intros ->. reflexivity.
  - intros matter rbf pf mf pe.
    rewrite (gravity_nothingToDo_run this
               (mkState (stage s) (discreteVars s) (cacheEntries s) matter rbf pf mf pe) p);
      [reflexivity | |].
    + apply (gravity_getParameters_transfer this s); [reflexivity | exact Hp].
    + destruct Hskip as [H | (pc & Hpc & Hz)]; [left; exact H | right].
      exists pc. split; [|exact Hz].
      apply (gravity_getParameterCache_transfer this s); [reflexivity | reflexivity | exact Hpc].
Qed.

(** ** Vectors indexed by [int] *)

Lemma vec_get_range {A} (l : list A) i a :
  vec_get l i = Some a -> 0 <= i < vec_size l.
Proof.
  unfold vec_get, vec_size. destruct (Z.ltb_spec i 0); [discriminate|].
  intros Hl%lookup_lt_Some. lia.
Qed.
Lemma vec_get_in_range {A} (l : list A) i :
  0 <= i < vec_size l -> exists a, vec_get l i = Some a.
Proof.
  unfold vec_get, vec_size. intros H.
  destruct (Z.ltb_spec i 0); [lia|].
  destruct (lookup_lt_is_Some_2 l (Z.to_nat i)) as [a Ha]; [lia|]. eauto.
Qed.
Lemma vec_get_set_eq {A} (l : list A) i a b :
  vec_get l i = Some a -> vec_get (vec_set l i b) i = Some b.
Proof.
  unfold vec_get, vec_set. destruct (Z.ltb_spec i 0); [discriminate|].
  intros Hl%lookup_lt_Some. apply list_lookup_insert_eq, Hl.
Qed.
Lemma vec_get_set_ne {A} (l : list A) i j b :
  i <> j -> vec_get (vec_set l i b) j = vec_get l j.
Proof.
  unfold vec_get, vec_set. intros Hne.
  destruct (Z.ltb_spec i 0), (Z.ltb_spec j 0); try reflexivity.
  apply list_lookup_insert_ne. lia.
Qed.
Lemma vec_size_set {A} (l : list A) i b : vec_size (vec_set l i b) = vec_size l.
Proof.
  unfold vec_size, vec_set. destruct (i <? 0); [reflexivity|].
  now rewrite length_insert.
Qed.
Lemma vec_set_same {A} (l : list A) i a : vec_get l i = Some a -> vec_set l i a = l.
Proof.
  unfold vec_get, vec_set. destruct (i <? 0); [discriminate|].
  apply list_insert_id.
Qed.

(** ** Running the accumulator operations *)

Lemma vectorRef_run {E} (get : State -> list (list E)) what msub s :
  vectorRef get what msub s =
    match vec_get (get s) msub with
    | Some v => (Returned v, s)
    | None => (Threw (BadAccess what), s)
    end.
Proof.
  unfold vectorRef, bind, gets. destruct (vec_get (get s) msub); reflexivity.
Qed.

Lemma vectorUpd_run {E} (get : State -> list (list E)) what msub s v :
  vec_get (get s) msub = Some v ->
  vectorUpd get what msub s = (Returned tt, s).
Proof.
  intros H. unfold vectorUpd, bind. rewrite vectorRef_run, H. reflexivity.
Qed.

Lemma vectorSize_run {E} (get : State -> list (list E)) what msub s v :
  vec_get (get s) msub = Some v ->
  vectorSize get what msub s = (Returned (vec_size v), s).
Proof.
  intros H. unfold vectorSize, bind. rewrite vectorRef_run, H. reflexivity.
Qed.

Lemma vectorModifyAt_run {E} (get : State -> list (list E)) set what msub i f s v e :
  vec_get (get s) msub = Some v ->
  vec_get v i = Some e ->
  vectorModifyAt get set what msub i f s =
    (Returned tt, set (vec_set (get s) msub (vec_set v i (f e))) s).
Proof.
  intros H Hi. unfold vectorModifyAt, bind. rewrite vectorRef_run, H, Hi. reflexivity.
Qed.

Lemma vectorModify_run {E} (get : State -> list (list E)) set what msub f s v :
  vec_get (get s) msub = Some v ->
  vectorModify get set what msub f s =
    (Returned tt, set (vec_set (get s) msub (f v)) s).
Proof.
  intros H. unfold vectorModify, bind. rewrite vectorRef_run, H. reflexivity.
Qed.

Lemma getMatterSubsystem_run i s matter :
  vec_get (matterSubsystems s) i = Some matter ->
  getMatterSubsystem i s = (Returned matter, s).
Proof. intros H. unfold getMatterSubsystem, bind, gets. rewrite H. reflexivity. Qed.

Lemma assert_run (c : bool) e s : c = true -> assert_ c e s = (Returned tt, s).
Proof. intros ->. reflexivity. Qed.

Lemma spring_putDynamicsCache_run this dc0 dc s :
  TwoPointSpring_updDynamicsCache this s = (Returned dc0, s) ->
  exists slot,
    vec_get (cacheEntries s) (spring_dynamicsCacheIndex this) = Some slot /\
    TwoPointSpring_putDynamicsCache this dc s =
      (Returned tt,
       set_cacheEntries
         (vec_set (cacheEntries s) (spring_dynamicsCacheIndex this)
            (mkSlot (slotOwner slot) (slotStage slot) (Value_SpringDynamicsCache dc))) s).
Proof.
  unfold TwoPointSpring_updDynamicsCache, TwoPointSpring_putDynamicsCache, bind.
  rewrite updCacheEntry_run, putCacheEntry_run.
  destruct (vec_get _ _) as [slot|]; [|discriminate]. intros _. eauto.
Qed.

Lemma spring_realizeDynamics_run this s cc dc0 p matter rbf pf mf F1 F2 :
  Stage_ltb (stage s) Moving = false ->
  TwoPointSpring_getConfigurationCache this s = (Returned cc, s) ->
  TwoPointSpring_updDynamicsCache this s = (Returned dc0, s) ->
  TwoPointSpring_getParameters this s = (Returned p, s) ->
  vec_get (matterSubsystems s) 0 = Some matter ->
  vec_get (rigidBodyForces s) 0 = Some rbf ->
  vec_get (particleForces s) 0 = Some pf ->
  vec_get (mobilityForces s) 0 = Some mf ->
  vec_size rbf = getNBodies matter ->
  vec_size pf = getNParticles matter ->
  vec_size mf = getNMobilities matter ->
  let f1_G := Vec3_scale (cc_fscalar cc / cc_x cc)%real (cc_v_G cc) in
  vec_get rbf (body1 this) = Some F1 ->
  vec_get (vec_set rbf (body1 this)
             (SpatialVec_add F1 (mkSpatialVec (Vec3_cross (cc_station1_G cc) f1_G) f1_G)))
          (body2 this) = Some F2 ->
  exists slot,
    vec_get (cacheEntries s) (spring_dynamicsCacheIndex this) = Some slot /\
    TwoPointSpring_realizeDynamics this s =
      (Returned tt, spring_dynamics_result this cc p matter slot rbf F1 F2 mf s).
Proof.
  intros Hstage Hcc Hdc Hp Hm Hrbf Hpf Hmf Hsr Hsp Hsm f1_G HF1 HF2.
  destruct (spring_putDynamicsCache_run this dc0 (mkSpringDynamicsCache f1_G) s Hdc)
    as (slot & Hslot & Hput).
  exists slot. split; [exact Hslot|].
  unfold TwoPointSpring_realizeDynamics.
  erewrite bind_returned by (apply stagecheck_ok, Hstage).
  erewrite bind_returned by exact Hcc.
  erewrite bind_returned by exact Hdc.
  erewrite bind_returned by (subst f1_G; exact Hput).
  erewrite bind_returned by (apply getMatterSubsystem_run; simpl; exact Hm).
  unfold updRigidBodyForces, updParticleForces, updMobilityForces,
    rigidBodyForces_size, particleForces_size, mobilityForces_size.
  erewrite bind_returned by (eapply vectorUpd_run; simpl; exact Hrbf).
  erewrite bind_returned by (eapply vectorUpd_run; simpl; exact Hpf).
  erewrite bind_returned by (eapply vectorUpd_run; simpl; exact Hmf).
  erewrite bind_returned by (eapply vectorSize_run; simpl; exact Hrbf).
  erewrite bind_returned by (apply assert_run, Z.eqb_eq, Hsr).
  erewrite bind_returned by (eapply vectorSize_run; simpl; exact Hpf).
  erewrite bind_returned by (apply assert_run, Z.eqb_eq, Hsp).
  erewrite bind_returned by (eapply vectorSize_run; simpl; exact Hmf).
  erewrite bind_returned by (apply assert_run, Z.eqb_eq, Hsm).
  unfold potentialEnergy_add. erewrite bind_returned by reflexivity.
  unfold rigidBodyForces_addAt, rigidBodyForces_subAt.
  erewrite bind_returned
    by (eapply vectorModifyAt_run; simpl; [exact Hrbf | exact HF1]).
  erewrite bind_returned
    by (eapply vectorModifyAt_run; simpl;
        [eapply vec_get_set_eq; exact Hrbf | exact HF2]).
  unfold TwoPointSpring_getDamping.
  erewrite bind_returned
    by (erewrite bind_returned
          by (eapply spring_getParameters_transfer; [|exact Hp]; reflexivity);
        reflexivity).
  unfold spring_dynamics_result. fold f1_G.
  destruct (negb (reqb (p_damping p) r0)).
  - erewrite bind_returned
      by (erewrite bind_returned
            by (eapply spring_getParameters_transfer; [|exact Hp]; reflexivity);
          reflexivity).
    unfold mobilityForces_sub, mobilityForces_size.
    erewrite bind_returned by (eapply vectorSize_run; simpl; exact Hmf).
    erewrite bind_returned
      by (apply assert_run, Z.eqb_eq; rewrite Hsm;
          unfold getNMobilities, getU, vec_size; now rewrite length_map).
    erewrite vectorModify_run by (simpl; exact Hmf).
    reflexivity.
  - reflexivity.
Qed.

Lemma getBody_run matter i b s :
  vec_get (matterBodies matter) i = Some b -> getBody matter i s = (Returned b, s).
Proof. intros H. unfold getBody. rewrite H. reflexivity. Qed.

Lemma spring_realizeConfiguration_run this s p cc0 matter b1 b2 :
  Stage_ltb (stage s) Timed = false ->
  TwoPointSpring_getParameters this s = (Returned p, s) ->
  TwoPointSpring_updConfigurationCache this s = (Returned cc0, s) ->
  vec_get (matterSubsystems s) 0 = Some matter ->
  vec_get (matterBodies matter) (body1 this) = Some b1 ->
  vec_get (matterBodies matter) (body2 this) = Some b2 ->
  exists slot,
    vec_get (cacheEntries s) (spring_configurationCacheIndex this) = Some slot /\
    TwoPointSpring_realizeConfiguration this s =
      (Returned tt,
       set_cacheEntries
         (vec_set (cacheEntries s) (spring_configurationCacheIndex this)
            (mkSlot (slotOwner slot) (slotStage slot)
               (Value_SpringConfigurationCache (spring_configuration this p b1 b2)))) s).
Proof.
  intros Hstage Hp Hcc Hm Hb1 Hb2.
  assert (exists slot,
    vec_get (cacheEntries s) (spring_configurationCacheIndex this) = Some slot)
    as [slot Hslot].
  { apply spring_updConfigurationCache_slot in Hcc as (slot & Hslot & _). eauto. }
  exists slot. split; [exact Hslot|].
  unfold TwoPointSpring_realizeConfiguration.
  erewrite bind_returned by (apply stagecheck_ok, Hstage).
  erewrite bind_returned by exact Hp.
  erewrite bind_returned by exact Hcc.
  erewrite bind_returned by (apply getMatterSubsystem_run, Hm).
  unfold getBodyConfiguration.
  erewrite bind_returned
    by (erewrite bind_returned by (apply getBody_run, Hb1); reflexivity).
  erewrite bind_returned by (apply getMatterSubsystem_run, Hm).
  erewrite bind_returned
    by (erewrite bind_returned by (apply getBody_run, Hb2); reflexivity).
  unfold TwoPointSpring_putConfigurationCache.
  rewrite putCacheEntry_run, Hslot. reflexivity.
Qed.

(** A read that returns shows that the write access returns the same. *)
Lemma spring_getConfigurationCache_upd this s cc :
  TwoPointSpring_getConfigurationCache this s = (Returned cc, s) ->
  TwoPointSpring_updConfigurationCache this s = (Returned cc, s).
Proof.
  rewrite spring_getConfigurationCache_slot, spring_updConfigurationCache_slot.
  intros (slot & H1 & H2 & _). eauto.
Qed.
Lemma spring_getDynamicsCache_upd this s dc :
  TwoPointSpring_getDynamicsCache this s = (Returned dc, s) ->
  TwoPointSpring_updDynamicsCache this s = (Returned dc, s).
Proof.
  rewrite spring_getDynamicsCache_slot, spring_updDynamicsCache_slot.
  intros (slot & H1 & H2 & _). eauto.
Qed.
Lemma gravity_getParameterCache_upd this s pc :
  UniformGravity_getParameterCache this s = (Returned pc, s) ->
  UniformGravity_updParameterCache this s = (Returned pc, s).
Proof.
  rewrite gravity_getParameterCache_slot, gravity_updParameterCache_slot.
  intros (slot & H1 & H2 & _). eauto.
Qed.

Lemma cacheReadableAt_slot g i s slot :
  vec_get (cacheEntries s) i = Some slot ->
  cacheReadableAt g i s = negb (Stage_ltb g (slotStage slot)).
Proof. unfold cacheReadableAt. intros ->. reflexivity. Qed.

Lemma cacheReadableAt_true g i s :
  cacheReadableAt g i s = true ->
  exists slot, vec_get (cacheEntries s) i = Some slot /\
               Stage_ltb g (slotStage slot) = false.
Proof.
  unfold cacheReadableAt. destruct (vec_get _ _) as [slot|]; [|discriminate].
  intros H. exists slot. split; [reflexivity|]. now destruct (Stage_ltb _ _).
Qed.

(** Two slots written with different types are different slots. *)
Lemma spring_cache_indices_differ this s cc dc :
  TwoPointSpring_updConfigurationCache this s = (Returned cc, s) ->
  TwoPointSpring_updDynamicsCache this s = (Returned dc, s) ->
  spring_configurationCacheIndex this <> spring_dynamicsCacheIndex this.
Proof.
  unfold TwoPointSpring_updConfigurationCache, TwoPointSpring_updDynamicsCache, bind.
  rewrite !updCacheEntry_run. intros H1 H2 E. rewrite E in H1.
  destruct (vec_get _ _) as [[? ? []]|]; discriminate.
Qed.

Lemma spring_getConfigurationCache_put this s slot cc :
  vec_get (cacheEntries s) (spring_configurationCacheIndex this) = Some slot ->
  forall t,
  cacheEntries t =
    vec_set (cacheEntries s) (spring_configurationCacheIndex this)
      (mkSlot (slotOwner slot) (slotStage slot) (Value_SpringConfigurationCache cc)) ->
  Stage_ltb (stage t) (slotStage slot) = false ->
  TwoPointSpring_getConfigurationCache this t = (Returned cc, t).
Proof.
  intros Hslot t Ht Hg. apply spring_getConfigurationCache_slot.
  eexists. rewrite Ht. split; [eapply vec_get_set_eq, Hslot|]. split; [reflexivity|exact Hg].
Qed.

Lemma spring_updConfigurationCache_put this s slot cc :
  vec_get (cacheEntries s) (spring_configurationCacheIndex this) = Some slot ->
  forall t,
  cacheEntries t =
    vec_set (cacheEntries s) (spring_configurationCacheIndex this)
      (mkSlot (slotOwner slot) (slotStage slot) (Value_SpringConfigurationCache cc)) ->
  TwoPointSpring_updConfigurationCache this t = (Returned cc, t).
Proof.
  intros Hslot t Ht. apply spring_updConfigurationCache_slot.
  eexists. rewrite Ht. split; [eapply vec_get_set_eq, Hslot|]. reflexivity.
Qed.

Lemma spring_updDynamicsCache_other this s dc i slot' :
  TwoPointSpring_updDynamicsCache this s = (Returned dc, s) ->
  i <> spring_dynamicsCacheIndex this ->
  forall t,
  cacheEntries t = vec_set (cacheEntries s) i slot' ->
  TwoPointSpring_updDynamicsCache this t = (Returned dc, t).
Proof.
  rewrite spring_updDynamicsCache_slot. intros (slot & H1 & H2) Hne t Ht.
  apply spring_updDynamicsCache_slot. exists slot.
  rewrite Ht, vec_get_set_ne by exact Hne. auto.
Qed.

Lemma spring_updDynamicsCache_put this s slot dc :
  vec_get (cacheEntries s) (spring_dynamicsCacheIndex this) = Some slot ->
  forall t,
  cacheEntries t =
    vec_set (cacheEntries s) (spring_dynamicsCacheIndex this)
      (mkSlot (slotOwner slot) (slotStage slot) (Value_SpringDynamicsCache dc)) ->
  TwoPointSpring_updDynamicsCache this t = (Returned dc, t).
Proof.
  intros Hslot t Ht. apply spring_updDynamicsCache_slot.
  eexists. rewrite Ht. split; [eapply vec_get_set_eq, Hslot|]. reflexivity.
Qed.

Lemma spring_getForceOnStation1_put this s slot dc :
  vec_get (cacheEntries s) (spring_dynamicsCacheIndex this) = Some slot ->
  forall t,
  cacheEntries t =
    vec_set (cacheEntries s) (spring_dynamicsCacheIndex this)
      (mkSlot (slotOwner slot) (slotStage slot) (Value_SpringDynamicsCache dc)) ->
  Stage_ltb (stage t) (slotStage slot) = false ->
  TwoPointSpring_getForceOnStation1 this t = (Returned (dc_f1_G dc), t).
Proof.
  intros Hslot t Ht Hg.
  unfold TwoPointSpring_getForceOnStation1.
  erewrite bind_returned; [reflexivity|].
  apply spring_getDynamicsCache_slot.
  eexists. rewrite Ht. split; [eapply vec_get_set_eq, Hslot|]. split; [reflexivity|exact Hg].
Qed.

(** C2: from stiffness k, natural length x0 and the station positions
    p1, p2 in ground, realizeConfiguration caches v = p2 - p1, x = |v|,
    fscalar = k (x - x0) and pe = 1/2 fscalar (x - x0); realizeDynamics
    then caches f1 = (k (x - x0) / x) v, adds the spatial force
    (station1_G x f1, f1) to the slot of body1, subtracts
    (station2_G x f1, f1) from the slot of body2, and adds pe to the
    potential energy.  The two cache entries are allocated, and the stage
    [g] at which realizeDynamics runs is not below the tag of the
    configuration cache; the cached force is there for the hook's write
    access, and is read at every stage not below the tag of its entry. *)
Theorem spring_force_and_energy this s0 g p cc0 dc0 matter b1 b2 rbf pf mf :
  Stage_ltb (stage s0) Timed = false ->
  Stage_ltb g Moving = false ->
  TwoPointSpring_getParameters this s0 = (Returned p, s0) ->
  TwoPointSpring_updConfigurationCache this s0 = (Returned cc0, s0) ->
  TwoPointSpring_updDynamicsCache this s0 = (Returned dc0, s0) ->
  cacheReadableAt g (spring_configurationCacheIndex this) s0 = true ->
  vec_get (matterSubsystems s0) 0 = Some matter ->
  vec_get (matterBodies matter) (body1 this) = Some b1 ->
  vec_get (matterBodies matter) (body2 this) = Some b2 ->
  vec_get (rigidBodyForces s0) 0 = Some rbf ->
  vec_get (particleForces s0) 0 = Some pf ->
  vec_get (mobilityForces s0) 0 = Some mf ->
  vec_size rbf = getNBodies matter ->
  vec_size pf = getNParticles matter ->
  vec_size mf = getNMobilities matter ->
  let k := p_stiffness p in
  let x0 := p_naturalLength p in
  let station1_G := Rotation_apply (X_R (bodyConfiguration b1)) (station1 this) in
  let station2_G := Rotation_apply (X_R (bodyConfiguration b2)) (station2 this) in
  let p1 := Vec3_add (X_T (bodyConfiguration b1)) station1_G in
  let p2 := Vec3_add (X_T (bodyConfiguration b2)) station2_G in
  let v := Vec3_sub p2 p1 in
  let x := Vec3_norm v in
  let pe := (rhalf * (k * (x - x0)) * (x - x0))%real in
  let f1 := Vec3_scale (k * (x - x0) / x)%real v in
  exists s1 cc s2 F1 F2,
    TwoPointSpring_realizeConfiguration this s0 = (Returned tt, s1) /\
    TwoPointSpring_getConfigurationCache this (set_stage g s1) =
      (Returned cc, set_stage g s1) /\
    cc_v_G cc = v /\ cc_x cc = x /\
    cc_fscalar cc = (k * (x - x0))%real /\
    cc_pe cc = pe /\
    TwoPointSpring_realizeDynamics this (set_stage g s1) = (Returned tt, s2) /\
    TwoPointSpring_updDynamicsCache this s2 = (Returned (mkSpringDynamicsCache f1), s2) /\
    (forall g', cacheReadableAt g' (spring_dynamicsCacheIndex this) s0 = true ->
       TwoPointSpring_getForceOnStation1 this (set_stage g' s2) =
         (Returned f1, set_stage g' s2)) /\
    vec_get rbf (body1 this) = Some F1 /\
    vec_get (vec_set rbf (body1 this)
               (SpatialVec_add F1 (mkSpatialVec (Vec3_cross station1_G f1) f1)))
            (body2 this) = Some F2 /\
    vec_get (rigidBodyForces s2) 0 =
      Some (vec_set
              (vec_set rbf (body1 this)
                 (SpatialVec_add F1 (mkSpatialVec (Vec3_cross station1_G f1) f1)))
              (body2 this)
              (SpatialVec_sub F2 (mkSpatialVec (Vec3_cross station2_G f1) f1))) /\
    potentialEnergy s2 = (potentialEnergy s0 + pe)%real /\
    particleForces s2 = particleForces s0.
Proof.
  intros Hstage Hg Hp Hcc Hdc Hread Hm Hb1 Hb2 Hrbf Hpf Hmf Hsr Hsp Hsm
    k x0 station1_G station2_G p1 p2 v x pe f1.
  destruct (spring_realizeConfiguration_run this s0 p cc0 matter b1 b2
              Hstage Hp Hcc Hm Hb1 Hb2) as (cslot & Hcslot & Hconf).
  set (cc := spring_configuration this p b1 b2) in *.
  set (s1 := set_cacheEntries _ s0) in *.
  pose proof (spring_cache_indices_differ this s0 cc0 dc0 Hcc Hdc) as Hne.
  assert (Hcc1 : TwoPointSpring_getConfigurationCache this (set_stage g s1)
                 = (Returned cc, set_stage g s1)).
  { eapply spring_getConfigurationCache_put; [exact Hcslot | reflexivity |].
    rewrite (cacheReadableAt_slot _ _ _ _ Hcslot) in Hread. simpl.
    now destruct (Stage_ltb g (slotStage cslot)). }
  assert (Hdc1 : TwoPointSpring_updDynamicsCache this (set_stage g s1)
                 = (Returned dc0, set_stage g s1)).
  { eapply spring_updDynamicsCache_other; [exact Hdc | exact Hne | reflexivity]. }
  destruct (vec_get_in_range rbf (body1 this)) as [F1 HF1].
  { rewrite Hsr. apply (vec_get_range _ _ _ Hb1). }
  destruct (vec_get_in_range
              (vec_set rbf (body1 this)
                 (SpatialVec_add F1 (mkSpatialVec (Vec3_cross station1_G f1) f1)))
              (body2 this)) as [F2 HF2].
  { rewrite vec_size_set, Hsr. apply (vec_get_range _ _ _ Hb2). }
  destruct (spring_realizeDynamics_run this (set_stage g s1) cc dc0 p matter
              rbf pf mf F1 F2) as (dslot & Hdslot & Hdyn);
    try assumption.
  { eapply spring_getParameters_transfer; [|exact Hp]. reflexivity. }
  exists s1, cc, (spring_dynamics_result this cc p matter dslot rbf F1 F2 mf (set_stage g s1)),
    F1, F2.
  split; [exact Hconf|]. split; [exact Hcc1|].
  repeat (split; [reflexivity|]).
  split; [exact Hdyn|].
  split.
  { eapply (spring_updDynamicsCache_put this (set_stage g s1) dslot
              (mkSpringDynamicsCache f1)); [exact Hdslot | reflexivity]. }
  split.
  { intros g' Hg'.
    eapply (spring_getForceOnStation1_put this (set_stage g s1) dslot
              (mkSpringDynamicsCache f1)); [exact Hdslot | reflexivity |].
    simpl in Hdslot. unfold s1 in Hdslot. simpl in Hdslot.
    rewrite vec_get_set_ne in Hdslot by exact Hne.
    rewrite (cacheReadableAt_slot _ _ _ _ Hdslot) in Hg'. simpl.
    now destruct (Stage_ltb g' (slotStage dslot)). }
  split; [exact HF1|]. split; [exact HF2|].
  split.
  { simpl. eapply vec_get_set_eq, vec_get_set_eq, Hrbf. }
  split; reflexivity.
Qed.

(** C7: with damping d and generalized speeds u, the spring's
    realizeDynamics subtracts d u elementwise from the mobility forces of
    matter subsystem 0 when [d != 0] and leaves all mobility forces as they
    were when [d == 0]; what it does to the body forces and the potential
    energy is given by the configuration cache alone, the particle forces
    stay, and the new mobility forces are given by d, u and the old
    mobility forces alone. *)
Theorem spring_damping this s cc dc0 p matter rbf pf mf F1 F2 :
  Stage_ltb (stage s) Moving = false ->
  TwoPointSpring_getConfigurationCache this s = (Returned cc, s) ->
  TwoPointSpring_updDynamicsCache this s = (Returned dc0, s) ->
  TwoPointSpring_getParameters this s = (Returned p, s) ->
  vec_get (matterSubsystems s) 0 = Some matter ->
  vec_get (rigidBodyForces s) 0 = Some rbf ->
  vec_get (particleForces s) 0 = Some pf ->
  vec_get (mobilityForces s) 0 = Some mf ->
  vec_size rbf = getNBodies matter ->
  vec_size pf = getNParticles matter ->
  vec_size mf = getNMobilities matter ->
  let f1_G := Vec3_scale (cc_fscalar cc / cc_x cc)%real (cc_v_G cc) in
  let sv1 := mkSpatialVec (Vec3_cross (cc_station1_G cc) f1_G) f1_G in
  let sv2 := mkSpatialVec (Vec3_cross (cc_station2_G cc) f1_G) f1_G in
  vec_get rbf (body1 this) = Some F1 ->
  vec_get (vec_set rbf (body1 this) (SpatialVec_add F1 sv1)) (body2 this) = Some F2 ->
  let d := p_damping p in
  let u := getU matter in
  exists s',
    TwoPointSpring_realizeDynamics this s = (Returned tt, s') /\
    mobilityForces s' =
      (if reqb d r0 then mobilityForces s
       else vec_set (mobilityForces s) 0 (zip_with rsub mf (map (rmul d) u))) /\
    rigidBodyForces s' =
      vec_set (rigidBodyForces s) 0
        (vec_set (vec_set rbf (body1 this) (SpatialVec_add F1 sv1))
                 (body2 this) (SpatialVec_sub F2 sv2)) /\
    particleForces s' = particleForces s /\
    potentialEnergy s' = (potentialEnergy s + cc_pe cc)%real.
Proof.
  intros Hstage Hcc Hdc Hp Hm Hrbf Hpf Hmf Hsr Hsp Hsm f1_G sv1 sv2 HF1 HF2 d u.
  destruct (spring_realizeDynamics_run this s cc dc0 p matter rbf pf mf F1 F2)
    as (slot & _ & Hrun); try assumption.
  eexists. split; [exact Hrun|]. simpl.
  split; [|split; [|split; reflexivity]].
  - fold d. destruct (reqb d r0); reflexivity.
  - unfold vec_set at 1 2. simpl.
    unfold vec_set at 3. simpl.
    now rewrite list_insert_insert_eq.
Qed.

(** ** Keeping and reading, step by step *)

Section Keeps.
Variable P : State -> State -> Prop.
Hypothesis P_refl : forall s, P s s.
Hypothesis P_trans : forall s t u, P s t -> P t u -> P s u.

Lemma keeps_ret {A} (a : A) : keeps P (ret a).
Proof. intros s. apply P_refl. Qed.
Lemma keeps_throw {A} e : keeps P (throw (A:=A) e).
Proof. intros s. apply P_refl. Qed.
Lemma keeps_gets {A} (f : State -> A) : keeps P (gets f).
Proof. intros s. apply P_refl. Qed.
Lemma keeps_orThrow {A} (o : option A) e : keeps P (orThrow o e).
Proof. destruct o; intros s; apply P_refl. Qed.
Lemma keeps_assert c e : keeps P (assert_ c e).
Proof. destruct c; intros s; apply P_refl. Qed.
Lemma keeps_modify f : (forall s, P s (f s)) -> keeps P (modify f).
Proof. intros H s. apply H. Qed.
Lemma keeps_bind {A B} (m : M A) (k : A -> M B) :
  keeps P m -> (forall a, keeps P (k a)) -> keeps P (bind m k).
Proof.
  intros Hm Hk s. unfold bind. specialize (Hm s).
  destruct (m s) as [[a|e] s']; simpl in *.
  - eapply P_trans; [exact Hm | apply Hk].
  - exact Hm.
Qed.
Lemma keeps_if {A} (b : bool) (m1 m2 : M A) :
  keeps P m1 -> keeps P m2 -> keeps P (if b then m1 else m2).
Proof. destruct b; auto. Qed.
Lemma keeps_forUpTo n : forall lo body,
  (forall i, keeps P (body i)) -> keeps P (forUpTo lo n body).
Proof.
  induction n as [|n IH]; intros lo body Hb; simpl.
  - apply keeps_ret.
  - apply keeps_bind; [apply Hb|]. intros _. apply IH, Hb.
Qed.
Lemma keeps_stagecheck g w : keeps P (SimTK_STAGECHECK_GE_ALWAYS g w).
Proof.
  unfold SimTK_STAGECHECK_GE_ALWAYS. apply keeps_bind; [apply keeps_gets|].
  intros a. apply keeps_if; [apply keeps_throw | apply keeps_ret].
Qed.
End Keeps.

Section Lockstep.
Variable R : State -> State -> Prop.

Lemma lockstep_ret {A} (a : A) : lockstep R (ret a).
Proof. intros s t H. split; [reflexivity | exact H]. Qed.
Lemma lockstep_throw {A} e : lockstep R (throw (A:=A) e).
Proof. intros s t H. split; [reflexivity | exact H]. Qed.
Lemma lockstep_orThrow {A} (o : option A) e : lockstep R (orThrow o e).
Proof. destruct o; [apply lockstep_ret | apply lockstep_throw]. Qed.
Lemma lockstep_assert c e : lockstep R (assert_ c e).
Proof. destruct c; [apply lockstep_ret | apply lockstep_throw]. Qed.
Lemma lockstep_gets {A} (f : State -> A) :
  (forall s t, R s t -> f s = f t) -> lockstep R (gets f).
Proof. intros Hf s t H. simpl. split; [f_equal; apply Hf, H | exact H]. Qed.
Lemma lockstep_modify f :
  (forall s t, R s t -> R (f s) (f t)) -> lockstep R (modify f).
Proof. intros Hf s t H. simpl. split; [reflexivity | apply Hf, H]. Qed.
Lemma lockstep_bind {A B} (m : M A) (k : A -> M B) :
  lockstep R m -> (forall a, lockstep R (k a)) -> lockstep R (bind m k).
Proof.
  intros Hm Hk s t H. unfold bind. destruct (Hm s t H) as [Ho Hs].
  destruct (m s) as [[a|e] s'], (m t) as [[b|e'] t']; simpl in *;
    try discriminate.
  - injection Ho as <-. apply Hk, Hs.
  - injection Ho as <-. split; [reflexivity | exact Hs].
Qed.
(** A step whose result the rest does not use need not return the same
    value on both sides. *)
Lemma lockstep_bind_ignore {A B} (m : M A) (k : M B) :
  (forall s t, R s t ->
     snd (m s) = s /\ snd (m t) = t /\
     match fst (m s), fst (m t) with
     | Returned _, Returned _ => True
     | Threw e, Threw e' => e = e'
     | _, _ => False
     end) ->
  lockstep R k -> lockstep R (bind m (fun _ => k)).
Proof.
  intros Hm Hk s t H. unfold bind. destruct (Hm s t H) as (Hs & Ht & Ho).
  destruct (m s) as [[a|e] s'], (m t) as [[b|e'] t']; simpl in *;
    subst; try contradiction.
  - apply Hk, H.
  - split; [reflexivity | exact H].
Qed.
Lemma lockstep_if {A} (b : bool) (m1 m2 : M A) :
  lockstep R m1 -> lockstep R m2 -> lockstep R (if b then m1 else m2).
Proof. destruct b; auto. Qed.
Lemma lockstep_forUpTo n : forall lo body,
  (forall i, lockstep R (body i)) -> lockstep R (forUpTo lo n body).
Proof.
  induction n as [|n IH]; intros lo body Hb; simpl.
  - apply lockstep_ret.
  - apply lockstep_bind; [apply Hb|]. intros _. apply IH, Hb.
Qed.
Lemma lockstep_stagecheck g w :
  (forall s t, R s t -> stage s = stage t) ->
  lockstep R (SimTK_STAGECHECK_GE_ALWAYS g w).
Proof.
  intros H. unfold SimTK_STAGECHECK_GE_ALWAYS.
  apply lockstep_bind; [apply lockstep_gets, H|].
  intros a. apply lockstep_if; [apply lockstep_throw | apply lockstep_ret].
Qed.
End Lockstep.

(** ** The spring and the matter subsystems other than 0 *)

Lemma othersKept_refl s : othersKept s s.
Proof. intros msub _. auto. Qed.
Lemma othersKept_trans s t u : othersKept s t -> othersKept t u -> othersKept s u.
Proof.
  intros H1 H2 msub Hne. destruct (H1 msub Hne) as (?&?&?), (H2 msub Hne) as (?&?&?).
  repeat split; congruence.
Qed.

Lemma keeps_others_putCacheEntry i v : keeps othersKept (putCacheEntry i v).
Proof.
  intros s. rewrite putCacheEntry_run.
  destruct (vec_get _ _); intros msub _; simpl; auto.
Qed.
Lemma keeps_others_vectorRef {E} (get : State -> list (list E)) what msub :
  keeps othersKept (vectorRef get what msub).
Proof.
  intros s. rewrite vectorRef_run. destruct (vec_get _ _); apply othersKept_refl.
Qed.
Lemma keeps_others_getParameters this :
  keeps othersKept (TwoPointSpring_getParameters this).
Proof.
  intros s. destruct (TwoPointSpring_getParameters this s) as [o s'] eqn:E.
  apply spring_getParameters_inv in E. subst. apply othersKept_refl.
Qed.
Lemma keeps_others_getConfigurationCache this :
  keeps othersKept (TwoPointSpring_getConfigurationCache this).
Proof.
  intros s. destruct (TwoPointSpring_getConfigurationCache this s) as [o s'] eqn:E.
  apply spring_getConfigurationCache_inv in E. subst. apply othersKept_refl.
Qed.
Lemma keeps_others_updConfigurationCache this :
  keeps othersKept (TwoPointSpring_updConfigurationCache this).
Proof.
  intros s. destruct (TwoPointSpring_updConfigurationCache this s) as [o s'] eqn:E.
  apply spring_updConfigurationCache_inv in E. subst. apply othersKept_refl.
Qed.
Lemma keeps_others_updDynamicsCache this :
  keeps othersKept (TwoPointSpring_updDynamicsCache this).
Proof.
  intros s. destruct (TwoPointSpring_updDynamicsCache this s) as [o s'] eqn:E.
  apply spring_updDynamicsCache_inv in E. subst. apply othersKept_refl.
Qed.
Lemma keeps_others_rigidBodyForces_at0 i f :
  keeps othersKept
    (vectorModifyAt rigidBodyForces set_rigidBodyForces "updRigidBodyForces" 0 i f).
Proof.
  intros s. unfold vectorModifyAt, bind. rewrite vectorRef_run.
  destruct (vec_get (rigidBodyForces s) 0) as [v|]; [|apply othersKept_refl].
  destruct (vec_get v i) as [e|]; simpl; [|apply othersKept_refl].
  intros msub Hne. simpl. rewrite vec_get_set_ne by congruence. auto.
Qed.
Lemma keeps_others_mobilityForces_at0 (f : list Real -> list Real) :
  keeps othersKept
    (vectorModify mobilityForces set_mobilityForces "updMobilityForces" 0 f).
Proof.
  intros s. unfold vectorModify, bind. rewrite vectorRef_run.
  destruct (vec_get (mobilityForces s) 0) as [v|]; [|apply othersKept_refl].
  intros msub Hne. simpl. rewrite vec_get_set_ne by congruence. auto.
Qed.

Ltac keeps_others :=
  repeat first
    [ progress intros
    | apply keeps_others_putCacheEntry
    | apply keeps_others_vectorRef
    | apply keeps_others_getParameters
    | apply keeps_others_getConfigurationCache
    | apply keeps_others_updConfigurationCache
    | apply keeps_others_updDynamicsCache
    | apply keeps_others_rigidBodyForces_at0
    | apply keeps_others_mobilityForces_at0
    | apply (keeps_stagecheck othersKept othersKept_refl othersKept_trans)
    | apply (keeps_ret othersKept othersKept_refl)
    | apply (keeps_throw othersKept othersKept_refl)
    | apply (keeps_gets othersKept othersKept_refl)
    | apply (keeps_orThrow othersKept othersKept_refl)
    | apply (keeps_assert othersKept othersKept_refl)
    | apply (keeps_if othersKept)
    | apply (keeps_bind othersKept othersKept_trans)
    | apply keeps_modify; intros ? ? _; simpl; solve [auto] ].

Lemma keeps_others_spring_realizeConfiguration this :
  keeps othersKept (TwoPointSpring_realizeConfiguration this).
Proof.
  unfold TwoPointSpring_realizeConfiguration.
  autounfold with hooks. unfold getMatterSubsystem, getBody. keeps_others.
Qed.
Lemma keeps_others_spring_realizeDynamics this :
  keeps othersKept (TwoPointSpring_realizeDynamics this).
Proof.
  unfold TwoPointSpring_realizeDynamics.
  autounfold with hooks. unfold getMatterSubsystem. keeps_others.
Qed.

Lemma agree0_getDiscreteVariable i : lockstep agreeOnSubsystem0 (getDiscreteVariable i).
Proof.
  intros s t H. rewrite !getDiscreteVariable_run.
  pose proof H as (_ & <- & _). destruct (vec_get (discreteVars s) i); simpl; auto.
Qed.
Lemma agree0_getCacheEntry i : lockstep agreeOnSubsystem0 (getCacheEntry i).
Proof.
  intros s t H. rewrite !getCacheEntry_run.
  pose proof H as (<- & _ & <- & _).
  destruct (vec_get (cacheEntries s) i) as [slot|]; simpl; auto.
  destruct (Stage_ltb (stage s) (slotStage slot)); simpl; auto.
Qed.
Lemma agree0_updCacheEntry i : lockstep agreeOnSubsystem0 (updCacheEntry i).
Proof.
  intros s t H. rewrite !updCacheEntry_run.
  pose proof H as (_ & _ & <- & _). destruct (vec_get (cacheEntries s) i); simpl; auto.
Qed.
Lemma agree0_putCacheEntry i v : lockstep agreeOnSubsystem0 (putCacheEntry i v).
Proof.
  intros s t H. rewrite !putCacheEntry_run.
  pose proof H as (? & ? & <- & ?). destruct (vec_get (cacheEntries s) i); simpl; auto.
  split; [reflexivity|]. unfold agreeOnSubsystem0 in *; simpl; tauto.
Qed.
Lemma agree0_getMatterSubsystem : lockstep agreeOnSubsystem0 (getMatterSubsystem 0).
Proof.
  intros s t H. unfold getMatterSubsystem, bind, gets.
  pose proof H as (_ & _ & _ & _ & <- & _).
  destruct (vec_get (matterSubsystems s) 0); simpl; auto.
Qed.
Lemma agree0_rigidBodyForces_ref what :
  lockstep agreeOnSubsystem0 (vectorRef rigidBodyForces what 0).
Proof.
  intros s t H. rewrite !vectorRef_run.
  pose proof H as (_ & _ & _ & _ & _ & <- & _).
  destruct (vec_get (rigidBodyForces s) 0); simpl; auto.
Qed.
Lemma agree0_particleForces_ref what :
  lockstep agreeOnSubsystem0 (vectorRef particleForces what 0).
Proof.
  intros s t H. rewrite !vectorRef_run.
  pose proof H as (_ & _ & _ & _ & _ & _ & <- & _).
  destruct (vec_get (particleForces s) 0); simpl; auto.
Qed.
Lemma agree0_mobilityForces_ref what :
  lockstep agreeOnSubsystem0 (vectorRef mobilityForces what 0).
Proof.
  intros s t H. rewrite !vectorRef_run.
  pose proof H as (_ & _ & _ & _ & _ & _ & _ & <-).
  destruct (vec_get (mobilityForces s) 0); simpl; auto.
Qed.
Lemma agree0_rigidBodyForces_at0 what i f :
  lockstep agreeOnSubsystem0
    (vectorModifyAt rigidBodyForces set_rigidBodyForces what 0 i f).
Proof.
  intros s t H. unfold vectorModifyAt, bind. rewrite !vectorRef_run.
  pose proof H as (? & ? & ? & ? & ? & Hr & ? & ?). rewrite <- Hr.
  destruct (vec_get (rigidBodyForces s) 0) as [v|] eqn:Hv; simpl; auto.
  destruct (vec_get v i) as [e|]; simpl; auto.
  split; [reflexivity|]. unfold agreeOnSubsystem0; simpl.
  rewrite (vec_get_set_eq _ _ _ _ Hv).
  symmetry in Hr. rewrite (vec_get_set_eq _ _ _ _ Hr). tauto.
Qed.
Lemma agree0_mobilityForces_at0 what (f : list Real -> list Real) :
  lockstep agreeOnSubsystem0
    (vectorModify mobilityForces set_mobilityForces what 0 f).
Proof.
  intros s t H. unfold vectorModify, bind. rewrite !vectorRef_run.
  pose proof H as (? & ? & ? & ? & ? & ? & ? & Hr). rewrite <- Hr.
  destruct (vec_get (mobilityForces s) 0) as [v|] eqn:Hv; simpl; auto.
  split; [reflexivity|]. unfold agreeOnSubsystem0; simpl.
  rewrite (vec_get_set_eq _ _ _ _ Hv).
  symmetry in Hr. rewrite (vec_get_set_eq _ _ _ _ Hr). tauto.
Qed.
Lemma agree0_potentialEnergy_add v :
  lockstep agreeOnSubsystem0 (potentialEnergy_add v).
Proof.
  intros s t H. unfold potentialEnergy_add, modify. simpl.
  split; [reflexivity|]. unfold agreeOnSubsystem0 in *; simpl.
  destruct H as (? & ? & ? & -> & ?). tauto.
Qed.

Ltac agree0 :=
  repeat first
    [ progress intros
    | apply agree0_getDiscreteVariable
    | apply agree0_getCacheEntry
    | apply agree0_updCacheEntry
    | apply agree0_putCacheEntry
    | apply agree0_getMatterSubsystem
    | apply agree0_rigidBodyForces_ref
    | apply agree0_particleForces_ref
    | apply agree0_mobilityForces_ref
    | apply agree0_rigidBodyForces_at0
    | apply agree0_mobilityForces_at0
    | apply agree0_potentialEnergy_add
    | apply lockstep_stagecheck; intros ? ? H; apply H
    | apply lockstep_ret
    | apply lockstep_throw
    | apply lockstep_orThrow
    | apply lockstep_assert
    | apply lockstep_if
    | match goal with
      | |- lockstep _ (match ?v with _ => _ end) => destruct v
      end
    | apply lockstep_bind ].

Lemma agree0_spring_realizeConfiguration this :
  lockstep agreeOnSubsystem0 (TwoPointSpring_realizeConfiguration this).
Proof.
  unfold TwoPointSpring_realizeConfiguration,
    TwoPointSpring_getParameters, TwoPointSpring_getConfigurationCache.
  autounfold with hooks.
  unfold TwoPointSpring_getParameters, TwoPointSpring_updConfigurationCache, getBody.
  agree0.
Qed.
Lemma agree0_spring_realizeDynamics this :
  lockstep agreeOnSubsystem0 (TwoPointSpring_realizeDynamics this).
Proof.
  unfold TwoPointSpring_realizeDynamics.
  autounfold with hooks.
  unfold TwoPointSpring_getParameters, TwoPointSpring_getConfigurationCache,
    TwoPointSpring_updDynamicsCache.
  agree0.
Qed.

(** C10: the spring's realizeConfiguration and realizeDynamics leave the
    rigid body, particle and mobility force buffers of every matter
    subsystem other than 0 as they were, whatever the outcome; and run on
    two states that differ only in the matter subsystems other than 0 and
    their buffers, they have the same outcome and leave states that again
    differ only there: they read subsystem 0 alone. *)
Theorem spring_uses_matter_subsystem_0_only this :
  keeps othersKept (TwoPointSpring_realizeConfiguration this) /\
  keeps othersKept (TwoPointSpring_realizeDynamics this) /\
  lockstep agreeOnSubsystem0 (TwoPointSpring_realizeConfiguration this) /\
  lockstep agreeOnSubsystem0 (TwoPointSpring_realizeDynamics this).
Proof.
  split; [apply keeps_others_spring_realizeConfiguration|].
  split; [apply keeps_others_spring_realizeDynamics|].
  split; [apply agree0_spring_realizeConfiguration
         | apply agree0_spring_realizeDynamics].
Qed.

(** ** The loops of gravity's realizeDynamics *)

Lemma vec_get_of_nat {A} (l : list A) (k : nat) : vec_get l (Z.of_nat k) = l !! k.
Proof.
  unfold vec_get. destruct (Z.ltb_spec (Z.of_nat k) 0); [lia|].
  now rewrite Nat2Z.id.
Qed.
Lemma vec_set_of_nat {A} (l : list A) (k : nat) a : vec_set l (Z.of_nat k) a = <[k:=a]> l.
Proof.
  unfold vec_set. destruct (Z.ltb_spec (Z.of_nat k) 0); [lia|].
  now rewrite Nat2Z.id.
Qed.
Lemma vec_get_middle {A} (pre rest : list A) a :
  vec_get (pre ++ a :: rest) (Z.of_nat (length pre)) = Some a.
Proof. rewrite vec_get_of_nat. now apply list_lookup_middle. Qed.
Lemma vec_set_middle {A} (pre rest : list A) a b :
  vec_set (pre ++ a :: rest) (Z.of_nat (length pre)) b = (pre ++ [b]) ++ rest.
Proof.
  rewrite vec_set_of_nat, <- (Nat.add_0_r (length pre)), insert_app_r.
  simpl. now rewrite <- app_assoc.
Qed.
Lemma vec_set_set {A} (l : list A) i a b : vec_set (vec_set l i a) i b = vec_set l i b.
Proof. unfold vec_set. destruct (i <? 0); [reflexivity|]. apply list_insert_insert_eq. Qed.

Lemma set_particleForces_same s : set_particleForces (particleForces s) s = s.
Proof. destruct s; reflexivity. Qed.
Lemma set_rigidBodyForces_same s : set_rigidBodyForces (rigidBodyForces s) s = s.
Proof. destruct s; reflexivity. Qed.

Lemma gravity_particle_loop g msub matter : forall rest mrest pre mpre s,
  matterParticleMasses matter = mpre ++ mrest ->
  vec_get (particleForces s) msub = Some (pre ++ rest) ->
  length pre = length mpre ->
  length rest = length mrest ->
  forUpTo (Z.of_nat (length pre)) (length rest)
    (fun i => m_i <- getParticleMass matter i ;;
              particleForces_addAt msub i (Vec3_times g m_i)) s =
  (Returned tt,
   set_particleForces
     (vec_set (particleForces s) msub
        (pre ++ zip_with (gravity_particleForce g) rest mrest)) s).
Proof.
  induction rest as [|f rest IH]; intros mrest pre mpre s Hm Hpf Hpre Hlen.
  - simpl. rewrite app_nil_r in *.
    rewrite (vec_set_same _ _ _ Hpf), set_particleForces_same. reflexivity.
  - destruct mrest as [|m mrest]; [discriminate|]. simpl in Hlen.
    cbn [length forUpTo].
    erewrite bind_returned; cycle 1.
    { erewrite bind_returned; cycle 1.
      { unfold getParticleMass. rewrite Hm, Hpre, vec_get_middle. reflexivity. }
      unfold particleForces_addAt.
      eapply vectorModifyAt_run; [exact Hpf | apply vec_get_middle]. }
    rewrite vec_set_middle.
    replace (Z.of_nat (length pre) + 1) with (Z.of_nat (length (pre ++ [Vec3_add f (Vec3_times g m)])))
      by (rewrite length_app; simpl; lia).
    rewrite (IH mrest _ (mpre ++ [m])).
    + simpl. rewrite vec_set_set, <- app_assoc. reflexivity.
    + rewrite Hm, <- app_assoc. reflexivity.
    + simpl. eapply vec_get_set_eq, Hpf.
    + rewrite !length_app. simpl. lia.
    + lia.
Qed.

Lemma gravity_body_loop g gh0 msub matter : forall rest brest pre bpre s,
  matterBodies matter = bpre ++ brest ->
  vec_get (rigidBodyForces s) msub = Some (pre ++ rest) ->
  length pre = length bpre ->
  length rest = length brest ->
  forUpTo (Z.of_nat (length pre)) (length rest)
    (fun i =>
      m <- getBodyMass matter i ;;
      com_B <- getBodyCenterOfMass matter i ;;
      X_GB <- getBodyConfiguration matter i ;;
      let com_B_G := Rotation_apply (X_R X_GB) com_B in
      let com_G := Vec3_add (X_T X_GB) com_B_G in
      _ <- potentialEnergy_add (m * (Vec3_dot g com_G - gh0))%real ;;
      rigidBodyForces_addAt msub i
        (mkSpatialVec (Vec3_cross com_B_G (Vec3_scale m g)) (Vec3_scale m g))) s =
  (Returned tt,
   set_potentialEnergy
     (fold_left (gravity_bodyEnergy g gh0) brest (potentialEnergy s))
     (set_rigidBodyForces
        (vec_set (rigidBodyForces s) msub
           (pre ++ zip_with (gravity_bodyForce g) rest brest)) s)).
Proof.
  induction rest as [|F rest IH]; intros brest pre bpre s Hm Hrbf Hpre Hlen.
  - destruct brest; [|discriminate]. simpl. rewrite app_nil_r in *.
    rewrite (vec_set_same _ _ _ Hrbf). destruct s; reflexivity.
  - destruct brest as [|b brest]; [discriminate|]. simpl in Hlen.
    cbn [length forUpTo].
    assert (Hb : forall t, getBody matter (Z.of_nat (length pre)) t = (Returned b, t)).
    { intros t. apply getBody_run. rewrite Hm, Hpre. apply vec_get_middle. }
    erewrite bind_returned; cycle 1.
    { unfold getBodyMass, getBodyCenterOfMass, getBodyConfiguration.
      erewrite bind_returned
        by (erewrite bind_returned by apply Hb; reflexivity).
      erewrite bind_returned
        by (erewrite bind_returned by apply Hb; reflexivity).
      erewrite bind_returned
        by (erewrite bind_returned by apply Hb; reflexivity).
      unfold potentialEnergy_add.
      erewrite bind_returned by reflexivity.
      unfold rigidBodyForces_addAt.
      eapply vectorModifyAt_run; [simpl; exact Hrbf | apply vec_get_middle]. }
    rewrite vec_set_middle.
    match goal with
    | |- context [(pre ++ [?x]) ++ rest] =>
        replace (Z.of_nat (length pre) + 1) with (Z.of_nat (length (pre ++ [x])))
          by (rewrite length_app; simpl; lia);
        rewrite (IH brest (pre ++ [x]) (bpre ++ [b]))
    end.
    + simpl. rewrite vec_set_set, <- app_assoc. reflexivity.
    + rewrite Hm, <- app_assoc. reflexivity.
    + simpl. eapply vec_get_set_eq, Hrbf.
    + rewrite !length_app. simpl. lia.
    + lia.
Qed.

Lemma gravity_subsystem_body_run g gh0 msub s matter rbf pf :
  vec_get (matterSubsystems s) msub = Some matter ->
  vec_get (rigidBodyForces s) msub = Some rbf ->
  vec_get (particleForces s) msub = Some pf ->
  bodiesSized rbf matter ->
  particlesSized pf matter ->
  gravity_subsystem_body g gh0 msub s =
    (Returned tt,
     set_potentialEnergy (gravity_subsystem_pe g gh0 (potentialEnergy s) matter)
       (set_rigidBodyForces
          (vec_set (rigidBodyForces s) msub (gravity_subsystem_rbf g rbf matter))
          (set_particleForces
             (vec_set (particleForces s) msub (gravity_subsystem_pf g pf matter)) s))).
Proof.
  intros Hm Hrbf Hpf Hsr Hsp. unfold gravity_subsystem_body.
  erewrite bind_returned by (apply getMatterSubsystem_run, Hm).
  unfold updRigidBodyForces, updParticleForces, rigidBodyForces_size,
    particleForces_size.
  erewrite bind_returned by (eapply vectorUpd_run; exact Hrbf).
  erewrite bind_returned by (eapply vectorUpd_run; exact Hpf).
  erewrite bind_returned by (eapply vectorSize_run; exact Hrbf).
  erewrite bind_returned
    by (apply assert_run, Z.eqb_eq; unfold vec_size, getNBodies, vec_size;
        f_equal; exact Hsr).
  erewrite bind_returned by (eapply vectorSize_run; exact Hpf).
  erewrite bind_returned
    by (apply assert_run, Z.eqb_eq; unfold vec_size, getNParticles, vec_size;
        f_equal; exact Hsp).
  assert (Hparticles :
    (if negb (getNParticles matter =? 0)
     then for_ (getNParticles matter) (fun i =>
            m_i <- getParticleMass matter i ;;
            particleForces_addAt msub i (Vec3_times g m_i))
     else ret tt) s =
    (Returned tt,
     set_particleForces
       (vec_set (particleForces s) msub (gravity_subsystem_pf g pf matter)) s)).
  { unfold for_, getNParticles, vec_size. rewrite Nat2Z.id.
    pose proof (gravity_particle_loop g msub matter pf (matterParticleMasses matter)
                  [] [] s eq_refl Hpf eq_refl Hsp) as Hloop.
    simpl in Hloop. rewrite <- Hsp.
    destruct (negb (Z.of_nat (length pf) =? 0)) eqn:E.
    - exact Hloop.
    - apply negb_false_iff, Z.eqb_eq in E.
      destruct pf; [|discriminate]. unfold gravity_subsystem_pf. simpl.
      rewrite (vec_set_same _ _ _ Hpf), set_particleForces_same. reflexivity. }
  erewrite bind_returned by exact Hparticles.
  unfold for_, getNBodies, vec_size. rewrite Nat2Z.id, <- Hsr.
  pose proof (gravity_body_loop g gh0 msub matter rbf (matterBodies matter) [] []
                (set_particleForces
                   (vec_set (particleForces s) msub (gravity_subsystem_pf g pf matter)) s)
                eq_refl Hrbf eq_refl Hsr) as Hloop.
  simpl in Hloop. exact Hloop.
Qed.

(** The loop over the matter subsystems, from subsystem [length mpre] on. *)
Lemma gravity_subsystem_loop g gh0 : forall mrest rrest prest mpre rpre ppre s,
  matterSubsystems s = mpre ++ mrest ->
  rigidBodyForces s = rpre ++ rrest ->
  particleForces s = ppre ++ prest ->
  length rpre = length mpre ->
  length ppre = length mpre ->
  Forall2 bodiesSized rrest mrest ->
  Forall2 particlesSized prest mrest ->
  forUpTo (Z.of_nat (length mpre)) (length mrest) (gravity_subsystem_body g gh0) s =
  (Returned tt,
   set_potentialEnergy
     (fold_left (gravity_subsystem_pe g gh0) mrest (potentialEnergy s))
     (set_rigidBodyForces (rpre ++ zip_with (gravity_subsystem_rbf g) rrest mrest)
        (set_particleForces (ppre ++ zip_with (gravity_subsystem_pf g) prest mrest) s))).
Proof.
  induction mrest as [|matter mrest IH];
    intros rrest prest mpre rpre ppre s Hm Hr Hp Hlr Hlp Hsr Hsp.
  - inversion Hsr; inversion Hsp; subst. simpl.
    rewrite <- Hr, <- Hp. destruct s; reflexivity.
  - inversion Hsr as [|rbf ? rrest' ? Hrbf Hsr']; subst.
    inversion Hsp as [|pf ? prest' ? Hpf Hsp']; subst.
    cbn [length forUpTo].
    erewrite bind_returned; cycle 1.
    { apply (gravity_subsystem_body_run g gh0 _ s matter rbf pf).
      - rewrite Hm. apply vec_get_middle.
      - rewrite Hr, <- Hlr. apply vec_get_middle.
      - rewrite Hp, <- Hlp. apply vec_get_middle.
      - exact Hrbf.
      - exact Hpf. }
    replace (Z.of_nat (length mpre) + 1) with (Z.of_nat (length (mpre ++ [matter])))
      by (rewrite length_app; simpl; lia).
    rewrite (IH rrest' prest' (mpre ++ [matter])
               (rpre ++ [gravity_subsystem_rbf g rbf matter])
               (ppre ++ [gravity_subsystem_pf g pf matter])).
    + simpl. rewrite <- !app_assoc. reflexivity.
    + simpl. rewrite Hm, <- app_assoc. reflexivity.
    + simpl. rewrite Hr, <- Hlr, vec_set_middle. reflexivity.
    + simpl. rewrite Hp, <- Hlp, vec_set_middle. reflexivity.
    + rewrite !length_app. simpl. lia.
    + rewrite !length_app. simpl. lia.
    + exact Hsr'.
    + exact Hsp'.
Qed.

Lemma gravity_realizeDynamics_run this s p pc :
  Stage_ltb (stage s) Moving = false ->
  UniformGravity_getParameters this s = (Returned p, s) ->
  UniformGravity_getParameterCache this s = (Returned pc, s) ->
  gp_enabled p = true ->
  reqb (pc_gMagnitude pc) r0 = false ->
  Forall2 bodiesSized (rigidBodyForces s) (matterSubsystems s) ->
  Forall2 particlesSized (particleForces s) (matterSubsystems s) ->
  UniformGravity_realizeDynamics this s =
    (Returned tt, gravity_dynamics_result p pc s).
Proof.
  intros Hstage Hp Hpc Hen Hmag Hsr Hsp. unfold UniformGravity_realizeDynamics.
  erewrite bind_returned by (apply stagecheck_ok, Hstage).
  unfold UniformGravity_isEnabled, UniformGravity_getGravityMagnitude,
    UniformGravity_getGravity, UniformGravity_getZeroHeight.
  erewrite bind_returned by (erewrite bind_returned by exact Hp; reflexivity).
  rewrite Hen. cbn [negb].
  erewrite bind_returned
    by (erewrite bind_returned
          by (erewrite bind_returned by exact Hpc; reflexivity);
        reflexivity).
  rewrite Hmag.
  erewrite bind_returned by (erewrite bind_returned by exact Hp; reflexivity).
  erewrite bind_returned by (erewrite bind_returned by exact Hpc; reflexivity).
  erewrite bind_returned by (erewrite bind_returned by exact Hp; reflexivity).
  unfold getNMatterSubsystems.
  erewrite bind_returned by reflexivity.
  unfold for_, vec_size. rewrite Nat2Z.id.
  change (forUpTo 0 (length (matterSubsystems s))
            (gravity_subsystem_body (gp_gravity p)
               (pc_gMagnitude pc * gp_zeroHeight p)%real) s =
          (Returned tt, gravity_dynamics_result p pc s)).
  rewrite (gravity_subsystem_loop _ _ (matterSubsystems s) (rigidBodyForces s)
             (particleForces s) [] [] [] s eq_refl eq_refl eq_refl eq_refl eq_refl Hsr Hsp).
  reflexivity.
Qed.

Lemma vec_get_Some {A} (l : list A) i a :
  vec_get l i = Some a <-> 0 <= i /\ l !! Z.to_nat i = Some a.
Proof.
  unfold vec_get. destruct (Z.ltb_spec i 0); split.
  - discriminate.
  - intros [? _]. lia.
  - auto.
  - tauto.
Qed.

Lemma fold_left_concat {A B} (f : A -> B -> A) (ls : list (list B)) a :
  fold_left f (concat ls) a = fold_left (fun acc l => fold_left f l acc) ls a.
Proof.
  revert a. induction ls as [|l ls IH]; intros a; simpl; [reflexivity|].
  now rewrite fold_left_app, IH.
Qed.

Lemma gravity_pe_concat g gh0 ms pe :
  fold_left (gravity_bodyEnergy g gh0) (concat (map matterBodies ms)) pe =
  fold_left (gravity_subsystem_pe g gh0) ms pe.
Proof.
  rewrite fold_left_concat. revert pe.
  induction ms as [|m ms IH]; intros pe; simpl; [reflexivity | apply IH].
Qed.

(** What gravity's realizeDynamics adds once it is past its guard, in
    terms of the cache entry it reads. *)
Lemma gravity_realizeDynamics_adds_weights this s p pc :
  Stage_ltb (stage s) Moving = false ->
  UniformGravity_getParameters this s = (Returned p, s) ->
  UniformGravity_getParameterCache this s = (Returned pc, s) ->
  gp_enabled p = true ->
  reqb (pc_gMagnitude pc) r0 = false ->
  Forall2 bodiesSized (rigidBodyForces s) (matterSubsystems s) ->
  Forall2 particlesSized (particleForces s) (matterSubsystems s) ->
  let g := gp_gravity p in
  let gh0 := (pc_gMagnitude pc * gp_zeroHeight p)%real in
  exists s',
    UniformGravity_realizeDynamics this s = (Returned tt, s') /\
    (forall msub matter,
       vec_get (matterSubsystems s) msub = Some matter ->
       exists rbf pf,
         vec_get (rigidBodyForces s) msub = Some rbf /\
         vec_get (particleForces s) msub = Some pf /\
         vec_get (particleForces s') msub =
           Some (zip_with (fun f m => Vec3_add f (Vec3_times g m))
                   pf (matterParticleMasses matter)) /\
         vec_get (rigidBodyForces s') msub =
           Some (zip_with
                   (fun F b =>
                      let com_B_G := Rotation_apply (X_R (bodyConfiguration b))
                                       (bodyCenterOfMass b) in
                      SpatialVec_add F
                        (mkSpatialVec
                           (Vec3_cross com_B_G (Vec3_scale (bodyMass b) g))
                           (Vec3_scale (bodyMass b) g)))
                   rbf (matterBodies matter))) /\
    potentialEnergy s' =
      fold_left
        (fun pe b =>
           let com_B_G := Rotation_apply (X_R (bodyConfiguration b))
                            (bodyCenterOfMass b) in
           let com_G := Vec3_add (X_T (bodyConfiguration b)) com_B_G in
           (pe + bodyMass b * (Vec3_dot g com_G - gh0))%real)
        (concat (map matterBodies (matterSubsystems s)))
        (potentialEnergy s) /\
    mobilityForces s' = mobilityForces s /\
    length (rigidBodyForces s') = length (matterSubsystems s) /\
    length (particleForces s') = length (matterSubsystems s).
Proof.
  intros Hstage Hp Hpc Hen Hmag Hsr Hsp g gh0.
  exists (gravity_dynamics_result p pc s).
  split; [apply gravity_realizeDynamics_run; assumption|].
  split; [|split; [|split; [reflexivity|]]].
  - intros msub matter Hm. apply vec_get_Some in Hm as [Hnn Hm].
    destruct (Forall2_lookup_r _ _ _ _ _ Hsr Hm) as (rbf & Hrbf & _).
    destruct (Forall2_lookup_r _ _ _ _ _ Hsp Hm) as (pf & Hpf & _).
    exists rbf, pf. rewrite !vec_get_Some. simpl.
    rewrite !lookup_zip_with, Hrbf, Hpf, Hm. simpl.
    repeat split; try assumption; try reflexivity.
  - simpl. symmetry. apply gravity_pe_concat.
  - simpl. rewrite !length_zip_with.
    apply Forall2_length in Hsr, Hsp. lia.
Qed.

(** ** Lists of vectors *)

Lemma sameShape_refl {A} (l : list (list A)) : sameShape l l.
Proof. apply Forall2_same_length_lookup_2; [reflexivity|]. intros; congruence. Qed.
Lemma sameShape_sym {A B} (l : list (list A)) (k : list (list B)) :
  sameShape l k -> sameShape k l.
Proof. intros H. apply Forall2_flip. eapply Forall2_impl; [exact H|]. auto. Qed.
Lemma sameShape_trans {A B C} (l : list (list A)) (k : list (list B)) (m : list (list C)) :
  sameShape l k -> sameShape k m -> sameShape l m.
Proof.
  intros H1 H2. eapply Forall2_trans; [| exact H1 | exact H2].
  simpl. intros; congruence.
Qed.
Lemma sameShape_map {A B} (f : A -> B) (l : list (list A)) :
  sameShape l (map (map f) l).
Proof.
  induction l; constructor; [now rewrite length_map | assumption].
Qed.
Lemma sameShape_zip_with {A B} (f : A -> B -> A) l k :
  sameShape l k -> sameShape l (zip_with (zip_with f) l k).
Proof.
  induction 1; simpl; constructor; [|assumption].
  rewrite length_zip_with. lia.
Qed.
Lemma sameShape_vec_get {A B} (l : list (list A)) (k : list (list B)) i :
  sameShape l k ->
  match vec_get l i, vec_get k i with
  | Some x, Some y => length x = length y
  | None, None => True
  | _, _ => False
  end.
Proof.
  intros H. unfold vec_get. destruct (i <? 0); [exact I|].
  destruct (l !! Z.to_nat i) as [x|] eqn:Hx.
  - destruct (Forall2_lookup_l _ _ _ _ _ H Hx) as (y & -> & Hy). exact Hy.
  - apply lookup_ge_None in Hx. rewrite (Forall2_length _ _ _ H) in Hx.
    apply lookup_ge_None in Hx. now rewrite Hx.
Qed.
Lemma sameShape_vec_set {A B} (l : list (list A)) (k : list (list B)) i x y :
  sameShape l k -> vec_get l i = Some y -> length x = length y ->
  sameShape (vec_set l i x) k.
Proof.
  intros H Hy Hlen. unfold vec_set, vec_get in *. destruct (i <? 0); [exact H|].
  apply Forall2_same_length_lookup_2.
  - rewrite length_insert. eapply Forall2_length, H.
  - intros j x' z Hx' Hz.
    destruct (decide (Z.to_nat i = j)) as [<-|Hne].
    + rewrite list_lookup_insert_eq in Hx' by (eapply lookup_lt_Some, Hy).
      injection Hx' as <-. rewrite Hlen.
      apply (Forall2_lookup_lr _ _ _ _ _ _ H Hy Hz).
    + rewrite list_lookup_insert_ne in Hx' by exact Hne.
      apply (Forall2_lookup_lr _ _ _ _ _ _ H Hx' Hz).
Qed.

Lemma zip_with_insert_l {A B C} (f : A -> B -> C) l k i x y :
  k !! i = Some y ->
  zip_with f (<[i:=x]> l) k = <[i:=f x y]> (zip_with f l k).
Proof.
  revert k i. induction l as [|a l IH]; intros [|b k] [|i] Hy; simpl in *;
    try reflexivity; try discriminate.
  - injection Hy as ->. reflexivity.
  - f_equal. apply IH, Hy.
Qed.
Lemma vec_get_zip_with {A B C} (f : A -> B -> C) l k i x y :
  vec_get l i = Some x -> vec_get k i = Some y ->
  vec_get (zip_with f l k) i = Some (f x y).
Proof.
  unfold vec_get. destruct (i <? 0); [discriminate|]. intros Hx Hy.
  rewrite lookup_zip_with, Hx, Hy. reflexivity.
Qed.
Lemma vec_set_zip_with {A B C} (f : A -> B -> C) l k i x y :
  vec_get k i = Some y ->
  zip_with f (vec_set l i x) k = vec_set (zip_with f l k) i (f x y).
Proof.
  unfold vec_get, vec_set. destruct (i <? 0); [discriminate|].
  apply zip_with_insert_l.
Qed.

(** ** Adding to shifted accumulators

    From here on the addition of [Real] is taken to be that of exact
    arithmetic: commutative and associative with neutral 0, and subtraction
    commutes with it. *)
Section ExactArithmetic.
Hypothesis radd_comm : forall x y : Real, (x + y = y + x)%real.
Hypothesis radd_assoc : forall x y z : Real, (x + (y + z) = x + y + z)%real.
Hypothesis radd_0_l : forall x : Real, (r0 + x = x)%real.
Hypothesis rsub_add : forall x y z : Real, (x + y - z = x - z + y)%real.

Lemma radd_0_r x : (x + r0 = x)%real.
Proof. rewrite radd_comm. apply radd_0_l. Qed.
Lemma radd_swap x y z : (x + y + z = x + z + y)%real.
Proof. rewrite <- !radd_assoc. f_equal. apply radd_comm. Qed.

Lemma Vec3_add_comm a b : Vec3_add a b = Vec3_add b a.
Proof. unfold Vec3_add. f_equal; apply radd_comm. Qed.
Lemma Vec3_add_assoc a b c : Vec3_add a (Vec3_add b c) = Vec3_add (Vec3_add a b) c.
Proof. unfold Vec3_add. simpl. f_equal; apply radd_assoc. Qed.
Lemma Vec3_add_0_l a : Vec3_add Vec3_zero a = a.
Proof. destruct a. unfold Vec3_add. simpl. f_equal; apply radd_0_l. Qed.
Lemma Vec3_add_swap a b c : Vec3_add (Vec3_add a b) c = Vec3_add (Vec3_add a c) b.
Proof. unfold Vec3_add. simpl. f_equal; apply radd_swap. Qed.
Lemma Vec3_sub_add a b c : Vec3_sub (Vec3_add a b) c = Vec3_add (Vec3_sub a c) b.
Proof. unfold Vec3_add, Vec3_sub. simpl. f_equal; apply rsub_add. Qed.

Lemma SpatialVec_add_comm a b : SpatialVec_add a b = SpatialVec_add b a.
Proof. unfold SpatialVec_add. f_equal; apply Vec3_add_comm. Qed.
Lemma SpatialVec_add_assoc a b c :
  SpatialVec_add a (SpatialVec_add b c) = SpatialVec_add (SpatialVec_add a b) c.
Proof. unfold SpatialVec_add. simpl. f_equal; apply Vec3_add_assoc. Qed.
Lemma SpatialVec_add_0_l a : SpatialVec_add SpatialVec_zero a = a.
Proof. destruct a. unfold SpatialVec_add. simpl. f_equal; apply Vec3_add_0_l. Qed.
Lemma SpatialVec_add_swap a b c :
  SpatialVec_add (SpatialVec_add a b) c = SpatialVec_add (SpatialVec_add a c) b.
Proof. unfold SpatialVec_add. simpl. f_equal; apply Vec3_add_swap. Qed.
Lemma SpatialVec_sub_add a b c :
  SpatialVec_sub (SpatialVec_add a b) c = SpatialVec_add (SpatialVec_sub a c) b.
Proof. unfold SpatialVec_add, SpatialVec_sub. simpl. f_equal; apply Vec3_sub_add. Qed.

(** Elementwise sums of lists inherit the laws. *)
Lemma zip_with_comm {A} (f : A -> A -> A) :
  (forall x y, f x y = f y x) -> forall l k, zip_with f l k = zip_with f k l.
Proof.
  intros Hf. induction l as [|a l IH]; intros [|b k]; simpl; try reflexivity.
  f_equal; [apply Hf | apply IH].
Qed.
Lemma zip_with_assoc {A} (f : A -> A -> A) :
  (forall x y z, f x (f y z) = f (f x y) z) ->
  forall l k m, zip_with f l (zip_with f k m) = zip_with f (zip_with f l k) m.
Proof.
  intros Hf. induction l as [|a l IH]; intros [|b k] [|c m]; simpl; try reflexivity.
  f_equal; [apply Hf | apply IH].
Qed.
Lemma zip_with_zero_l {A} (f : A -> A -> A) z :
  (forall x, f z x = x) -> forall l, zip_with f (map (fun _ => z) l) l = l.
Proof.
  intros Hf. induction l as [|a l IH]; simpl; [reflexivity|].
  f_equal; [apply Hf | apply IH].
Qed.
Lemma zip_with2_zero_l {A} (f : A -> A -> A) z :
  (forall x, f z x = x) ->
  forall l, zip_with (zip_with f) (map (map (fun _ => z)) l) l = l.
Proof.
  intros Hf. induction l as [|a l IH]; simpl; [reflexivity|].
  f_equal; [apply zip_with_zero_l, Hf | apply IH].
Qed.

Lemma Forces_add_comm a b : Forces_add a b = Forces_add b a.
Proof.
  unfold Forces_add. f_equal.
  - apply zip_with_comm, zip_with_comm, SpatialVec_add_comm.
  - apply zip_with_comm, zip_with_comm, Vec3_add_comm.
  - apply zip_with_comm, zip_with_comm, radd_comm.
  - apply radd_comm.
Qed.
Lemma Forces_add_assoc a b c :
  Forces_add a (Forces_add b c) = Forces_add (Forces_add a b) c.
Proof.
  unfold Forces_add. simpl. f_equal.
  - apply zip_with_assoc, zip_with_assoc, SpatialVec_add_assoc.
  - apply zip_with_assoc, zip_with_assoc, Vec3_add_assoc.
  - apply zip_with_assoc, zip_with_assoc, radd_assoc.
  - apply radd_assoc.
Qed.
Lemma Forces_add_zero_l a : Forces_add (Forces_zero a) a = a.
Proof.
  destruct a. unfold Forces_add, Forces_zero. simpl. f_equal.
  - apply zip_with2_zero_l, SpatialVec_add_0_l.
  - apply zip_with2_zero_l, Vec3_add_0_l.
  - apply zip_with2_zero_l, radd_0_l.
  - apply radd_0_l.
Qed.
(** Looking up in an elementwise sum. *)
Lemma vec_get_zip_with_gen {A B C} (f : A -> B -> C) l k i :
  vec_get (zip_with f l k) i =
    match vec_get l i, vec_get k i with
    | Some x, Some y => Some (f x y)
    | _, _ => None
    end.
Proof.
  unfold vec_get. destruct (i <? 0); [reflexivity|].
  rewrite lookup_zip_with.
  destruct (l !! Z.to_nat i), (k !! Z.to_nat i); reflexivity.
Qed.

(** One element of one vector changed by [f], under a shift by [A]. *)
Lemma modifyAt_shift {E} (add : E -> E -> E) (f : E -> E) L A msub i v e :
  (forall x y, f (add x y) = add (f x) y) ->
  sameShape L A ->
  vec_get L msub = Some v ->
  vec_get v i = Some e ->
  exists av y,
    vec_get A msub = Some av /\ vec_get av i = Some y /\
    zip_with (zip_with add) (vec_set L msub (vec_set v i (f e))) A =
      vec_set (zip_with (zip_with add) L A) msub
        (vec_set (zip_with add v av) i (f (add e y))) /\
    sameShape (vec_set L msub (vec_set v i (f e))) A.
Proof.
  intros Hf Hs Hv He.
  pose proof (sameShape_vec_get L A msub Hs) as Hav. rewrite Hv in Hav.
  destruct (vec_get A msub) as [av|] eqn:HA; [|contradiction].
  destruct (vec_get_in_range av i) as [y Hy].
  { unfold vec_size. rewrite <- Hav. apply (vec_get_range _ _ _ He). }
  exists av, y. split; [reflexivity|]. split; [exact Hy|]. split.
  - rewrite (vec_set_zip_with _ _ _ _ _ _ HA). f_equal.
    rewrite (vec_set_zip_with _ _ _ _ _ _ Hy). f_equal. symmetry. apply Hf.
  - eapply sameShape_vec_set; [exact Hs | exact Hv|].
    unfold vec_set. destruct (i <? 0); [reflexivity | apply length_insert].
Qed.

Lemma shifted_inputs ix a s t : shifted ix a s t -> inputsAlike s t.
Proof. intros H. apply H. Qed.
Lemma shifted_stage ix a s t : shifted ix a s t -> stage s = stage t.
Proof. intros H. apply H. Qed.
Lemma shifted_discreteVars ix a s t : shifted ix a s t -> discreteVars s = discreteVars t.
Proof. intros H. apply H. Qed.
Lemma shifted_matterSubsystems ix a s t :
  shifted ix a s t -> matterSubsystems s = matterSubsystems t.
Proof. intros H. apply H. Qed.

(** A slot read at a type other than DynamicsCache is read alike in both
    states. *)
Lemma slotsAlike_lookup l k i :
  Forall2 slotsAlike l k ->
  match vec_get l i, vec_get k i with
  | Some x, Some y => slotsAlike x y
  | None, None => True
  | _, _ => False
  end.
Proof.
  intros H. unfold vec_get. destruct (i <? 0); [exact I|].
  destruct (l !! Z.to_nat i) as [x|] eqn:Hx.
  - destruct (Forall2_lookup_l _ _ _ _ _ H Hx) as (y & -> & Hy). exact Hy.
  - apply lookup_ge_None in Hx. rewrite (Forall2_length _ _ _ H) in Hx.
    apply lookup_ge_None in Hx. now rewrite Hx.
Qed.

Lemma shifted_getDiscreteVariable ix a i : lockstep (shifted ix a) (getDiscreteVariable i).
Proof.
  intros s t H. rewrite !getDiscreteVariable_run.
  rewrite <- (shifted_discreteVars ix a s t H).
  destruct (vec_get (discreteVars s) i); simpl; auto.
Qed.
(** A cache entry tagged alike in both states is read alike in both: the
    stage check goes the same way, and then the value, at a type other
    than DynamicsCache, is the same. *)
Lemma shifted_getCacheEntry ix a :
  forall s t, shifted ix a s t ->
  match fst (getCacheEntry ix s), fst (getCacheEntry ix t) with
  | Returned v, Returned w =>
      v = w \/ exists d1 d2, v = Value_SpringDynamicsCache d1 /\
                             w = Value_SpringDynamicsCache d2
  | Threw e, Threw e' => e = e'
  | _, _ => False
  end /\
  snd (getCacheEntry ix s) = s /\ snd (getCacheEntry ix t) = t.
Proof.
  intros s t H. rewrite !getCacheEntry_run.
  pose proof (slotsAlike_lookup (cacheEntries s) (cacheEntries t) ix) as Hl.
  destruct H as (Hin & Htag & Hrest). pose proof Hin as (Hg & _ & Hc & _).
  specialize (Hl Hc). unfold sameTagAt in Htag. rewrite <- Hg.
  destruct (vec_get (cacheEntries s) ix) as [x|], (vec_get (cacheEntries t) ix) as [y|];
    try contradiction; simpl in *; [|auto].
  injection Htag as <-.
  destruct (Stage_ltb (stage s) (slotStage x)); simpl; [auto|].
  split; [|auto].
  destruct Hl as [<- | (d1 & d2 & -> & ->)]; [left; reflexivity | right; eauto].
Qed.
Lemma shifted_getConfigurationCache a this :
  lockstep (shifted (spring_configurationCacheIndex this) a)
    (TwoPointSpring_getConfigurationCache this).
Proof.
  intros s t H. unfold TwoPointSpring_getConfigurationCache, bind.
  destruct (shifted_getCacheEntry _ _ s t H) as (Ho & Hs & Ht).
  destruct (getCacheEntry _ s) as [[v|e] s'], (getCacheEntry _ t) as [[w|e'] t'];
    simpl in *; subst; try contradiction.
  - destruct Ho as [<- | (d1 & d2 & -> & ->)]; simpl.
    + destruct v; simpl; (split; [reflexivity | assumption]).
    + split; [reflexivity | assumption].
  - split; [reflexivity | assumption].
Qed.
Lemma shifted_getParameterCache a this :
  lockstep (shifted (gravity_parameterCacheIndex this) a)
    (UniformGravity_getParameterCache this).
Proof.
  intros s t H. unfold UniformGravity_getParameterCache, bind.
  destruct (shifted_getCacheEntry _ _ s t H) as (Ho & Hs & Ht).
  destruct (getCacheEntry _ s) as [[v|e] s'], (getCacheEntry _ t) as [[w|e'] t'];
    simpl in *; subst; try contradiction.
  - destruct Ho as [<- | (d1 & d2 & -> & ->)]; simpl.
    + destruct v; simpl; (split; [reflexivity | assumption]).
    + split; [reflexivity | assumption].
  - split; [reflexivity | assumption].
Qed.
(** The check of the DynamicsCache slot: what it returns may differ. *)
Lemma shifted_updDynamicsCache ix a this s t :
  shifted ix a s t ->
  snd (TwoPointSpring_updDynamicsCache this s) = s /\
  snd (TwoPointSpring_updDynamicsCache this t) = t /\
  match fst (TwoPointSpring_updDynamicsCache this s),
        fst (TwoPointSpring_updDynamicsCache this t) with
  | Returned _, Returned _ => True
  | Threw e, Threw e' => e = e'
  | _, _ => False
  end.
Proof.
  intros H. unfold TwoPointSpring_updDynamicsCache, bind.
  rewrite !updCacheEntry_run.
  pose proof (slotsAlike_lookup (cacheEntries s) (cacheEntries t)
                (spring_dynamicsCacheIndex this)) as Hl.
  destruct H as (Hin & Hrest). pose proof Hin as (_ & _ & Hc & _).
  specialize (Hl Hc).
  destruct (vec_get (cacheEntries s) _) as [x|], (vec_get (cacheEntries t) _) as [y|];
    try contradiction; simpl.
  - destruct Hl as [<- | (d1 & d2 & -> & ->)]; simpl.
    + destruct (slotValue x); simpl; auto.
    + auto.
  - auto.
Qed.
Lemma shifted_putDynamicsCache ix a this dc :
  lockstep (shifted ix a) (TwoPointSpring_putDynamicsCache this dc).
Proof.
  intros s t H. unfold TwoPointSpring_putDynamicsCache. rewrite !putCacheEntry_run.
  pose proof (slotsAlike_lookup (cacheEntries s) (cacheEntries t)
                (spring_dynamicsCacheIndex this)) as Hl.
  destruct H as (Hin & Htag & Hshape & Hf). pose proof Hin as (? & ? & Hc & ? & ?).
  specialize (Hl Hc).
  destruct (vec_get (cacheEntries s) (spring_dynamicsCacheIndex this)) as [x|] eqn:Hx,
           (vec_get (cacheEntries t) (spring_dynamicsCacheIndex this)) as [y|] eqn:Hy;
    try contradiction; simpl.
  - split; [reflexivity|]. split; [|split; [|split; assumption]].
    + unfold inputsAlike. simpl.
      split; [assumption|]. split; [assumption|]. split; [|split; assumption].
      unfold vec_set. destruct (_ <? 0); [exact Hc|].
      apply Forall2_insert; [exact Hc|]. right. simpl. eauto.
    + unfold sameTagAt in *. simpl.
      destruct (Z.eq_dec ix (spring_dynamicsCacheIndex this)) as [->|Hne].
      * rewrite (vec_get_set_eq _ _ _ _ Hx), (vec_get_set_eq _ _ _ _ Hy).
        rewrite Hx, Hy in Htag. exact Htag.
      * rewrite !vec_get_set_ne by congruence. exact Htag.
  - split; [reflexivity|]. split; [exact Hin | split; [exact Htag | split; assumption]].
Qed.
Lemma shifted_getMatterSubsystem ix a i : lockstep (shifted ix a) (getMatterSubsystem i).
Proof.
  unfold getMatterSubsystem. apply lockstep_bind.
  - apply lockstep_gets. apply shifted_matterSubsystems.
  - intros ms. apply lockstep_orThrow.
Qed.
Lemma shifted_getNMatterSubsystems ix a : lockstep (shifted ix a) getNMatterSubsystems.
Proof.
  unfold getNMatterSubsystems. apply lockstep_bind.
  - apply lockstep_gets. apply shifted_matterSubsystems.
  - intros ms. apply lockstep_ret.
Qed.
Lemma shifted_intro ix a s t :
  stage s = stage t ->
  discreteVars s = discreteVars t ->
  Forall2 slotsAlike (cacheEntries s) (cacheEntries t) ->
  matterSubsystems s = matterSubsystems t ->
  sameTagAt ix s t ->
  Forces_sameShape (forcesOf s) a ->
  forcesOf t = Forces_add (forcesOf s) a ->
  shifted ix a s t.
Proof.
  intros H1 H2 H3 H4 Htag Hs Hf. split; [|split; [exact Htag | split; assumption]].
  repeat (split; [assumption|]). rewrite Hf.
  destruct Hs as (Hr & Hp & Hm).
  split; [|split]; simpl; apply sameShape_zip_with; assumption.
Qed.

(** One of the three force buffers under a shift. *)
Section ShiftedBuffer.
Context {E : Type}.
Variable ix : Z.
Variable a : Forces.
Variable add : E -> E -> E.
Variable get : State -> list (list E).
Variable set : list (list E) -> State -> State.
Variable aget : list (list E).
Hypothesis Hget : forall s t, shifted ix a s t ->
  sameShape (get s) aget /\ get t = zip_with (zip_with add) (get s) aget.
Hypothesis Hset : forall s t X, shifted ix a s t -> sameShape X aget ->
  shifted ix a (set X s) (set (zip_with (zip_with add) X aget) t).

Lemma shifted_vectorRef msub s t :
  shifted ix a s t ->
  match vec_get (get s) msub with
  | Some v =>
      exists av, vec_get aget msub = Some av /\ length v = length av /\
                 vec_get (get t) msub = Some (zip_with add v av)
  | None => vec_get (get t) msub = None
  end.
Proof.
  intros H. destruct (Hget s t H) as [Hs ->].
  pose proof (sameShape_vec_get _ _ msub Hs) as Hl.
  rewrite vec_get_zip_with_gen.
  destruct (vec_get (get s) msub) as [v|], (vec_get aget msub) as [av|];
    try contradiction; eauto.
Qed.

Lemma shifted_vectorUpd what msub : lockstep (shifted ix a) (vectorUpd get what msub).
Proof.
  intros s t H. unfold vectorUpd, bind. rewrite !vectorRef_run.
  pose proof (shifted_vectorRef msub s t H) as Hl.
  destruct (vec_get (get s) msub) as [v|].
  - destruct Hl as (av & _ & _ & ->). simpl. auto.
  - rewrite Hl. simpl. auto.
Qed.

Lemma shifted_vectorSize what msub : lockstep (shifted ix a) (vectorSize get what msub).
Proof.
  intros s t H. unfold vectorSize, bind. rewrite !vectorRef_run.
  pose proof (shifted_vectorRef msub s t H) as Hl.
  destruct (vec_get (get s) msub) as [v|].
  - destruct Hl as (av & _ & Hlen & ->). simpl. split; [|exact H].
    unfold vec_size. do 2 f_equal. rewrite length_zip_with. lia.
  - rewrite Hl. simpl. auto.
Qed.

Lemma shifted_vectorModifyAt what msub i f :
  (forall x y, f (add x y) = add (f x) y) ->
  lockstep (shifted ix a) (vectorModifyAt get set what msub i f).
Proof.
  intros Hf s t H. unfold vectorModifyAt, bind. rewrite !vectorRef_run.
  pose proof (shifted_vectorRef msub s t H) as Hl.
  destruct (Hget s t H) as [Hs Ht].
  destruct (vec_get (get s) msub) as [v|] eqn:Hv.
  - destruct Hl as (av & Hav & Hlen & ->).
    rewrite vec_get_zip_with_gen.
    destruct (vec_get v i) as [e|] eqn:He; simpl; [|auto].
    destruct (modifyAt_shift add f _ _ msub i v e Hf Hs Hv He)
      as (av' & y & Hav' & Hy & Heq & Hshape).
    rewrite Hav in Hav'. injection Hav' as <-. rewrite Hy. simpl.
    split; [reflexivity|]. rewrite Ht, <- Heq. apply Hset; assumption.
  - rewrite Hl. simpl. auto.
Qed.

(** [v -= w] with its size check. *)
Lemma shifted_vectorSub what msub (sub : E -> E -> E) (w : list E) expr :
  (forall x y z, sub (add x y) z = add (sub x z) y) ->
  lockstep (shifted ix a)
    (size <- vectorSize get what msub ;;
     _ <- assert_ (size =? vec_size w) expr ;;
     vectorModify get set what msub (fun v => zip_with sub v w)).
Proof.
  intros Hf s t H. unfold vectorSize, vectorModify, bind. rewrite !vectorRef_run.
  pose proof (shifted_vectorRef msub s t H) as Hl.
  destruct (Hget s t H) as [Hs Ht].
  destruct (vec_get (get s) msub) as [v|] eqn:Hv.
  - destruct Hl as (av & Hav & Hlen & Hvt). rewrite Hvt. simpl.
    replace (vec_size (zip_with add v av)) with (vec_size v)
      by (unfold vec_size; rewrite length_zip_with; lia).
    destruct (Z.eqb_spec (vec_size v) (vec_size w)) as [Hw|]; simpl; [|auto].
    rewrite !vectorRef_run, Hv, Hvt. simpl. split; [reflexivity|].
    assert (Hlw : length v = length w) by (unfold vec_size in Hw; lia).
    replace (vec_set (get t) msub (zip_with sub (zip_with add v av) w))
      with (zip_with (zip_with add) (vec_set (get s) msub (zip_with sub v w)) aget).
    + apply Hset; [exact H|].
      eapply sameShape_vec_set; [exact Hs | exact Hv|].
      rewrite length_zip_with. lia.
    + rewrite (vec_set_zip_with _ _ _ _ _ _ Hav), Ht. f_equal.
      clear -Hf. revert av w.
      induction v as [|x v IH]; intros [|y av] [|z w]; simpl; try reflexivity.
      f_equal; [symmetry; apply Hf | apply IH].
  - rewrite Hl. simpl. auto.
Qed.
End ShiftedBuffer.
Lemma shifted_forces ix a s t :
  shifted ix a s t ->
  rigidBodyForces t = zip_with (zip_with SpatialVec_add) (rigidBodyForces s) (F_rigidBody a) /\
  particleForces t = zip_with (zip_with Vec3_add) (particleForces s) (F_particle a) /\
  mobilityForces t = zip_with (zip_with radd) (mobilityForces s) (F_mobility a) /\
  potentialEnergy t = (potentialEnergy s + F_potentialEnergy a)%real.
Proof.
  intros (_ & _ & _ & Hf). unfold forcesOf, Forces_add in Hf. simpl in Hf.
  injection Hf as -> -> -> ->. auto.
Qed.

Lemma shifted_rbf_get ix a s t :
  shifted ix a s t ->
  sameShape (rigidBodyForces s) (F_rigidBody a) /\
  rigidBodyForces t =
    zip_with (zip_with SpatialVec_add) (rigidBodyForces s) (F_rigidBody a).
Proof.
  intros H. split; [apply H | apply (shifted_forces ix a s t H)].
Qed.
Lemma shifted_rbf_set ix a s t X :
  shifted ix a s t -> sameShape X (F_rigidBody a) ->
  shifted ix a (set_rigidBodyForces X s)
    (set_rigidBodyForces (zip_with (zip_with SpatialVec_add) X (F_rigidBody a)) t).
Proof.
  intros H HX. destruct (shifted_forces ix a s t H) as (Hr & Hp & Hm & He).
  destruct H as ((? & ? & ? & ? & _) & ? & (_ & ? & ?) & _).
  apply shifted_intro; simpl; try assumption.
  - repeat split; assumption.
  - unfold forcesOf, Forces_add. simpl. now rewrite Hp, Hm, He.
Qed.
Lemma shifted_pf_get ix a s t :
  shifted ix a s t ->
  sameShape (particleForces s) (F_particle a) /\
  particleForces t = zip_with (zip_with Vec3_add) (particleForces s) (F_particle a).
Proof.
  intros H. split; [apply H | apply (shifted_forces ix a s t H)].
Qed.
Lemma shifted_pf_set ix a s t X :
  shifted ix a s t -> sameShape X (F_particle a) ->
  shifted ix a (set_particleForces X s)
    (set_particleForces (zip_with (zip_with Vec3_add) X (F_particle a)) t).
Proof.
  intros H HX. destruct (shifted_forces ix a s t H) as (Hr & Hp & Hm & He).
  destruct H as ((? & ? & ? & ? & _) & ? & (? & _ & ?) & _).
  apply shifted_intro; simpl; try assumption.
  - repeat split; assumption.
  - unfold forcesOf, Forces_add. simpl. now rewrite Hr, Hm, He.
Qed.
Lemma shifted_mf_get ix a s t :
  shifted ix a s t ->
  sameShape (mobilityForces s) (F_mobility a) /\
  mobilityForces t = zip_with (zip_with radd) (mobilityForces s) (F_mobility a).
Proof.
  intros H. split; [apply H | apply (shifted_forces ix a s t H)].
Qed.
Lemma shifted_mf_set ix a s t X :
  shifted ix a s t -> sameShape X (F_mobility a) ->
  shifted ix a (set_mobilityForces X s)
    (set_mobilityForces (zip_with (zip_with radd) X (F_mobility a)) t).
Proof.
  intros H HX. destruct (shifted_forces ix a s t H) as (Hr & Hp & Hm & He).
  destruct H as ((? & ? & ? & ? & _) & ? & (? & ? & _) & _).
  apply shifted_intro; simpl; try assumption.
  - repeat split; assumption.
  - unfold forcesOf, Forces_add. simpl. now rewrite Hr, Hp, He.
Qed.
Lemma shifted_potentialEnergy_add ix a v : lockstep (shifted ix a) (potentialEnergy_add v).
Proof.
  intros s t H. unfold potentialEnergy_add, modify. simpl. split; [reflexivity|].
  destruct (shifted_forces ix a s t H) as (Hr & Hp & Hm & He).
  destruct H as ((? & ? & ? & ? & _) & ? & (? & ? & ?) & _).
  apply shifted_intro; simpl; try assumption.
  - repeat split; assumption.
  - unfold forcesOf, Forces_add. simpl. rewrite Hr, Hp, Hm, He. f_equal.
    apply radd_swap.
Qed.

Ltac shifted_step :=
  first
    [ progress intros
    | apply shifted_getDiscreteVariable
    | apply shifted_getConfigurationCache
    | apply shifted_getParameterCache
    | apply shifted_putDynamicsCache
    | apply shifted_getMatterSubsystem
    | apply shifted_getNMatterSubsystems
    | apply shifted_potentialEnergy_add
    | apply (shifted_vectorUpd _ _ SpatialVec_add rigidBodyForces _ (shifted_rbf_get _ _))
    | apply (shifted_vectorUpd _ _ Vec3_add particleForces _ (shifted_pf_get _ _))
    | apply (shifted_vectorUpd _ _ radd mobilityForces _ (shifted_mf_get _ _))
    | apply (shifted_vectorSize _ _ SpatialVec_add rigidBodyForces _ (shifted_rbf_get _ _))
    | apply (shifted_vectorSize _ _ Vec3_add particleForces _ (shifted_pf_get _ _))
    | apply (shifted_vectorSize _ _ radd mobilityForces _ (shifted_mf_get _ _))
    | apply (shifted_vectorModifyAt _ _ SpatialVec_add rigidBodyForces set_rigidBodyForces _
               (shifted_rbf_get _ _) (shifted_rbf_set _ _));
      intros; first [apply SpatialVec_add_swap | apply SpatialVec_sub_add]
    | apply (shifted_vectorModifyAt _ _ Vec3_add particleForces set_particleForces _
               (shifted_pf_get _ _) (shifted_pf_set _ _));
      intros; apply Vec3_add_swap
    | apply (shifted_vectorSub _ _ radd mobilityForces set_mobilityForces _
               (shifted_mf_get _ _) (shifted_mf_set _ _));
      intros; apply rsub_add
    | apply lockstep_stagecheck; apply shifted_stage
    | apply lockstep_ret
    | apply lockstep_throw
    | apply lockstep_orThrow
    | apply lockstep_assert
    | apply lockstep_if
    | apply lockstep_forUpTo
    | match goal with
      | |- lockstep _ (match ?v with _ => _ end) => destruct v
      end
    | apply lockstep_bind_ignore;
      [intros ? ? ?; eapply shifted_updDynamicsCache; eassumption|]
    | apply lockstep_bind ].

Lemma shifted_spring_realizeDynamics a this :
  lockstep (shifted (spring_configurationCacheIndex this) a)
    (TwoPointSpring_realizeDynamics this).
Proof.
  unfold TwoPointSpring_realizeDynamics, TwoPointSpring_getDamping,
    TwoPointSpring_getParameters, updRigidBodyForces, updParticleForces,
    updMobilityForces, rigidBodyForces_size, particleForces_size,
    mobilityForces_size, rigidBodyForces_addAt, rigidBodyForces_subAt,
    mobilityForces_sub, mobilityForces_size.
  repeat shifted_step.
Qed.

Lemma shifted_gravity_realizeDynamics a this :
  lockstep (shifted (gravity_parameterCacheIndex this) a)
    (UniformGravity_realizeDynamics this).
Proof.
  unfold UniformGravity_realizeDynamics, UniformGravity_isEnabled,
    UniformGravity_getGravityMagnitude, UniformGravity_getGravity,
    UniformGravity_getZeroHeight, UniformGravity_getParameters,
    updRigidBodyForces, updParticleForces,
    rigidBodyForces_size, particleForces_size, rigidBodyForces_addAt,
    particleForces_addAt, for_, getParticleMass,
    getBodyMass, getBodyCenterOfMass, getBodyConfiguration, getBody.
  repeat shifted_step.
Qed.

Lemma shifted_realizeDynamics a f :
  lockstep (shifted (cacheRead f) a) (realizeDynamics f).
Proof.
  destruct f; simpl.
  - apply shifted_spring_realizeDynamics.
  - apply shifted_gravity_realizeDynamics.
  - apply lockstep_ret.
Qed.
(** A Dynamics hook keeps the inputs of the pass and the sizes of the
    accumulators. *)
Lemma slotsAlike_trans x y z : slotsAlike x y -> slotsAlike y z -> slotsAlike x z.
Proof.
  intros [->|(d1 & d2 & H1 & H2)] [<-|(d3 & d4 & H3 & H4)]; unfold slotsAlike; eauto.
Qed.
Lemma Forces_sameShape_refl a : Forces_sameShape a a.
Proof. repeat split; apply sameShape_refl. Qed.
Lemma Forces_sameShape_sym a b : Forces_sameShape a b -> Forces_sameShape b a.
Proof. intros (?&?&?). repeat split; apply sameShape_sym; assumption. Qed.
Lemma Forces_sameShape_trans a b c :
  Forces_sameShape a b -> Forces_sameShape b c -> Forces_sameShape a c.
Proof.
  intros (?&?&?) (?&?&?). repeat split; eapply sameShape_trans; eassumption.
Qed.
Lemma inputsAlike_refl s : inputsAlike s s.
Proof.
  repeat split; try apply sameShape_refl.
  apply Forall2_same_length_lookup_2; [reflexivity|].
  intros i x y Hx Hy. left. congruence.
Qed.
Lemma inputsAlike_trans s t u : inputsAlike s t -> inputsAlike t u -> inputsAlike s u.
Proof.
  intros (H1 & H2 & H3 & H4 & H5) (G1 & G2 & G3 & G4 & G5).
  split; [congruence|]. split; [congruence|]. split.
  - eapply Forall2_trans; [|exact H3|exact G3]. apply slotsAlike_trans.
  - split; [congruence|]. eapply Forces_sameShape_trans; eassumption.
Qed.
Lemma inputsAlike_sym s t : inputsAlike s t -> inputsAlike t s.
Proof.
  intros (H1 & H2 & H3 & H4 & H5). repeat split; try congruence; try apply H5.
  - apply Forall2_flip. eapply Forall2_impl; [exact H3|].
    intros x y [->|(d1 & d2 & ? & ?)]; [left; reflexivity | right; eauto].
  - apply sameShape_sym, H5.
  - apply sameShape_sym, H5.
  - apply sameShape_sym, H5.
Qed.

Lemma keeps_inputs_getParameters_spring this :
  keeps inputsAlike (TwoPointSpring_getParameters this).
Proof.
  intros s. destruct (TwoPointSpring_getParameters this s) as [o s'] eqn:E.
  apply spring_getParameters_inv in E. subst. apply inputsAlike_refl.
Qed.
Lemma keeps_inputs_getParameters_gravity this :
  keeps inputsAlike (UniformGravity_getParameters this).
Proof.
  intros s. destruct (UniformGravity_getParameters this s) as [o s'] eqn:E.
  apply gravity_getParameters_inv in E. subst. apply inputsAlike_refl.
Qed.
Lemma keeps_inputs_getConfigurationCache this :
  keeps inputsAlike (TwoPointSpring_getConfigurationCache this).
Proof.
  intros s. destruct (TwoPointSpring_getConfigurationCache this s) as [o s'] eqn:E.
  apply spring_getConfigurationCache_inv in E. subst. apply inputsAlike_refl.
Qed.
Lemma keeps_inputs_getParameterCache this :
  keeps inputsAlike (UniformGravity_getParameterCache this).
Proof.
  intros s. destruct (UniformGravity_getParameterCache this s) as [o s'] eqn:E.
  apply gravity_getParameterCache_inv in E. subst. apply inputsAlike_refl.
Qed.
Lemma keeps_inputs_vectorRef {E} (get : State -> list (list E)) what msub :
  keeps inputsAlike (vectorRef get what msub).
Proof.
  intros s. rewrite vectorRef_run. destruct (vec_get _ _); apply inputsAlike_refl.
Qed.
Lemma keeps_inputs_potentialEnergy_add v : keeps inputsAlike (potentialEnergy_add v).
Proof.
  intros s. unfold potentialEnergy_add, modify. simpl.
  repeat split; simpl; try apply sameShape_refl.
  apply Forall2_same_length_lookup_2; [reflexivity|].
  intros i x y Hx Hy. left. congruence.
Qed.
(** The DynamicsCache is written into a slot that held one. *)
Lemma keeps_inputs_putDynamicsCache this dc {A} (k : M A) :
  keeps inputsAlike k ->
  keeps inputsAlike
    (bind (TwoPointSpring_updDynamicsCache this)
       (fun _ => bind (TwoPointSpring_putDynamicsCache this dc) (fun _ => k))).
Proof.
  intros Hk s.
  unfold TwoPointSpring_updDynamicsCache, TwoPointSpring_putDynamicsCache.
  unfold bind at 1 2. rewrite updCacheEntry_run.
  destruct (vec_get (cacheEntries s) (spring_dynamicsCacheIndex this))
    as [slot|] eqn:Hslot; [|apply inputsAlike_refl].
  destruct (slotValue slot) eqn:Hv; simpl; try apply inputsAlike_refl.
  unfold bind. rewrite putCacheEntry_run, Hslot.
  set (s1 := set_cacheEntries _ s).
  assert (H1 : inputsAlike s s1).
  { repeat split; simpl; try apply sameShape_refl.
    unfold vec_set, vec_get in *. destruct (_ <? 0); [discriminate|].
    apply Forall2_same_length_lookup_2; [now rewrite length_insert|].
    intros i x y Hx Hy.
    destruct (decide (Z.to_nat (spring_dynamicsCacheIndex this) = i)) as [<-|Hne].
    - rewrite list_lookup_insert_eq in Hy by (eapply lookup_lt_Some, Hslot).
      injection Hy as <-. rewrite Hslot in Hx. injection Hx as <-.
      right. simpl. eauto.
    - rewrite list_lookup_insert_ne in Hy by exact Hne. left. congruence. }
  specialize (Hk s1). destruct (k s1) as [[r|e] s2]; simpl in *;
    eapply inputsAlike_trans; eassumption.
Qed.
Lemma keeps_inputs_vectorModifyAt_rbf what msub i f :
  keeps inputsAlike (vectorModifyAt rigidBodyForces set_rigidBodyForces what msub i f).
Proof.
  intros s. unfold vectorModifyAt, bind. rewrite vectorRef_run.
  destruct (vec_get (rigidBodyForces s) msub) as [v|] eqn:Hv; [|apply inputsAlike_refl].
  destruct (vec_get v i) as [e|] eqn:He; simpl; [|apply inputsAlike_refl].
  destruct (inputsAlike_refl s) as (? & ? & ? & ? & (? & ? & ?)).
  repeat split; simpl; try assumption.
  apply sameShape_sym. eapply sameShape_vec_set; [apply sameShape_refl | exact Hv|].
  unfold vec_set. destruct (i <? 0); [reflexivity | apply length_insert].
Qed.
Lemma keeps_inputs_vectorModifyAt_pf what msub i f :
  keeps inputsAlike (vectorModifyAt particleForces set_particleForces what msub i f).
Proof.
  intros s. unfold vectorModifyAt, bind. rewrite vectorRef_run.
  destruct (vec_get (particleForces s) msub) as [v|] eqn:Hv; [|apply inputsAlike_refl].
  destruct (vec_get v i) as [e|] eqn:He; simpl; [|apply inputsAlike_refl].
  destruct (inputsAlike_refl s) as (? & ? & ? & ? & (? & ? & ?)).
  repeat split; simpl; try assumption.
  apply sameShape_sym. eapply sameShape_vec_set; [apply sameShape_refl | exact Hv|].
  unfold vec_set. destruct (i <? 0); [reflexivity | apply length_insert].
Qed.
Lemma keeps_inputs_mobilityForces_sub msub w :
  keeps inputsAlike (mobilityForces_sub msub w).
Proof.
  intros s. unfold mobilityForces_sub, mobilityForces_size, vectorSize, vectorModify, bind.
  rewrite !vectorRef_run.
  destruct (vec_get (mobilityForces s) msub) as [v|] eqn:Hv; [|apply inputsAlike_refl].
  simpl. destruct (Z.eqb_spec (vec_size v) (vec_size w)) as [Hw|]; simpl;
    [|apply inputsAlike_refl].
  rewrite vectorRef_run, Hv. simpl.
  destruct (inputsAlike_refl s) as (? & ? & ? & ? & (? & ? & ?)).
  repeat split; simpl; try assumption.
  apply sameShape_sym. eapply sameShape_vec_set; [apply sameShape_refl | exact Hv|].
  rewrite length_zip_with. unfold vec_size in Hw. lia.
Qed.

Ltac keeps_inputs_step :=
  first
    [ progress intros
    | apply keeps_inputs_getParameters_spring
    | apply keeps_inputs_getParameters_gravity
    | apply keeps_inputs_getConfigurationCache
    | apply keeps_inputs_getParameterCache
    | apply keeps_inputs_putDynamicsCache
    | apply keeps_inputs_vectorRef
    | apply keeps_inputs_potentialEnergy_add
    | apply keeps_inputs_vectorModifyAt_rbf
    | apply keeps_inputs_vectorModifyAt_pf
    | apply keeps_inputs_mobilityForces_sub
    | apply (keeps_stagecheck inputsAlike inputsAlike_refl inputsAlike_trans)
    | apply (keeps_ret inputsAlike inputsAlike_refl)
    | apply (keeps_throw inputsAlike inputsAlike_refl)
    | apply (keeps_gets inputsAlike inputsAlike_refl)
    | apply (keeps_orThrow inputsAlike inputsAlike_refl)
    | apply (keeps_assert inputsAlike inputsAlike_refl)
    | apply (keeps_if inputsAlike)
    | apply (keeps_forUpTo inputsAlike inputsAlike_refl inputsAlike_trans)
    | apply (keeps_bind inputsAlike inputsAlike_trans) ].

Lemma keeps_inputs_realizeDynamics f : keeps inputsAlike (realizeDynamics f).
Proof.
  destruct f as [this|this|]; simpl.
  - unfold TwoPointSpring_realizeDynamics, TwoPointSpring_getDamping,
      updRigidBodyForces, updParticleForces, updMobilityForces,
      rigidBodyForces_size, particleForces_size, mobilityForces_size,
      rigidBodyForces_addAt, rigidBodyForces_subAt, vectorUpd, vectorSize,
      getMatterSubsystem.
    repeat keeps_inputs_step.
  - unfold UniformGravity_realizeDynamics, UniformGravity_isEnabled,
      UniformGravity_getGravityMagnitude, UniformGravity_getGravity,
      UniformGravity_getZeroHeight, getNMatterSubsystems,
      updRigidBodyForces, updParticleForces,
      rigidBodyForces_size, particleForces_size, rigidBodyForces_addAt,
      particleForces_addAt, for_, getParticleMass, vectorUpd, vectorSize,
      getBodyMass, getBodyCenterOfMass, getBodyConfiguration, getBody,
      getMatterSubsystem.
    repeat keeps_inputs_step.
  - apply keeps_ret, inputsAlike_refl.
Qed.

(** A Dynamics hook keeps the tag of every cache entry. *)
Lemma tagsAlike_refl s : tagsAlike s s.
Proof. intros i. reflexivity. Qed.
Lemma tagsAlike_trans s t u : tagsAlike s t -> tagsAlike t u -> tagsAlike s u.
Proof. intros H1 H2 i. unfold sameTagAt. rewrite (H1 i). apply H2. Qed.
Lemma keeps_tags_putCacheEntry i v : keeps tagsAlike (putCacheEntry i v).
Proof.
  intros s. rewrite putCacheEntry_run.
  destruct (vec_get (cacheEntries s) i) as [slot|] eqn:Hslot; [|apply tagsAlike_refl].
  intros j. unfold sameTagAt. simpl.
  destruct (Z.eq_dec j i) as [->|Hne].
  - rewrite (vec_get_set_eq _ _ _ _ Hslot), Hslot. reflexivity.
  - now rewrite vec_get_set_ne by congruence.
Qed.

Ltac keeps_tags :=
  repeat first
    [ progress intros
    | apply keeps_tags_putCacheEntry
    | apply (keeps_stagecheck tagsAlike tagsAlike_refl tagsAlike_trans)
    | apply (keeps_ret tagsAlike tagsAlike_refl)
    | apply (keeps_throw tagsAlike tagsAlike_refl)
    | apply (keeps_gets tagsAlike tagsAlike_refl)
    | apply (keeps_orThrow tagsAlike tagsAlike_refl)
    | apply (keeps_assert tagsAlike tagsAlike_refl)
    | apply (keeps_if tagsAlike)
    | apply (keeps_forUpTo tagsAlike tagsAlike_refl tagsAlike_trans)
    | match goal with
      | |- keeps _ (match ?v with _ => _ end) => destruct v
      | |- keeps _ (modify _) => apply keeps_modify; intros ? ?; reflexivity
      end
    | apply (keeps_bind tagsAlike tagsAlike_trans) ].

Lemma keeps_tags_realizeDynamics f : keeps tagsAlike (realizeDynamics f).
Proof.
  destruct f as [this|this|]; simpl.
  - unfold TwoPointSpring_realizeDynamics, TwoPointSpring_getDamping,
      TwoPointSpring_getParameters, TwoPointSpring_getConfigurationCache,
      TwoPointSpring_updDynamicsCache, TwoPointSpring_putDynamicsCache,
      getDiscreteVariable, getCacheEntry, updCacheEntry,
      updRigidBodyForces, updParticleForces, updMobilityForces,
      rigidBodyForces_size, particleForces_size, mobilityForces_size,
      rigidBodyForces_addAt, rigidBodyForces_subAt, mobilityForces_sub,
      mobilityForces_size, potentialEnergy_add,
      vectorUpd, vectorSize, vectorModifyAt, vectorModify, vectorRef,
      getMatterSubsystem.
    keeps_tags.
  - unfold UniformGravity_realizeDynamics, UniformGravity_isEnabled,
      UniformGravity_getGravityMagnitude, UniformGravity_getGravity,
      UniformGravity_getZeroHeight, UniformGravity_getParameters,
      UniformGravity_getParameterCache, getDiscreteVariable, getCacheEntry,
      getNMatterSubsystems,
      updRigidBodyForces, updParticleForces,
      rigidBodyForces_size, particleForces_size, rigidBodyForces_addAt,
      particleForces_addAt, potentialEnergy_add, for_, getParticleMass,
      vectorUpd, vectorSize, vectorModifyAt, vectorRef,
      getBodyMass, getBodyCenterOfMass, getBodyConfiguration, getBody,
      getMatterSubsystem.
    keeps_tags.
  - apply keeps_ret, tagsAlike_refl.
Qed.

(** ** One hook, and a whole pass, over any accumulator contents *)

Lemma Forces_zero_shape a : Forces_sameShape a (Forces_zero a).
Proof. repeat split; apply sameShape_map. Qed.
Lemma sameShape_zero_eq {A B} (za : A) (l : list (list B)) (k : list (list B)) :
  sameShape l k -> map (map (fun _ => za)) l = map (map (fun _ => za)) k.
Proof.
  induction 1 as [|x y l k Hxy _ IH]; simpl; [reflexivity|]. f_equal; [|exact IH].
  revert y Hxy. induction x as [|? x IHx]; intros [|? y] Hxy; simpl in *;
    try discriminate; [reflexivity|]. f_equal. apply IHx. lia.
Qed.
Lemma Forces_zero_eq a b : Forces_sameShape a b -> Forces_zero a = Forces_zero b.
Proof.
  intros (Hr & Hp & Hm). unfold Forces_zero. f_equal; apply sameShape_zero_eq; assumption.
Qed.
Lemma Forces_add_zero_r a z : Forces_sameShape a z -> Forces_add a (Forces_zero z) = a.
Proof.
  intros H. rewrite <- (Forces_zero_eq a z H), Forces_add_comm.
  apply Forces_add_zero_l.
Qed.

Lemma forcesOf_withForces f s : forcesOf (withForces f s) = f.
Proof. destruct f; reflexivity. Qed.
Lemma withForces_forcesOf s : withForces (forcesOf s) s = s.
Proof. destruct s; reflexivity. Qed.

Lemma zeroed_inputsAlike s : inputsAlike (zeroed s) s.
Proof.
  destruct (inputsAlike_refl s) as (? & ? & ? & ? & _).
  repeat split; simpl; try assumption; apply sameShape_sym, sameShape_map.
Qed.

(** The state is its zeroed state shifted by its accumulators. *)
Lemma shifted_zeroed ix s : shifted ix (forcesOf s) (zeroed s) s.
Proof.
  split; [apply zeroed_inputsAlike|]. split; [reflexivity|].
  unfold zeroed. rewrite forcesOf_withForces.
  split; [apply Forces_sameShape_sym, Forces_zero_shape|].
  symmetry. apply Forces_add_zero_l.
Qed.

(** Two states with the same inputs have the same zeroed state, up to the
    DynamicsCache slots. *)
Lemma shifted_zeroed_alike ix s t :
  inputsAlike s t ->
  sameTagAt ix s t ->
  shifted ix (Forces_zero (forcesOf s)) (zeroed s) (zeroed t).
Proof.
  intros H Htag. pose proof H as (? & ? & ? & ? & Hshape).
  unfold zeroed. apply shifted_intro; simpl; try assumption.
  - rewrite forcesOf_withForces. apply Forces_sameShape_refl.
  - rewrite !forcesOf_withForces.
    rewrite (Forces_add_zero_r _ _ (Forces_sameShape_sym _ _ (Forces_zero_shape _))).
    symmetry. apply Forces_zero_eq, Hshape.
Qed.

(** What one hook does: the same outcome as over zeroed accumulators, and
    the state it leaves over zeroed accumulators shifted by the
    accumulators it found. *)
Lemma realizeDynamics_shift f s :
  fst (realizeDynamics f s) = fst (realizeDynamics f (zeroed s)) /\
  shifted (cacheRead f) (forcesOf s) (snd (realizeDynamics f (zeroed s))) (snd (realizeDynamics f s)).
Proof.
  destruct (shifted_realizeDynamics (forcesOf s) f (zeroed s) s (shifted_zeroed _ s))
    as [Ho Hs].
  split; [symmetry; exact Ho | exact Hs].
Qed.

Lemma realizeDynamics_adds f s :
  forcesOf (snd (realizeDynamics f s)) = Forces_add (forcesOf s) (contribution f s).
Proof.
  destruct (realizeDynamics_shift f s) as [_ (_ & _ & _ & Hf)].
  rewrite Hf. apply Forces_add_comm.
Qed.

(** The contribution and the outcome depend on the inputs alone, the tag
    of the cache entry the hook reads among them. *)
Lemma contribution_same f s t :
  inputsAlike s t ->
  sameTagAt (cacheRead f) s t ->
  fst (realizeDynamics f (zeroed t)) = fst (realizeDynamics f (zeroed s)) /\
  contribution f t = contribution f s.
Proof.
  intros H Htag.
  destruct (shifted_realizeDynamics _ f _ _ (shifted_zeroed_alike _ s t H Htag))
    as [Ho (_ & _ & Hshape & Hf)].
  split; [symmetry; exact Ho|]. unfold contribution. rewrite Hf.
  apply Forces_add_zero_r.
  eapply Forces_sameShape_trans;
    [exact Hshape | apply Forces_sameShape_sym, Forces_zero_shape].
Qed.

(** A hook whose cache entry holds a DynamicsCache reads nothing from it:
    it leaves the state as it was. *)
Lemma spring_realizeDynamics_unread this s slot d :
  vec_get (cacheEntries s) (spring_configurationCacheIndex this) = Some slot ->
  slotValue slot = Value_SpringDynamicsCache d ->
  snd (TwoPointSpring_realizeDynamics this s) = s.
Proof.
  intros Hslot Hv. unfold TwoPointSpring_realizeDynamics.
  destruct (Stage_ltb (stage s) Moving) eqn:Hstage.
  { erewrite bind_threw by (apply stagecheck_low, Hstage). reflexivity. }
  erewrite bind_returned by (apply stagecheck_ok, Hstage).
  destruct (TwoPointSpring_getConfigurationCache this s) as [[cc|e] s'] eqn:E.
  - pose proof (spring_getConfigurationCache_inv _ _ _ _ E); subst s'.
    apply spring_getConfigurationCache_slot in E as (slot' & H1 & H2 & _).
    congruence.
  - pose proof (spring_getConfigurationCache_inv _ _ _ _ E); subst s'.
    erewrite bind_threw by exact E. reflexivity.
Qed.
Lemma gravity_realizeDynamics_unread this s slot d :
  vec_get (cacheEntries s) (gravity_parameterCacheIndex this) = Some slot ->
  slotValue slot = Value_SpringDynamicsCache d ->
  snd (UniformGravity_realizeDynamics this s) = s.
Proof.
  intros Hslot Hv. unfold UniformGravity_realizeDynamics.
  destruct (Stage_ltb (stage s) Moving) eqn:Hstage.
  { erewrite bind_threw by (apply stagecheck_low, Hstage). reflexivity. }
  erewrite bind_returned by (apply stagecheck_ok, Hstage).
  unfold UniformGravity_isEnabled.
  destruct (UniformGravity_getParameters this s) as [[p|e] s'] eqn:Ep;
    pose proof (gravity_getParameters_inv _ _ _ _ Ep); subst s'.
  2:{ erewrite bind_threw by (erewrite bind_threw by exact Ep; reflexivity).
      reflexivity. }
  erewrite bind_returned by (erewrite bind_returned by exact Ep; reflexivity).
  destruct (gp_enabled p); [|reflexivity]. cbn [negb].
  unfold UniformGravity_getGravityMagnitude.
  destruct (UniformGravity_getParameterCache this s) as [[pc|e] s'] eqn:E;
    pose proof (gravity_getParameterCache_inv _ _ _ _ E); subst s'.
  - apply gravity_getParameterCache_slot in E as (slot' & H1 & H2 & _). congruence.
  - erewrite bind_threw
      by (erewrite bind_threw by (erewrite bind_threw by exact E; reflexivity);
          reflexivity).
    reflexivity.
Qed.

Lemma contribution_alike f s t :
  inputsAlike s t -> contribution f t = contribution f s.
Proof.
  intros H.
  assert (Hzero : forall u, snd (realizeDynamics f (zeroed u)) = zeroed u ->
            contribution f u = Forces_zero (forcesOf u)).
  { intros u Hu. unfold contribution. rewrite Hu. unfold zeroed.
    apply forcesOf_withForces. }
  assert (Hunread :
    snd (realizeDynamics f (zeroed s)) = zeroed s ->
    snd (realizeDynamics f (zeroed t)) = zeroed t ->
    contribution f t = contribution f s).
  { intros Hs Ht. rewrite (Hzero s Hs), (Hzero t Ht).
    symmetry. apply Forces_zero_eq, H. }
  pose proof H as (_ & _ & Hc & _).
  pose proof (slotsAlike_lookup _ _ (cacheRead f) Hc) as Hl.
  assert (Hsame : sameTagAt (cacheRead f) s t ->
                  contribution f t = contribution f s).
  { intros Htag. apply (contribution_same f s t H Htag). }
  unfold sameTagAt in Hsame.
  destruct (vec_get (cacheEntries s) (cacheRead f)) as [x|] eqn:Hx,
           (vec_get (cacheEntries t) (cacheRead f)) as [y|] eqn:Hy;
    try contradiction; [|apply Hsame; reflexivity].
  destruct Hl as [<- | (d1 & d2 & Hd1 & Hd2)]; [apply Hsame; reflexivity|].
  destruct f as [this|this|]; simpl in *.
  - apply Hunread.
    + eapply spring_realizeDynamics_unread; [exact Hx | exact Hd1].
    + eapply spring_realizeDynamics_unread; [exact Hy | exact Hd2].
  - apply Hunread.
    + eapply gravity_realizeDynamics_unread; [exact Hx | exact Hd1].
    + eapply gravity_realizeDynamics_unread; [exact Hy | exact Hd2].
  - apply Hunread; reflexivity.
Qed.

Lemma realizeDynamicsAll_cons f fs s :
  realizeDynamicsAll (f :: fs) s =
    match realizeDynamics f s with
    | (Returned _, s') => realizeDynamicsAll fs s'
    | (Threw e, s') => (Threw e, s')
    end.
Proof. reflexivity. Qed.

(** A pass over hooks that each run through over zeroed accumulators runs
    through, and adds the sum of their contributions. *)
Lemma realizeDynamicsAll_sum : forall fs s,
  (forall f, In f fs -> fst (realizeDynamics f (zeroed s)) = Returned tt) ->
  fst (realizeDynamicsAll fs s) = Returned tt /\
  inputsAlike s (snd (realizeDynamicsAll fs s)) /\
  forcesOf (snd (realizeDynamicsAll fs s)) =
    fold_left Forces_add (map (fun f => contribution f s) fs) (forcesOf s).
Proof.
  induction fs as [|f fs IH]; intros s Hok.
  - simpl. split; [reflexivity|]. split; [apply inputsAlike_refl | reflexivity].
  - rewrite realizeDynamicsAll_cons.
    destruct (realizeDynamics_shift f s) as [Ho _].
    pose proof (realizeDynamics_adds f s) as Hadd.
    pose proof (keeps_inputs_realizeDynamics f s) as Hkeep.
    pose proof (keeps_tags_realizeDynamics f s) as Htags.
    rewrite (Hok f (or_introl eq_refl)) in Ho.
    destruct (realizeDynamics f s) as [[[]|e] s1]; simpl in *; [|discriminate].
    destruct (IH s1) as (H1 & H2 & H3).
    { intros f' Hin. rewrite (proj1 (contribution_same f' s s1 Hkeep (Htags _))).
      apply Hok. right. exact Hin. }
    split; [exact H1|]. split; [eapply inputsAlike_trans; eassumption|].
    rewrite H3, Hadd. f_equal. apply map_ext.
    intros f'. apply (contribution_alike f' s s1 Hkeep).
Qed.

Lemma realizeDynamicsAll_returned : forall fs s,
  fst (realizeDynamicsAll fs s) = Returned tt ->
  forall f, In f fs -> fst (realizeDynamics f (zeroed s)) = Returned tt.
Proof.
  induction fs as [|f fs IH]; intros s Hret f' Hin; [contradiction|].
  rewrite realizeDynamicsAll_cons in Hret.
  destruct (realizeDynamics_shift f s) as [Ho _].
  pose proof (keeps_inputs_realizeDynamics f s) as Hkeep.
  pose proof (keeps_tags_realizeDynamics f s) as Htags.
  destruct (realizeDynamics f s) as [[[]|e] s1]; simpl in *; [|discriminate].
  destruct Hin as [<-|Hin]; [symmetry; exact Ho|].
  rewrite <- (proj1 (contribution_same f' s s1 Hkeep (Htags _))).
  apply (IH s1 Hret f' Hin).
Qed.

Lemma fold_left_Forces_add_permutation l l' a :
  Permutation l l' ->
  fold_left Forces_add l a = fold_left Forces_add l' a.
Proof.
  intros H. revert a. induction H; intros a; simpl.
  - reflexivity.
  - apply IHPermutation.
  - f_equal. rewrite <- !Forces_add_assoc. f_equal. apply Forces_add_comm.
  - now rewrite IHPermutation1.
Qed.

Lemma zeroed_zeroed s : zeroed (zeroed s) = zeroed s.
Proof.
  unfold zeroed. rewrite forcesOf_withForces. destruct s; simpl.
  unfold withForces, Forces_zero. simpl. f_equal; rewrite map_map;
    apply map_ext; intros l; rewrite map_map; reflexivity.
Qed.

(** C1: a Dynamics hook run on any accumulator contents has the outcome it
    has on zeroed accumulators and leaves the accumulators it found plus
    its contribution, which is what it leaves on zeroed accumulators and
    depends on the inputs of the pass alone; so a pass of N hooks over
    zeroed accumulators, in any order, leaves the sum of their
    contributions. *)
Theorem dynamics_accumulation_is_additive :
  (forall f s,
     fst (realizeDynamics f s) = fst (realizeDynamics f (zeroed s)) /\
     forcesOf (snd (realizeDynamics f s)) =
       Forces_add (forcesOf s) (contribution f s)) /\
  (forall f s t, inputsAlike s t -> contribution f t = contribution f s) /\
  (forall fs fs' s,
     Permutation fs fs' ->
     fst (realizeDynamicsAll fs (zeroed s)) = Returned tt ->
     fst (realizeDynamicsAll fs' (zeroed s)) = Returned tt /\
     forcesOf (snd (realizeDynamicsAll fs' (zeroed s))) =
       fold_left Forces_add (map (fun f => contribution f s) fs)
         (Forces_zero (forcesOf s))).
Proof.
  split; [|split].
  - intros f s. split; [apply realizeDynamics_shift | apply realizeDynamics_adds].
  - intros f s t H. apply (contribution_alike f s t H).
  - intros fs fs' s Hperm Hret.
    pose proof (realizeDynamicsAll_returned fs (zeroed s) Hret) as Hall.
    destruct (realizeDynamicsAll_sum fs' (zeroed s)) as (H1 & _ & H3).
    { intros f Hin. apply Hall. eapply Permutation_in; [|exact Hin].
      symmetry. exact Hperm. }
    split; [exact H1|]. rewrite H3. unfold zeroed at 2. rewrite forcesOf_withForces.
    unfold contribution. rewrite zeroed_zeroed.
    apply fold_left_Forces_add_permutation, Permutation_map.
    symmetry. exact Hperm.
Qed.
End ExactArithmetic.

(** ** Gravity's parameter cache *)

Lemma gravity_realizeParameters_slot this s p pc0 :
  Stage_ltb (stage s) Modeled = false ->
  UniformGravity_getParameters this s = (Returned p, s) ->
  UniformGravity_updParameterCache this s = (Returned pc0, s) ->
  exists slot,
    vec_get (cacheEntries s) (gravity_parameterCacheIndex this) = Some slot /\
    UniformGravity_realizeParameters this s =
      (Returned tt,
       set_cacheEntries
         (vec_set (cacheEntries s) (gravity_parameterCacheIndex this)
            (mkSlot (slotOwner slot) (slotStage slot)
               (Value_GravityParameterCache (gravity_parameterCache p)))) s).
Proof.
  intros Hstage Hp Hpc.
  pose proof Hpc as Hslot.
  apply gravity_updParameterCache_slot in Hslot as (slot & Hslot & _).
  exists slot. split; [exact Hslot|].
  unfold UniformGravity_realizeParameters.
  erewrite bind_returned by (apply stagecheck_ok, Hstage).
  erewrite bind_returned by exact Hpc.
  unfold UniformGravity_getGravity.
  erewrite bind_returned by (erewrite bind_returned by exact Hp; reflexivity).
  unfold UniformGravity_putParameterCache.
  rewrite putCacheEntry_run, Hslot. reflexivity.
Qed.

Lemma gravity_getParameterCache_put this s slot pc :
  vec_get (cacheEntries s) (gravity_parameterCacheIndex this) = Some slot ->
  forall t,
  cacheEntries t =
    vec_set (cacheEntries s) (gravity_parameterCacheIndex this)
      (mkSlot (slotOwner slot) (slotStage slot) (Value_GravityParameterCache pc)) ->
  Stage_ltb (stage t) (slotStage slot) = false ->
  UniformGravity_getParameterCache this t = (Returned pc, t).
Proof.
  intros Hslot t Ht Hg. apply gravity_getParameterCache_slot.
  eexists. rewrite Ht. split; [eapply vec_get_set_eq, Hslot|]. split; [reflexivity|exact Hg].
Qed.
Lemma gravity_updParameterCache_put this s slot pc :
  vec_get (cacheEntries s) (gravity_parameterCacheIndex this) = Some slot ->
  forall t,
  cacheEntries t =
    vec_set (cacheEntries s) (gravity_parameterCacheIndex this)
      (mkSlot (slotOwner slot) (slotStage slot) (Value_GravityParameterCache pc)) ->
  UniformGravity_updParameterCache this t = (Returned pc, t).
Proof.
  intros Hslot t Ht. apply gravity_updParameterCache_slot.
  eexists. rewrite Ht. split; [eapply vec_get_set_eq, Hslot|]. reflexivity.
Qed.

(** realizeParameters returns; the cache it filled is there for the write
    access, and is read at every stage not below the tag of the entry. *)
Lemma gravity_realizeParameters_run this s p pc0 :
  Stage_ltb (stage s) Modeled = false ->
  UniformGravity_getParameters this s = (Returned p, s) ->
  UniformGravity_updParameterCache this s = (Returned pc0, s) ->
  exists s',
    UniformGravity_realizeParameters this s = (Returned tt, s') /\
    UniformGravity_updParameterCache this s' =
      (Returned (gravity_parameterCache p), s') /\
    (forall g, cacheReadableAt g (gravity_parameterCacheIndex this) s = true ->
       UniformGravity_getParameterCache this (set_stage g s') =
         (Returned (gravity_parameterCache p), set_stage g s')) /\
    UniformGravity_getParameters this s' = (Returned p, s').
Proof.
  intros Hstage Hp Hpc.
  destruct (gravity_realizeParameters_slot this s p pc0 Hstage Hp Hpc)
    as (slot & Hslot & Hrun).
  eexists. split; [exact Hrun|]. split; [|split].
  - eapply gravity_updParameterCache_put; [exact Hslot | reflexivity].
  - intros g Hg. eapply gravity_getParameterCache_put; [exact Hslot | reflexivity |].
    rewrite (cacheReadableAt_slot _ _ _ _ Hslot) in Hg. simpl.
    now destruct (Stage_ltb g (slotStage slot)).
  - eapply gravity_getParameters_transfer; [|exact Hp]. reflexivity.
Qed.

(** C3, as amended: with gravity enabled and the norm of g, as
    realizeParameters computes and caches it, not zero, realizeParameters
    and then realizeDynamics run through, and realizeDynamics goes over
    every matter subsystem of the system: in each it adds g m to the force
    of every particle of mass m and the spatial force (com_B_G x (m g), m g)
    to the slot of every body, and it adds m (g . com_G - |g| zeroHeight),
    with |g| the computed norm, to the potential energy for every body of
    every subsystem; the mobility forces stay.  (A g that is not the zero
    vector can have a computed norm of zero; then nothing is added.) *)
Theorem gravity_forces_every_subsystem this s0 gD p pc0 :
  Stage_ltb (stage s0) Modeled = false ->
  Stage_ltb gD Moving = false ->
  UniformGravity_getParameters this s0 = (Returned p, s0) ->
  UniformGravity_updParameterCache this s0 = (Returned pc0, s0) ->
  cacheReadableAt gD (gravity_parameterCacheIndex this) s0 = true ->
  gp_enabled p = true ->
  reqb (Vec3_norm (gp_gravity p)) r0 = false ->
  Forall2 bodiesSized (rigidBodyForces s0) (matterSubsystems s0) ->
  Forall2 particlesSized (particleForces s0) (matterSubsystems s0) ->
  let g := gp_gravity p in
  let gh0 := (Vec3_norm g * gp_zeroHeight p)%real in
  exists s1 s',
    UniformGravity_realizeParameters this s0 = (Returned tt, s1) /\
    UniformGravity_realizeDynamics this (set_stage gD s1) = (Returned tt, s') /\
    (forall msub matter,
       vec_get (matterSubsystems s0) msub = Some matter ->
       exists rbf pf,
         vec_get (rigidBodyForces s0) msub = Some rbf /\
         vec_get (particleForces s0) msub = Some pf /\
         vec_get (particleForces s') msub =
           Some (zip_with (fun f m => Vec3_add f (Vec3_times g m))
                   pf (matterParticleMasses matter)) /\
         vec_get (rigidBodyForces s') msub =
           Some (zip_with
                   (fun F b =>
                      let com_B_G := Rotation_apply (X_R (bodyConfiguration b))
                                       (bodyCenterOfMass b) in
                      SpatialVec_add F
                        (mkSpatialVec
                           (Vec3_cross com_B_G (Vec3_scale (bodyMass b) g))
                           (Vec3_scale (bodyMass b) g)))
                   rbf (matterBodies matter))) /\
    potentialEnergy s' =
      fold_left
        (fun pe b =>
           let com_B_G := Rotation_apply (X_R (bodyConfiguration b))
                            (bodyCenterOfMass b) in
           let com_G := Vec3_add (X_T (bodyConfiguration b)) com_B_G in
           (pe + bodyMass b * (Vec3_dot g com_G - gh0))%real)
        (concat (map matterBodies (matterSubsystems s0)))
        (potentialEnergy s0) /\
    mobilityForces s' = mobilityForces s0 /\
    length (rigidBodyForces s') = length (matterSubsystems s0) /\
    length (particleForces s') = length (matterSubsystems s0).
Proof.
  intros Hstage HgD Hp Hpc Hread Hen Hmag Hsr Hsp g gh0.
  destruct (gravity_realizeParameters_slot this s0 p pc0 Hstage Hp Hpc)
    as (slot & Hslot & Hrun).
  set (s1 := set_cacheEntries _ s0) in Hrun.
  assert (Hpc1 : UniformGravity_getParameterCache this (set_stage gD s1) =
                 (Returned (gravity_parameterCache p), set_stage gD s1)).
  { eapply gravity_getParameterCache_put; [exact Hslot | reflexivity |].
    rewrite (cacheReadableAt_slot _ _ _ _ Hslot) in Hread. simpl.
    now destruct (Stage_ltb gD (slotStage slot)). }
  assert (Hp1 : UniformGravity_getParameters this (set_stage gD s1) =
                (Returned p, set_stage gD s1)).
  { eapply gravity_getParameters_transfer; [|exact Hp]. reflexivity. }
  destruct (gravity_realizeDynamics_adds_weights this (set_stage gD s1) p
              (gravity_parameterCache p) HgD Hp1 Hpc1 Hen Hmag Hsr Hsp)
    as (s' & Hdyn & Hrest).
  exists s1, s'. split; [exact Hrun|]. split; [exact Hdyn|]. exact Hrest.
Qed.

(** ** realizeConfiguration, the stage advanced, then realizeDynamics *)

Lemma spring_configuration_then_dynamics this s0 g p cc0 dc0 matter b1 b2 rbf pf mf :
  Stage_ltb (stage s0) Timed = false ->
  Stage_ltb g Moving = false ->
  TwoPointSpring_getParameters this s0 = (Returned p, s0) ->
  TwoPointSpring_updConfigurationCache this s0 = (Returned cc0, s0) ->
  TwoPointSpring_updDynamicsCache this s0 = (Returned dc0, s0) ->
  cacheReadableAt g (spring_configurationCacheIndex this) s0 = true ->
  vec_get (matterSubsystems s0) 0 = Some matter ->
  vec_get (matterBodies matter) (body1 this) = Some b1 ->
  vec_get (matterBodies matter) (body2 this) = Some b2 ->
  vec_get (rigidBodyForces s0) 0 = Some rbf ->
  vec_get (particleForces s0) 0 = Some pf ->
  vec_get (mobilityForces s0) 0 = Some mf ->
  vec_size rbf = getNBodies matter ->
  vec_size pf = getNParticles matter ->
  vec_size mf = getNMobilities matter ->
  let cc := spring_configuration this p b1 b2 in
  let f1_G := Vec3_scale (cc_fscalar cc / cc_x cc)%real (cc_v_G cc) in
  exists s1 dslot F1 F2,
    TwoPointSpring_realizeConfiguration this s0 = (Returned tt, s1) /\
    vec_get (cacheEntries (set_stage g s1)) (spring_dynamicsCacheIndex this) = Some dslot /\
    vec_get rbf (body1 this) = Some F1 /\
    vec_get (vec_set rbf (body1 this)
               (SpatialVec_add F1 (mkSpatialVec (Vec3_cross (cc_station1_G cc) f1_G) f1_G)))
            (body2 this) = Some F2 /\
    TwoPointSpring_realizeDynamics this (set_stage g s1) =
      (Returned tt,
       spring_dynamics_result this cc p matter dslot rbf F1 F2 mf (set_stage g s1)) /\
    rigidBodyForces s1 = rigidBodyForces s0 /\
    TwoPointSpring_getConfigurationCache this (set_stage g s1) =
      (Returned cc, set_stage g s1) /\
    vec_get (cacheEntries s0) (spring_dynamicsCacheIndex this) = Some dslot.
Proof.
  intros Hstage Hg Hp Hcc Hdc Hread Hm Hb1 Hb2 Hrbf Hpf Hmf Hsr Hsp Hsm cc f1_G.
  destruct (spring_realizeConfiguration_run this s0 p cc0 matter b1 b2
              Hstage Hp Hcc Hm Hb1 Hb2) as (cslot & Hcslot & Hconf).
  fold cc in Hconf.
  set (s1 := set_cacheEntries _ s0) in *.
  pose proof (spring_cache_indices_differ this s0 cc0 dc0 Hcc Hdc) as Hne.
  assert (Hcc1 : TwoPointSpring_getConfigurationCache this (set_stage g s1)
                 = (Returned cc, set_stage g s1)).
  { eapply spring_getConfigurationCache_put; [exact Hcslot | reflexivity |].
    rewrite (cacheReadableAt_slot _ _ _ _ Hcslot) in Hread. simpl.
    now destruct (Stage_ltb g (slotStage cslot)). }
  destruct (vec_get_in_range rbf (body1 this)) as [F1 HF1].
  { rewrite Hsr. apply (vec_get_range _ _ _ Hb1). }
  destruct (vec_get_in_range
              (vec_set rbf (body1 this)
                 (SpatialVec_add F1
                    (mkSpatialVec (Vec3_cross (cc_station1_G cc) f1_G) f1_G)))
              (body2 this)) as [F2 HF2].
  { rewrite vec_size_set, Hsr. apply (vec_get_range _ _ _ Hb2). }
  destruct (spring_realizeDynamics_run this (set_stage g s1) cc dc0 p matter
              rbf pf mf F1 F2) as (dslot & Hdslot & Hdyn);
    try assumption.
  { eapply spring_updDynamicsCache_other; [exact Hdc | exact Hne | reflexivity]. }
  { eapply spring_getParameters_transfer; [|exact Hp]. reflexivity. }
  exists s1, dslot, F1, F2. repeat split; auto.
  simpl in Hdslot. unfold s1 in Hdslot. simpl in Hdslot.
  rewrite vec_get_set_ne in Hdslot by exact Hne. exact Hdslot.
Qed.

(** ** Construction: the slots a subsystem allocates *)

Lemma vec_size_app {A} (l l' : list A) : vec_size (l ++ l') = vec_size l + vec_size l'.
Proof. unfold vec_size. rewrite length_app. lia. Qed.
Lemma vec_get_app_size {A} (l l' : list A) a :
  vec_get (l ++ a :: l') (vec_size l) = Some a.
Proof. unfold vec_size. apply vec_get_middle. Qed.
Lemma vec_get_app_size1 {A} (l l' : list A) a b :
  vec_get (l ++ a :: b :: l') (vec_size l + 1) = Some b.
Proof.
  change (l ++ a :: b :: l') with (l ++ [a] ++ b :: l'). rewrite app_assoc.
  replace (vec_size l + 1) with (vec_size (l ++ [a]))
    by (rewrite vec_size_app; reflexivity).
  apply vec_get_app_size.
Qed.
Lemma vec_get_app_l {A} (l l' : list A) i a :
  vec_get l i = Some a -> vec_get (l ++ l') i = Some a.
Proof.
  rewrite !vec_get_Some. intros [H0 H]. split; [exact H0|].
  apply lookup_app_l_Some, H.
Qed.

Lemma slotsKept_refl s : slotsKept s s.
Proof. split; auto. Qed.
Lemma slotsKept_trans s t u : slotsKept s t -> slotsKept t u -> slotsKept s u.
Proof. intros [H1 H2] [H3 H4]. split; auto. Qed.
Lemma slotsKept_allocateDiscreteVariable owner g v :
  keeps slotsKept (allocateDiscreteVariable owner g v).
Proof. intros s. split; simpl; intros i slot H; [apply vec_get_app_l|]; exact H. Qed.
Lemma slotsKept_allocateCacheEntry owner g v :
  keeps slotsKept (allocateCacheEntry owner g v).
Proof. intros s. split; simpl; intros i slot H; [|apply vec_get_app_l]; exact H. Qed.

Lemma spring_realizeConstruction_run (this : TwoPointSpringSubsystemRep) u s :
  TwoPointSpring_realizeConstruction this u s =
    (Returned
       (mkSpringRep (spring_mySubsystemIndex this) (body1 this) (body2 this)
          (station1 this) (station2 this) (spring_defaultParameters this)
          (vec_size (discreteVars s)) (vec_size (cacheEntries s))
          (vec_size (cacheEntries s) + 1) true),
     set_cacheEntries
       (cacheEntries s ++
          [mkSlot (spring_mySubsystemIndex this) Configured
             (Value_SpringConfigurationCache (fst u));
           mkSlot (spring_mySubsystemIndex this) Dynamics
             (Value_SpringDynamicsCache (snd u))])
       (set_discreteVars
          (discreteVars s ++
             [mkSlot (spring_mySubsystemIndex this) Parametrized
                (Value_SpringParameters (spring_defaultParameters this))]) s)).
Proof.
  unfold TwoPointSpring_realizeConstruction, allocateDiscreteVariable,
    allocateCacheEntry, bind, gets, modify, ret, set_cacheEntries, set_discreteVars.
  cbn [stage discreteVars cacheEntries matterSubsystems rigidBodyForces particleForces
       mobilityForces potentialEnergy].
  rewrite vec_size_app, <- app_assoc. reflexivity.
Qed.

Lemma spring_realizeConstruction_reads (this : TwoPointSpringSubsystemRep) u s :
  let this' := fst (TwoPointSpring_realizeConstruction this u s) in
  let s' := snd (TwoPointSpring_realizeConstruction this u s) in
  forall built,
  this' = Returned built ->
  TwoPointSpring_getParameters built s' =
    (Returned (spring_defaultParameters this), s') /\
  TwoPointSpring_updConfigurationCache built s' = (Returned (fst u), s') /\
  TwoPointSpring_updDynamicsCache built s' = (Returned (snd u), s') /\
  (forall g, Stage_ltb g Configured = true ->
     TwoPointSpring_getConfigurationCache built (set_stage g s') =
       (Threw (BadAccess "getCacheEntry: stage"), set_stage g s')) /\
  (forall g, Stage_ltb g Dynamics = true ->
     TwoPointSpring_getDynamicsCache built (set_stage g s') =
       (Threw (BadAccess "getCacheEntry: stage"), set_stage g s')).
Proof.
  rewrite spring_realizeConstruction_run. cbn [fst snd]. intros built [= <-].
  split; [|split; [|split; [|split]]].
  - unfold TwoPointSpring_getParameters, bind. rewrite getDiscreteVariable_run.
    cbn [discreteVars set_cacheEntries set_discreteVars spring_parameterVarsIndex].
    rewrite vec_get_app_size. reflexivity.
  - unfold TwoPointSpring_updConfigurationCache, bind. rewrite updCacheEntry_run.
    cbn [cacheEntries set_cacheEntries spring_configurationCacheIndex].
    rewrite vec_get_app_size. reflexivity.
  - unfold TwoPointSpring_updDynamicsCache, bind. rewrite updCacheEntry_run.
    cbn [cacheEntries set_cacheEntries spring_dynamicsCacheIndex].
    rewrite vec_get_app_size1. reflexivity.
  - intros g Hg.
    unfold TwoPointSpring_getConfigurationCache, bind. rewrite getCacheEntry_run.
    cbn [cacheEntries set_cacheEntries set_stage stage spring_configurationCacheIndex].
    rewrite vec_get_app_size. cbn [slotStage]. rewrite Hg. reflexivity.
  - intros g Hg.
    unfold TwoPointSpring_getDynamicsCache, bind. rewrite getCacheEntry_run.
    cbn [cacheEntries set_cacheEntries set_stage stage spring_dynamicsCacheIndex].
    rewrite vec_get_app_size1. cbn [slotStage]. rewrite Hg. reflexivity.
Qed.

(** X1: the spring's realizeConstruction returns on every state.  It
    appends one variable (tagged Parametrized, holding the default
    parameters) and two cache entries (tagged Configured and Dynamics),
    all owned by the subsystem, and leaves the stage, the matter
    subsystems and the accumulators as they were.  The two entries hold
    what the uninitialized [Value] objects hold, whatever that is.  The
    object it leaves is built, with the indices of these three slots:
    its getParameters reads the default parameters, the write access of
    its hooks reaches the two entries, and a read of an entry is refused
    while the stage is below the tag of the entry. *)
Theorem spring_realizeConstruction_allocates (this : TwoPointSpringSubsystemRep)
  (uninitialized : TwoPointSpring_ConfigurationCache * TwoPointSpring_DynamicsCache) s :
  exists this' s',
    TwoPointSpring_realizeConstruction this uninitialized s = (Returned this', s') /\
    this' = mkSpringRep (spring_mySubsystemIndex this) (body1 this) (body2 this)
              (station1 this) (station2 this) (spring_defaultParameters this)
              (vec_size (discreteVars s)) (vec_size (cacheEntries s))
              (vec_size (cacheEntries s) + 1) true /\
    discreteVars s' =
      discreteVars s ++
        [mkSlot (spring_mySubsystemIndex this) Parametrized
           (Value_SpringParameters (spring_defaultParameters this))] /\
    cacheEntries s' =
      cacheEntries s ++
        [mkSlot (spring_mySubsystemIndex this) Configured
           (Value_SpringConfigurationCache (fst uninitialized));
         mkSlot (spring_mySubsystemIndex this) Dynamics
           (Value_SpringDynamicsCache (snd uninitialized))] /\
    stage s' = stage s /\
    matterSubsystems s' = matterSubsystems s /\
    forcesOf s' = forcesOf s /\
    TwoPointSpring_getParameters this' s' =
      (Returned (spring_defaultParameters this), s') /\
    TwoPointSpring_updConfigurationCache this' s' = (Returned (fst uninitialized), s') /\
    TwoPointSpring_updDynamicsCache this' s' = (Returned (snd uninitialized), s') /\
    (forall g, Stage_ltb g Configured = true ->
       TwoPointSpring_getConfigurationCache this' (set_stage g s') =
         (Threw (BadAccess "getCacheEntry: stage"), set_stage g s')) /\
    (forall g, Stage_ltb g Dynamics = true ->
       TwoPointSpring_getDynamicsCache this' (set_stage g s') =
         (Threw (BadAccess "getCacheEntry: stage"), set_stage g s')).
Proof.
  pose proof (spring_realizeConstruction_reads this uninitialized s) as Hreads.
  rewrite spring_realizeConstruction_run in *. cbn [fst snd] in Hreads.
  eexists _, _. split; [reflexivity|].
  do 6 (split; [reflexivity|]). apply Hreads. reflexivity.
Qed.

Lemma gravity_realizeConstruction_run (this : UniformGravitySubsystemRep) u s :
  UniformGravity_realizeConstruction this u s =
    (Returned
       (mkGravityRep (gravity_mySubsystemIndex this) (gravity_defaultParameters this)
          (vec_size (discreteVars s)) (vec_size (cacheEntries s))
          (gravity_configurationCacheIndex this) true),
     set_cacheEntries
       (cacheEntries s ++
          [mkSlot (gravity_mySubsystemIndex this) Parametrized
             (Value_GravityParameterCache u)])
       (set_discreteVars
          (discreteVars s ++
             [mkSlot (gravity_mySubsystemIndex this) Parametrized
                (Value_GravityParameters (gravity_defaultParameters this))]) s)).
Proof. reflexivity. Qed.

Lemma gravity_realizeConstruction_reads (this : UniformGravitySubsystemRep) u s :
  let this' := fst (UniformGravity_realizeConstruction this u s) in
  let s' := snd (UniformGravity_realizeConstruction this u s) in
  forall built,
  this' = Returned built ->
  UniformGravity_getParameters built s' =
    (Returned (gravity_defaultParameters this), s') /\
  UniformGravity_updParameterCache built s' = (Returned u, s') /\
  (forall g, Stage_ltb g Parametrized = true ->
     UniformGravity_getParameterCache built (set_stage g s') =
       (Threw (BadAccess "getCacheEntry: stage"), set_stage g s')).
Proof.
  rewrite gravity_realizeConstruction_run. cbn [fst snd]. intros built [= <-].
  split; [|split].
  - unfold UniformGravity_getParameters, bind. rewrite getDiscreteVariable_run.
    cbn [discreteVars set_cacheEntries set_discreteVars gravity_parameterVarsIndex].
    rewrite vec_get_app_size. reflexivity.
  - unfold UniformGravity_updParameterCache, bind. rewrite updCacheEntry_run.
    cbn [cacheEntries set_cacheEntries gravity_parameterCacheIndex].
    rewrite vec_get_app_size. reflexivity.
  - intros g Hg.
    unfold UniformGravity_getParameterCache, bind. rewrite getCacheEntry_run.
    cbn [cacheEntries set_cacheEntries set_stage stage gravity_parameterCacheIndex].
    rewrite vec_get_app_size. cbn [slotStage]. rewrite Hg. reflexivity.
Qed.

(** X2: gravity's realizeConstruction returns on every state.  It appends
    one variable (tagged Parametrized, holding the default parameters)
    and one cache entry (tagged Parametrized), owned by the subsystem,
    and leaves the rest of the state.  The entry holds what the
    uninitialized [Value] object holds, whatever that is.  The object it
    leaves is built, with the indices of these two slots: its
    getParameters reads the default parameters, the write access of its
    hooks reaches the entry, and a read of the entry is refused while the
    stage is below Parametrized; its configurationCacheIndex is not
    assigned. *)
Theorem gravity_realizeConstruction_allocates (this : UniformGravitySubsystemRep)
  (uninitialized : UniformGravity_ParameterCache) s :
  exists this' s',
    UniformGravity_realizeConstruction this uninitialized s = (Returned this', s') /\
    this' = mkGravityRep (gravity_mySubsystemIndex this) (gravity_defaultParameters this)
              (vec_size (discreteVars s)) (vec_size (cacheEntries s))
              (gravity_configurationCacheIndex this) true /\
    discreteVars s' =
      discreteVars s ++
        [mkSlot (gravity_mySubsystemIndex this) Parametrized
           (Value_GravityParameters (gravity_defaultParameters this))] /\
    cacheEntries s' =
      cacheEntries s ++
        [mkSlot (gravity_mySubsystemIndex this) Parametrized
           (Value_GravityParameterCache uninitialized)] /\
    stage s' = stage s /\
    matterSubsystems s' = matterSubsystems s /\
    forcesOf s' = forcesOf s /\
    UniformGravity_getParameters this' s' =
      (Returned (gravity_defaultParameters this), s') /\
    UniformGravity_updParameterCache this' s' = (Returned uninitialized, s') /\
    (forall g, Stage_ltb g Parametrized = true ->
       UniformGravity_getParameterCache this' (set_stage g s') =
         (Threw (BadAccess "getCacheEntry: stage"), set_stage g s')).
Proof.
  pose proof (gravity_realizeConstruction_reads this uninitialized s) as Hreads.
  rewrite gravity_realizeConstruction_run in *. cbn [fst snd] in Hreads.
  eexists _, _. split; [reflexivity|].
  do 6 (split; [reflexivity|]). apply Hreads. reflexivity.
Qed.

Lemma slotsKept_getDiscreteVariable s s' i v :
  slotsKept s s' ->
  getDiscreteVariable i s = (Returned v, s) ->
  getDiscreteVariable i s' = (Returned v, s').
Proof.
  intros [H _]. rewrite !getDiscreteVariable_run.
  destruct (vec_get (discreteVars s) i) as [slot|] eqn:E; [|discriminate].
  intros [= <-]. rewrite (H _ _ E). reflexivity.
Qed.
Lemma slotsKept_getCacheEntry s s' i v :
  slotsKept s s' ->
  stage s' = stage s ->
  getCacheEntry i s = (Returned v, s) ->
  getCacheEntry i s' = (Returned v, s').
Proof.
  intros [_ H] Hg. rewrite !getCacheEntry_run, Hg.
  destruct (vec_get (cacheEntries s) i) as [slot|] eqn:E; [|discriminate].
  rewrite (H _ _ E).
  destruct (Stage_ltb (stage s) (slotStage slot)); [discriminate|].
  intros [= <-]. reflexivity.
Qed.

(** X3: a realizeConstruction, of a spring or of gravity, leaves every
    slot that was allocated before at its index, and the stage; and
    whatever leaves the slots in place leaves what the accessors of the
    subsystems built earlier read: their parameters and, with the stage
    left too, their caches. *)
Theorem realizeConstruction_keeps_earlier_slots s :
  (forall (this : TwoPointSpringSubsystemRep) uninitialized,
     slotsKept s (snd (TwoPointSpring_realizeConstruction this uninitialized s)) /\
     stage (snd (TwoPointSpring_realizeConstruction this uninitialized s)) = stage s) /\
  (forall (this : UniformGravitySubsystemRep) uninitialized,
     slotsKept s (snd (UniformGravity_realizeConstruction this uninitialized s)) /\
     stage (snd (UniformGravity_realizeConstruction this uninitialized s)) = stage s) /\
  (forall s', slotsKept s s' ->
     (forall other p,
        TwoPointSpring_getParameters other s = (Returned p, s) ->
        TwoPointSpring_getParameters other s' = (Returned p, s')) /\
     (forall other cc,
        stage s' = stage s ->
        TwoPointSpring_getConfigurationCache other s = (Returned cc, s) ->
        TwoPointSpring_getConfigurationCache other s' = (Returned cc, s')) /\
     (forall other dc,
        stage s' = stage s ->
        TwoPointSpring_getDynamicsCache other s = (Returned dc, s) ->
        TwoPointSpring_getDynamicsCache other s' = (Returned dc, s')) /\
     (forall other p,
        UniformGravity_getParameters other s = (Returned p, s) ->
        UniformGravity_getParameters other s' = (Returned p, s')) /\
     (forall other pc,
        stage s' = stage s ->
        UniformGravity_getParameterCache other s = (Returned pc, s) ->
        UniformGravity_getParameterCache other s' = (Returned pc, s'))).
Proof.
  split; [|split].
  - intros this u. rewrite spring_realizeConstruction_run.
    split; [|reflexivity]. split; simpl; intros i slot H; apply vec_get_app_l, H.
  - intros this u. rewrite gravity_realizeConstruction_run.
    split; [|reflexivity]. split; simpl; intros i slot H; apply vec_get_app_l, H.
  - intros s' Hkept. pose proof Hkept as [Hv Hc].
    split; [|split; [|split; [|split]]]; intros other x.
    + unfold TwoPointSpring_getParameters, bind. rewrite !getDiscreteVariable_run.
      destruct (vec_get (discreteVars s) _) as [[? ? []]|] eqn:E; try discriminate.
      intros [= <-]. rewrite (Hv _ _ E). reflexivity.
    + intros Hg. rewrite !spring_getConfigurationCache_slot, Hg.
      intros (slot & H1 & H2). exists slot. split; [apply Hc, H1 | exact H2].
    + intros Hg. rewrite !spring_getDynamicsCache_slot, Hg.
      intros (slot & H1 & H2). exists slot. split; [apply Hc, H1 | exact H2].
    + unfold UniformGravity_getParameters, bind. rewrite !getDiscreteVariable_run.
      destruct (vec_get (discreteVars s) _) as [[? ? []]|] eqn:E; try discriminate.
      intros [= <-]. rewrite (Hv _ _ E). reflexivity.
    + intros Hg. rewrite !gravity_getParameterCache_slot, Hg.
      intros (slot & H1 & H2). exists slot. split; [apply Hc, H1 | exact H2].
Qed.

(** ** Writing a variable and reading it back *)

Lemma updDiscreteVariable_run i s :
  updDiscreteVariable i s =
    match vec_get (discreteVars s) i with
    | Some slot => (Returned (slotValue slot), invalidateStage (slotStage slot) s)
    | None => (Threw (BadAccess "updDiscreteVariable"), s)
    end.
Proof.
  unfold updDiscreteVariable, bind, gets.
  destruct (vec_get (discreteVars s) i); reflexivity.
Qed.
Lemma putDiscreteVariable_run i v s :
  putDiscreteVariable i v s =
    match vec_get (discreteVars s) i with
    | Some slot =>
        (Returned tt,
         set_discreteVars
           (vec_set (discreteVars s) i (mkSlot (slotOwner slot) (slotStage slot) v)) s)
    | None => (Threw (BadAccess "updDiscreteVariable"), s)
    end.
Proof.
  unfold putDiscreteVariable, bind, gets.
  destruct (vec_get (discreteVars s) i); reflexivity.
Qed.
Lemma invalidateStage_rest g s :
  discreteVars (invalidateStage g s) = discreteVars s /\
  cacheEntries (invalidateStage g s) = cacheEntries s /\
  matterSubsystems (invalidateStage g s) = matterSubsystems s /\
  forcesOf (invalidateStage g s) = forcesOf s.
Proof. unfold invalidateStage. destruct (Stage_ltb _ _); repeat split. Qed.

Lemma slotsExcept_set l i slot v :
  vec_get l i = Some slot ->
  slotsExcept i l (vec_set l i (mkSlot (slotOwner slot) (slotStage slot) v)).
Proof.
  intros H. split; [apply vec_size_set|]. split.
  - intros j Hne. apply vec_get_set_ne. congruence.
  - intros slot0 H0. rewrite H in H0. injection H0 as <-.
    eexists. split; [eapply vec_get_set_eq, H|]. split; reflexivity.
Qed.

Lemma wroteVariable_run i slot v s :
  vec_get (discreteVars s) i = Some slot ->
  wroteVariable i s
    (set_discreteVars
       (vec_set (discreteVars s) i (mkSlot (slotOwner slot) (slotStage slot) v))
       (invalidateStage (slotStage slot) s)).
Proof.
  intros H. destruct (invalidateStage_rest (slotStage slot) s) as (Hd & Hc & Hm & Hf).
  split; [|split; [|split; [|split]]].
  - intros slot0 H0. rewrite H in H0. injection H0 as <-. reflexivity.
  - exact Hc.
  - exact Hm.
  - exact Hf.
  - cbn [discreteVars set_discreteVars]. apply slotsExcept_set, H.
Qed.

Lemma spring_getParameters_slot this s p :
  TwoPointSpring_getParameters this s = (Returned p, s) ->
  exists slot, vec_get (discreteVars s) (spring_parameterVarsIndex this) = Some slot /\
               slotValue slot = Value_SpringParameters p.
Proof.
  unfold TwoPointSpring_getParameters, bind. rewrite getDiscreteVariable_run.
  destruct (vec_get _ _) as [[o g []]|]; try discriminate.
  intros [= ->]. eexists. split; reflexivity.
Qed.
Lemma gravity_getParameters_slot this s p :
  UniformGravity_getParameters this s = (Returned p, s) ->
  exists slot, vec_get (discreteVars s) (gravity_parameterVarsIndex this) = Some slot /\
               slotValue slot = Value_GravityParameters p.
Proof.
  unfold UniformGravity_getParameters, bind. rewrite getDiscreteVariable_run.
  destruct (vec_get _ _) as [[o g []]|]; try discriminate.
  intros [= ->]. eexists. split; reflexivity.
Qed.

Lemma spring_updParameters_put this s slot p F :
  vec_get (discreteVars s) (spring_parameterVarsIndex this) = Some slot ->
  slotValue slot = Value_SpringParameters p ->
  let s' := set_discreteVars
              (vec_set (discreteVars s) (spring_parameterVarsIndex this)
                 (mkSlot (slotOwner slot) (slotStage slot) (Value_SpringParameters (F p))))
              (invalidateStage (slotStage slot) s) in
  bind (TwoPointSpring_updParameters this)
       (fun p => TwoPointSpring_putParameters this (F p)) s = (Returned tt, s') /\
  TwoPointSpring_getParameters this s' = (Returned (F p), s').
Proof.
  intros H Hv s'. destruct (invalidateStage_rest (slotStage slot) s) as (Hd & _).
  split.
  - unfold TwoPointSpring_updParameters, TwoPointSpring_putParameters, bind.
    rewrite updDiscreteVariable_run, H. cbv beta iota. rewrite Hv. cbv beta iota.
    unfold ret. rewrite putDiscreteVariable_run, Hd, H. reflexivity.
  - unfold TwoPointSpring_getParameters, bind. rewrite getDiscreteVariable_run.
    subst s'. cbn [discreteVars set_discreteVars].
    rewrite (vec_get_set_eq _ _ _ _ H). reflexivity.
Qed.
Lemma gravity_updParameters_put this s slot p F :
  vec_get (discreteVars s) (gravity_parameterVarsIndex this) = Some slot ->
  slotValue slot = Value_GravityParameters p ->
  let s' := set_discreteVars
              (vec_set (discreteVars s) (gravity_parameterVarsIndex this)
                 (mkSlot (slotOwner slot) (slotStage slot) (Value_GravityParameters (F p))))
              (invalidateStage (slotStage slot) s) in
  bind (UniformGravity_updParameters this)
       (fun p => UniformGravity_putParameters this (F p)) s = (Returned tt, s') /\
  UniformGravity_getParameters this s' = (Returned (F p), s').
Proof.
  intros H Hv s'. destruct (invalidateStage_rest (slotStage slot) s) as (Hd & _).
  split.
  - unfold UniformGravity_updParameters, UniformGravity_putParameters, bind.
    rewrite updDiscreteVariable_run, H. cbv beta iota. rewrite Hv. cbv beta iota.
    unfold ret. rewrite putDiscreteVariable_run, Hd, H. reflexivity.
  - unfold UniformGravity_getParameters, bind. rewrite getDiscreteVariable_run.
    subst s'. cbn [discreteVars set_discreteVars].
    rewrite (vec_get_set_eq _ _ _ _ H). reflexivity.
Qed.

(** X4: where the spring's parameters can be read, each of updGravity,
    updDamping, updStiffness and updNaturalLength, assigned to, returns;
    the parameters read afterwards are the old ones with that one field
    replaced; the caches, the matter subsystems, the accumulators and
    every other variable are as before, and the stage has fallen back
    below the stage of the variable. *)
Theorem spring_upd_then_get this s p :
  TwoPointSpring_getParameters this s = (Returned p, s) ->
  let written (m : M unit) p' :=
    exists s' : State, m s = (Returned tt, s') /\
               TwoPointSpring_getParameters this s' = (Returned p', s') /\
               wroteVariable (spring_parameterVarsIndex this) s s' in
  (forall g : Vec3, written (TwoPointSpring_updGravity this g)
               (mkSpringParameters (p_stiffness p) (p_naturalLength p) g (p_damping p))) /\
  (forall d : Real, written (TwoPointSpring_updDamping this d)
               (mkSpringParameters (p_stiffness p) (p_naturalLength p) (p_gravity p) d)) /\
  (forall k : Real, written (TwoPointSpring_updStiffness this k)
               (mkSpringParameters k (p_naturalLength p) (p_gravity p) (p_damping p))) /\
  (forall x0 : Real, written (TwoPointSpring_updNaturalLength this x0)
               (mkSpringParameters (p_stiffness p) x0 (p_gravity p) (p_damping p))).
Proof.
  intros Hp written. destruct (spring_getParameters_slot this s p Hp) as (slot & Hs & Hv).
  repeat split; intros x; eexists;
    (split; [|split; [|apply (wroteVariable_run _ slot), Hs]]);
    [ exact (proj1 (spring_updParameters_put this s slot p
               (fun p => mkSpringParameters _ _ x _) Hs Hv))
    | exact (proj2 (spring_updParameters_put this s slot p
               (fun p => mkSpringParameters _ _ x _) Hs Hv))
    | exact (proj1 (spring_updParameters_put this s slot p
               (fun p => mkSpringParameters _ _ _ x) Hs Hv))
    | exact (proj2 (spring_updParameters_put this s slot p
               (fun p => mkSpringParameters _ _ _ x) Hs Hv))
    | exact (proj1 (spring_updParameters_put this s slot p
               (fun p => mkSpringParameters x _ _ _) Hs Hv))
    | exact (proj2 (spring_updParameters_put this s slot p
               (fun p => mkSpringParameters x _ _ _) Hs Hv))
    | exact (proj1 (spring_updParameters_put this s slot p
               (fun p => mkSpringParameters _ x _ _) Hs Hv))
    | exact (proj2 (spring_updParameters_put this s slot p
               (fun p => mkSpringParameters _ x _ _) Hs Hv)) ].
Qed.

(** X5: where gravity's parameters can be read, each of updGravity,
    updZeroHeight and updIsEnabled, assigned to, returns; the parameters
    read afterwards are the old ones with that one field replaced; the
    caches, the matter subsystems, the accumulators and every other
    variable are as before, and the stage has fallen back below the stage
    of the variable. *)
Theorem gravity_upd_then_get this s p :
  UniformGravity_getParameters this s = (Returned p, s) ->
  let written (m : M unit) p' :=
    exists s' : State, m s = (Returned tt, s') /\
               UniformGravity_getParameters this s' = (Returned p', s') /\
               wroteVariable (gravity_parameterVarsIndex this) s s' in
  (forall g : Vec3, written (UniformGravity_updGravity this g)
               (mkGravityParameters g (gp_zeroHeight p) (gp_enabled p))) /\
  (forall z : Real, written (UniformGravity_updZeroHeight this z)
               (mkGravityParameters (gp_gravity p) z (gp_enabled p))) /\
  (forall b : bool, written (UniformGravity_updIsEnabled this b)
               (mkGravityParameters (gp_gravity p) (gp_zeroHeight p) b)).
Proof.
  intros Hp written. destruct (gravity_getParameters_slot this s p Hp) as (slot & Hs & Hv).
  repeat split; intros x; eexists;
    (split; [|split; [|apply (wroteVariable_run _ slot), Hs]]);
    [ exact (proj1 (gravity_updParameters_put this s slot p
               (fun p => mkGravityParameters x _ _) Hs Hv))
    | exact (proj2 (gravity_updParameters_put this s slot p
               (fun p => mkGravityParameters x _ _) Hs Hv))
    | exact (proj1 (gravity_updParameters_put this s slot p
               (fun p => mkGravityParameters _ x _) Hs Hv))
    | exact (proj2 (gravity_updParameters_put this s slot p
               (fun p => mkGravityParameters _ x _) Hs Hv))
    | exact (proj1 (gravity_updParameters_put this s slot p
               (fun p => mkGravityParameters _ _ x) Hs Hv))
    | exact (proj2 (gravity_updParameters_put this s slot p
               (fun p => mkGravityParameters _ _ x) Hs Hv)) ].
Qed.

(** ** A variable written after its cache was filled *)

(** X6: a stiffness assigned after the configuration cache was filled.
    The assignment drops the stage to Modeled: the cached potential
    energy, read before, is now refused, and realizeConfiguration refuses
    to run; once the stage is back at Timed or later, realizeConfiguration
    recomputes the cache from the new stiffness, and the new potential
    energy is read at every stage from Configured on. *)
Theorem spring_updStiffness_then_realizeConfiguration
  this s owner cowner p cc0 matter b1 b2 (k : Real) g :
  Stage_ltb (stage s) Timed = false ->
  vec_get (discreteVars s) (spring_parameterVarsIndex this) =
    Some (mkSlot owner Parametrized (Value_SpringParameters p)) ->
  vec_get (cacheEntries s) (spring_configurationCacheIndex this) =
    Some (mkSlot cowner Configured (Value_SpringConfigurationCache cc0)) ->
  vec_get (matterSubsystems s) 0 = Some matter ->
  vec_get (matterBodies matter) (body1 this) = Some b1 ->
  vec_get (matterBodies matter) (body2 this) = Some b2 ->
  Stage_ltb g Timed = false ->
  let p' := mkSpringParameters k (p_naturalLength p) (p_gravity p) (p_damping p) in
  exists s1 s2,
    (Stage_ltb (stage s) Configured = false ->
     TwoPointSpring_getPotentialEnergy this s = (Returned (cc_pe cc0), s)) /\
    TwoPointSpring_updStiffness this k s = (Returned tt, s1) /\
    stage s1 = Modeled /\
    TwoPointSpring_getPotentialEnergy this s1 =
      (Threw (BadAccess "getCacheEntry: stage"), s1) /\
    TwoPointSpring_realizeConfiguration this s1 =
      (Threw (StageTooLow Modeled Timed "TwoPointSpring::realizeConfiguration()"), s1) /\
    TwoPointSpring_realizeConfiguration this (set_stage g s1) = (Returned tt, s2) /\
    (forall g', Stage_ltb g' Configured = false ->
       TwoPointSpring_getPotentialEnergy this (set_stage g' s2) =
         (Returned (cc_pe (spring_configuration this p' b1 b2)), set_stage g' s2)).
Proof.
  intros Hstage Hslot Hcslot0 Hm Hb1 Hb2 Hg p'.
  destruct (spring_updParameters_put this s _ p
              (fun p => mkSpringParameters k (p_naturalLength p) (p_gravity p) (p_damping p))
              Hslot eq_refl) as [Hrun Hget].
  cbn [slotOwner slotStage] in Hrun, Hget.
  set (s1 := set_discreteVars _ _) in Hrun, Hget.
  assert (Hst1 : stage s1 = Modeled).
  { subst s1. cbn [stage set_discreteVars]. unfold invalidateStage.
    destruct (stage s); try discriminate; reflexivity. }
  assert (Hc1 : cacheEntries s1 = cacheEntries s).
  { subst s1. cbn [cacheEntries set_discreteVars].
    apply (invalidateStage_rest Parametrized s). }
  assert (Hm1 : matterSubsystems s1 = matterSubsystems s).
  { subst s1. cbn [matterSubsystems set_discreteVars].
    apply (invalidateStage_rest Parametrized s). }
  assert (Hp2 : TwoPointSpring_getParameters this (set_stage g s1) =
                (Returned p', set_stage g s1)).
  { rewrite (run_eta (TwoPointSpring_getParameters this) (set_stage g s1))
      by (intros ? ?; apply spring_getParameters_inv).
    rewrite (spring_getParameters_frame this s1 (set_stage g s1) eq_refl), Hget.
    reflexivity. }
  assert (Hcc2 : TwoPointSpring_updConfigurationCache this (set_stage g s1) =
                 (Returned cc0, set_stage g s1)).
  { apply spring_updConfigurationCache_slot. eexists. cbn [cacheEntries set_stage].
    rewrite Hc1. split; [exact Hcslot0 | reflexivity]. }
  destruct (spring_realizeConfiguration_run this (set_stage g s1) p' cc0 matter b1 b2)
    as (cslot & Hcslot & Hconf); try assumption.
  { cbn [matterSubsystems set_stage]. rewrite Hm1. exact Hm. }
  assert (Hcs : cslot = mkSlot cowner Configured (Value_SpringConfigurationCache cc0)).
  { cbn [cacheEntries set_stage] in Hcslot. rewrite Hc1, Hcslot0 in Hcslot.
    congruence. }
  eexists s1, _. split; [|split; [exact Hrun|]]; [|split; [exact Hst1|]];
    [|split; [|split; [|split]]].
  - intros Hconfigured. unfold TwoPointSpring_getPotentialEnergy.
    erewrite bind_returned; [reflexivity|].
    apply spring_getConfigurationCache_slot. eexists.
    split; [exact Hcslot0|]. split; [reflexivity | exact Hconfigured].
  - unfold TwoPointSpring_getPotentialEnergy, TwoPointSpring_getConfigurationCache, bind.
    rewrite getCacheEntry_run, Hc1, Hcslot0, Hst1. reflexivity.
  - unfold TwoPointSpring_realizeConfiguration, bind.
    rewrite stagecheck_low by (rewrite Hst1; reflexivity). rewrite Hst1. reflexivity.
  - exact Hconf.
  - intros g' Hg'. unfold TwoPointSpring_getPotentialEnergy.
    erewrite bind_returned; [reflexivity|].
    eapply spring_getConfigurationCache_put; [exact Hcslot | reflexivity |].
    rewrite Hcs. exact Hg'.
Qed.

(** ** The hooks with nothing to compute *)

(** X7: the hooks with nothing to compute (the spring's realizeModeling,
    realizeParameters, realizeTime, realizeMotion and realizeReaction,
    gravity's realizeConfiguration) leave the state as it was, whatever
    their outcome; but for realizeParameters, the stage alone decides the
    outcome: they return when it is at least the one required, and report
    it otherwise. *)
Theorem hooks_with_nothing_to_compute h spring gravity s :
  computesNothing h = true ->
  snd (runHook h spring gravity s) = s /\
  (h <> Spring_realizeParameters ->
   fst (runHook h spring gravity s) =
     if Stage_ltb (stage s) (requiredStage h)
     then Threw (StageTooLow (stage s) (requiredStage h) (hookName h))
     else Returned tt).
Proof.
  assert (Hcheck : forall g w,
            SimTK_STAGECHECK_GE_ALWAYS g w s =
              (if Stage_ltb (stage s) g
               then Threw (StageTooLow (stage s) g w) else Returned tt, s)).
  { intros g w. destruct (Stage_ltb (stage s) g) eqn:E;
      [apply stagecheck_low | apply stagecheck_ok]; exact E. }
  destruct h; try discriminate; intros _; cbn [runHook requiredStage hookStage
    Stage_prev hookName];
    try (unfold TwoPointSpring_realizeModeling, TwoPointSpring_realizeTime,
           TwoPointSpring_realizeMotion, TwoPointSpring_realizeReaction,
           UniformGravity_realizeConfiguration; rewrite Hcheck; split;
         [reflexivity | intros _; reflexivity]).
  split; [|intros H; contradiction H; reflexivity].
  unfold TwoPointSpring_realizeParameters, TwoPointSpring_getStiffness,
    TwoPointSpring_getNaturalLength, SimTK_VALUECHECK_NONNEG_ALWAYS, bind.
  rewrite Hcheck. destruct (Stage_ltb (stage s) Modeled); [reflexivity|].
  destruct (TwoPointSpring_getParameters spring s) as [[p|e] s'] eqn:E;
    apply spring_getParameters_inv in E as E'; subst s'; [|reflexivity].
  unfold ret. destruct (rltb (p_stiffness p) r0); [reflexivity|].
  rewrite E. destruct (rltb (p_naturalLength p) r0); reflexivity.
Qed.

(** ** The hooks that fill a cache entry *)

Lemma slotsExcept_refl i l : slotsExcept i l l.
Proof. split; [reflexivity|]. split; [reflexivity|]. eauto. Qed.
Lemma slotsExcept_trans i l1 l2 l3 :
  slotsExcept i l1 l2 -> slotsExcept i l2 l3 -> slotsExcept i l1 l3.
Proof.
  intros (H1 & H2 & H3) (H4 & H5 & H6). split; [congruence|]. split.
  - intros j Hj. rewrite H5, H2 by exact Hj. reflexivity.
  - intros slot Hs. destruct (H3 _ Hs) as (slot' & Hs' & Ho & Ht).
    destruct (H6 _ Hs') as (slot'' & Hs'' & Ho' & Ht').
    exists slot''. split; [exact Hs''|]. split; congruence.
Qed.
Lemma wroteCacheEntry_refl i s : wroteCacheEntry i s s.
Proof. do 4 (split; [reflexivity|]). apply slotsExcept_refl. Qed.
Lemma wroteCacheEntry_trans i s t u :
  wroteCacheEntry i s t -> wroteCacheEntry i t u -> wroteCacheEntry i s u.
Proof.
  intros (H1 & H2 & H3 & H4 & H5) (H6 & H7 & H8 & H9 & H10).
  split; [congruence|]. split; [congruence|]. split; [congruence|].
  split; [congruence|]. eapply slotsExcept_trans; eassumption.
Qed.
Lemma wroteCacheEntry_putCacheEntry i v : keeps (wroteCacheEntry i) (putCacheEntry i v).
Proof.
  intros s. rewrite putCacheEntry_run.
  destruct (vec_get (cacheEntries s) i) as [slot|] eqn:E; [|apply wroteCacheEntry_refl].
  do 4 (split; [reflexivity|]). apply slotsExcept_set, E.
Qed.

Ltac keeps_steps special Prefl Ptrans :=
  repeat first
    [ progress intros
    | special
    | apply (keeps_stagecheck _ Prefl Ptrans)
    | apply (keeps_ret _ Prefl)
    | apply (keeps_throw _ Prefl)
    | apply (keeps_gets _ Prefl)
    | apply (keeps_orThrow _ Prefl)
    | apply (keeps_assert _ Prefl)
    | apply (keeps_forUpTo _ Prefl Ptrans)
    | apply keeps_if
    | apply (keeps_bind _ Ptrans)
    | match goal with
      | |- keeps _ (match ?v with _ => _ end) => destruct v
      end ].

Lemma wroteCacheEntry_spring_realizeConfiguration this :
  keeps (wroteCacheEntry (spring_configurationCacheIndex this))
    (TwoPointSpring_realizeConfiguration this).
Proof.
  unfold TwoPointSpring_realizeConfiguration, TwoPointSpring_getParameters,
    TwoPointSpring_getConfigurationCache.
  autounfold with hooks.
  unfold TwoPointSpring_getConfigurationCache, getMatterSubsystem, getBody,
    getDiscreteVariable, getCacheEntry.
  keeps_steps ltac:(idtac; match goal with |- keeps _ (putCacheEntry _ _) =>
                      apply wroteCacheEntry_putCacheEntry end)
              (wroteCacheEntry_refl (spring_configurationCacheIndex this))
              (wroteCacheEntry_trans (spring_configurationCacheIndex this)).
Qed.
Lemma wroteCacheEntry_gravity_realizeParameters this :
  keeps (wroteCacheEntry (gravity_parameterCacheIndex this))
    (UniformGravity_realizeParameters this).
Proof.
  unfold UniformGravity_realizeParameters, UniformGravity_getParameters.
  autounfold with hooks.
  unfold UniformGravity_getParameters, UniformGravity_getParameterCache,
    getDiscreteVariable, getCacheEntry.
  keeps_steps ltac:(idtac; match goal with |- keeps _ (putCacheEntry _ _) =>
                      apply wroteCacheEntry_putCacheEntry end)
              (wroteCacheEntry_refl (gravity_parameterCacheIndex this))
              (wroteCacheEntry_trans (gravity_parameterCacheIndex this)).
Qed.

(** Either the hook stops before it writes, or it runs through. *)
Lemma spring_realizeConfiguration_cases this s :
  snd (TwoPointSpring_realizeConfiguration this s) = s \/
  exists p cc0 matter b1 b2,
    Stage_ltb (stage s) Timed = false /\
    TwoPointSpring_getParameters this s = (Returned p, s) /\
    TwoPointSpring_updConfigurationCache this s = (Returned cc0, s) /\
    vec_get (matterSubsystems s) 0 = Some matter /\
    vec_get (matterBodies matter) (body1 this) = Some b1 /\
    vec_get (matterBodies matter) (body2 this) = Some b2.
Proof.
  unfold TwoPointSpring_realizeConfiguration.
  destruct (Stage_ltb (stage s) Timed) eqn:Est.
  { left. unfold bind at 1. rewrite stagecheck_low by exact Est. reflexivity. }
  unfold bind at 1. rewrite stagecheck_ok by exact Est.
  destruct (TwoPointSpring_getParameters this s) as [[p|e] s'] eqn:Ep;
    pose proof (spring_getParameters_inv _ _ _ _ Ep); subst s';
    unfold bind at 1; rewrite Ep; [|left; reflexivity].
  destruct (TwoPointSpring_updConfigurationCache this s) as [[cc0|e] s'] eqn:Ec;
    pose proof (spring_updConfigurationCache_inv _ _ _ _ Ec); subst s';
    unfold bind at 1; rewrite Ec; [|left; reflexivity].
  unfold getMatterSubsystem, getBodyConfiguration, getBody, bind, gets.
  destruct (vec_get (matterSubsystems s) 0) as [matter|] eqn:Em; [|left; reflexivity].
  cbn [orThrow ret].
  destruct (vec_get (matterBodies matter) (body1 this)) as [b1|] eqn:E1;
    [|left; reflexivity].
  cbn [orThrow ret]. rewrite Em. cbn [orThrow ret].
  destruct (vec_get (matterBodies matter) (body2 this)) as [b2|] eqn:E2;
    [|left; reflexivity].
  right. exists p, cc0, matter, b1, b2. repeat split; reflexivity || assumption.
Qed.
Lemma gravity_realizeParameters_cases this s :
  snd (UniformGravity_realizeParameters this s) = s \/
  exists p pc0,
    Stage_ltb (stage s) Modeled = false /\
    UniformGravity_getParameters this s = (Returned p, s) /\
    UniformGravity_updParameterCache this s = (Returned pc0, s).
Proof.
  unfold UniformGravity_realizeParameters, UniformGravity_getGravity.
  destruct (Stage_ltb (stage s) Modeled) eqn:Est.
  { left. unfold bind at 1. rewrite stagecheck_low by exact Est. reflexivity. }
  unfold bind at 1. rewrite stagecheck_ok by exact Est.
  destruct (UniformGravity_updParameterCache this s) as [[pc0|e] s'] eqn:Ec;
    pose proof (gravity_updParameterCache_inv _ _ _ _ Ec); subst s';
    unfold bind at 1; rewrite Ec; [|left; reflexivity].
  destruct (UniformGravity_getParameters this s) as [[p|e] s'] eqn:Ep;
    pose proof (gravity_getParameters_inv _ _ _ _ Ep); subst s';
    unfold bind at 1 2; rewrite Ep; [|left; reflexivity].
  right. exists p, pc0. repeat split; reflexivity || assumption.
Qed.

Lemma vec_set_twice {A} (l : list A) i a b : vec_set (vec_set l i a) i b = vec_set l i b.
Proof.
  unfold vec_set. destruct (i <? 0); [reflexivity|]. apply list_insert_insert_eq.
Qed.

(** X8: the spring's realizeConfiguration, whatever its outcome, writes
    nothing but the value of its configuration cache entry: the stage,
    the variables, the matter subsystems, the accumulators and the other
    cache entries are as before.  Run again on the state it left, it has
    the same outcome and leaves that state. *)
Theorem spring_realizeConfiguration_fills_its_cache this s :
  let s1 := snd (TwoPointSpring_realizeConfiguration this s) in
  wroteCacheEntry (spring_configurationCacheIndex this) s s1 /\
  TwoPointSpring_realizeConfiguration this s1 =
    (fst (TwoPointSpring_realizeConfiguration this s), s1).
Proof.
  intros s1. split; [apply wroteCacheEntry_spring_realizeConfiguration|].
  destruct (spring_realizeConfiguration_cases this s)
    as [Hsame | (p & cc0 & matter & b1 & b2 & Hst & Hp & Hcc & Hm & Hb1 & Hb2)].
  { subst s1. destruct (TwoPointSpring_realizeConfiguration this s) as [o s'] eqn:E.
    cbn [fst snd] in *. subst s'. exact E. }
  destruct (spring_realizeConfiguration_run this s p cc0 matter b1 b2
              Hst Hp Hcc Hm Hb1 Hb2) as (slot & Hslot & Hrun).
  subst s1. rewrite Hrun. cbn [fst snd].
  set (s1 := set_cacheEntries _ s).
  assert (Hcc1 : TwoPointSpring_updConfigurationCache this s1 =
                 (Returned (spring_configuration this p b1 b2), s1)).
  { eapply spring_updConfigurationCache_put; [exact Hslot | reflexivity]. }
  destruct (spring_realizeConfiguration_run this s1 p
              (spring_configuration this p b1 b2) matter b1 b2)
    as (slot1 & Hslot1 & Hrun1); try assumption.
  { eapply spring_getParameters_transfer; [|exact Hp]. reflexivity. }
  rewrite Hrun1. f_equal. subst s1. cbn [cacheEntries set_cacheEntries] in *.
  rewrite (vec_get_set_eq _ _ _ _ Hslot) in Hslot1. injection Hslot1 as <-.
  cbn [slotOwner slotStage]. rewrite vec_set_twice. reflexivity.
Qed.

(** X9: gravity's realizeParameters, whatever its outcome, writes nothing
    but the value of its parameter cache entry.  Run again on the state
    it left, it has the same outcome and leaves that state. *)
Theorem gravity_realizeParameters_fills_its_cache this s :
  let s1 := snd (UniformGravity_realizeParameters this s) in
  wroteCacheEntry (gravity_parameterCacheIndex this) s s1 /\
  UniformGravity_realizeParameters this s1 =
    (fst (UniformGravity_realizeParameters this s), s1).
Proof.
  intros s1. split; [apply wroteCacheEntry_gravity_realizeParameters|].
  destruct (gravity_realizeParameters_cases this s)
    as [Hsame | (p & pc0 & Hst & Hp & Hpc)].
  { subst s1. destruct (UniformGravity_realizeParameters this s) as [o s'] eqn:E.
    cbn [fst snd] in *. subst s'. exact E. }
  destruct (gravity_realizeParameters_slot this s p pc0 Hst Hp Hpc)
    as (slot & Hslot & Hrun).
  subst s1. rewrite Hrun. cbn [fst snd].
  set (s1 := set_cacheEntries _ s).
  assert (Hpc1 : UniformGravity_updParameterCache this s1 =
                 (Returned (gravity_parameterCache p), s1)).
  { eapply gravity_updParameterCache_put; [exact Hslot | reflexivity]. }
  destruct (gravity_realizeParameters_slot this s1 p (gravity_parameterCache p))
    as (slot1 & Hslot1 & Hrun1); try assumption.
  { eapply gravity_getParameters_transfer; [|exact Hp]. reflexivity. }
  rewrite Hrun1. f_equal. subst s1. cbn [cacheEntries set_cacheEntries] in *.
  rewrite (vec_get_set_eq _ _ _ _ Hslot) in Hslot1. injection Hslot1 as <-.
  cbn [slotOwner slotStage]. rewrite vec_set_twice. reflexivity.
Qed.

(** ** What the Dynamics hooks leave as it was *)

Lemma keptByGravityDynamics_refl s : keptByGravityDynamics s s.
Proof. repeat split. Qed.
Lemma keptByGravityDynamics_trans s t u :
  keptByGravityDynamics s t -> keptByGravityDynamics t u -> keptByGravityDynamics s u.
Proof. intros (?&?&?&?&?) (?&?&?&?&?). repeat split; congruence. Qed.
Lemma keptBySpringDynamics_refl i s : keptBySpringDynamics i s s.
Proof. do 4 (split; [reflexivity|]). apply slotsExcept_refl. Qed.
Lemma keptBySpringDynamics_trans i s t u :
  keptBySpringDynamics i s t -> keptBySpringDynamics i t u -> keptBySpringDynamics i s u.
Proof.
  intros (H1 & H2 & H3 & H4 & H5) (H6 & H7 & H8 & H9 & H10).
  do 4 (split; [congruence|]). eapply slotsExcept_trans; eassumption.
Qed.
Lemma keptBySpringDynamics_putCacheEntry i v :
  keeps (keptBySpringDynamics i) (putCacheEntry i v).
Proof.
  intros s. rewrite putCacheEntry_run.
  destruct (vec_get (cacheEntries s) i) as [slot|] eqn:E;
    [|apply keptBySpringDynamics_refl].
  do 4 (split; [reflexivity|]). apply slotsExcept_set, E.
Qed.

Lemma keptByGravityDynamics_realizeDynamics this :
  keeps keptByGravityDynamics (UniformGravity_realizeDynamics this).
Proof.
  unfold UniformGravity_realizeDynamics, UniformGravity_getParameters.
  autounfold with hooks.
  unfold UniformGravity_getParameters, UniformGravity_getParameterCache,
    getDiscreteVariable, getCacheEntry, getMatterSubsystem, getBody, for_,
    particleForces_addAt, rigidBodyForces_addAt, potentialEnergy_add,
    vectorUpd, vectorSize, vectorModifyAt, vectorRef.
  keeps_steps
    ltac:(idtac; match goal with
          | |- keeps _ (modify _) => apply keeps_modify; intros; repeat split
          end)
    keptByGravityDynamics_refl keptByGravityDynamics_trans.
Qed.
Lemma keptBySpringDynamics_realizeDynamics this :
  keeps (keptBySpringDynamics (spring_dynamicsCacheIndex this))
    (TwoPointSpring_realizeDynamics this).
Proof.
  unfold TwoPointSpring_realizeDynamics, TwoPointSpring_getParameters.
  autounfold with hooks.
  unfold TwoPointSpring_getParameters, TwoPointSpring_getConfigurationCache,
    TwoPointSpring_getDynamicsCache,
    getDiscreteVariable, getCacheEntry, getMatterSubsystem,
    rigidBodyForces_subAt, rigidBodyForces_addAt, potentialEnergy_add,
    mobilityForces_sub, mobilityForces_size,
    vectorUpd, vectorSize, vectorModifyAt, vectorModify, vectorRef.
  keeps_steps
    ltac:(idtac; match goal with
          | |- keeps _ (putCacheEntry _ _) => apply keptBySpringDynamics_putCacheEntry
          | |- keeps _ (modify _) =>
              apply keeps_modify; intros;
              do 4 (split; [reflexivity|]); apply slotsExcept_refl
          end)
    (keptBySpringDynamics_refl (spring_dynamicsCacheIndex this))
    (keptBySpringDynamics_trans (spring_dynamicsCacheIndex this)).
Qed.

(** X10: what the Dynamics hooks leave as it was, whatever their outcome.
    Gravity's leaves the stage, the variables, the cache entries, the
    matter subsystems and the mobility forces; the spring's leaves the
    stage, the variables, the matter subsystems, the particle forces and
    every cache entry but the value of its dynamics cache; and no
    Dynamics hook changes the size of an accumulator. *)
Theorem realizeDynamics_leaves :
  (forall (this : UniformGravitySubsystemRep) s,
     keptByGravityDynamics s (snd (UniformGravity_realizeDynamics this s))) /\
  (forall (this : TwoPointSpringSubsystemRep) s,
     keptBySpringDynamics (spring_dynamicsCacheIndex this) s
       (snd (TwoPointSpring_realizeDynamics this s))) /\
  (forall f s, Forces_sameShape (forcesOf s) (forcesOf (snd (realizeDynamics f s)))).
Proof.
  split; [|split].
  - intros this s. apply keptByGravityDynamics_realizeDynamics.
  - intros this s. apply keptBySpringDynamics_realizeDynamics.
  - intros f s. apply (keeps_inputs_realizeDynamics f s).
Qed.

(** ** The size assertions of the spring's realizeDynamics *)

Lemma assert_fails e s : assert_ false e s = (Threw (AssertionFailed e), s).
Proof. reflexivity. Qed.

(** X11: the spring's realizeDynamics with an accumulator of matter
    subsystem 0 that has not the size of the subsystem.  The hook stops
    at the first assertion that fails, of rigid body, particle and
    mobility forces in this order; no accumulator has changed, and the
    dynamics cache holds the force already, written before the sizes are
    looked at: the write access finds it there, and it is read at every
    stage not below the tag of the entry. *)
Theorem spring_realizeDynamics_checks_sizes this s cc dc0 matter rbf pf mf :
  Stage_ltb (stage s) Moving = false ->
  TwoPointSpring_getConfigurationCache this s = (Returned cc, s) ->
  TwoPointSpring_updDynamicsCache this s = (Returned dc0, s) ->
  vec_get (matterSubsystems s) 0 = Some matter ->
  vec_get (rigidBodyForces s) 0 = Some rbf ->
  vec_get (particleForces s) 0 = Some pf ->
  vec_get (mobilityForces s) 0 = Some mf ->
  (vec_size rbf =? getNBodies matter) && (vec_size pf =? getNParticles matter) &&
    (vec_size mf =? getNMobilities matter) = false ->
  let s' := snd (TwoPointSpring_realizeDynamics this s) in
  fst (TwoPointSpring_realizeDynamics this s) =
    Threw (AssertionFailed
             (if negb (vec_size rbf =? getNBodies matter)
              then "rigidBodyForces.size() == nBodies"
              else if negb (vec_size pf =? getNParticles matter)
              then "particleForces.size() == nParticles"
              else "mobilityForces.size() == nMobilities")) /\
  forcesOf s' = forcesOf s /\
  TwoPointSpring_updDynamicsCache this s' =
    (Returned (mkSpringDynamicsCache
                 (Vec3_scale (cc_fscalar cc / cc_x cc)%real (cc_v_G cc))), s') /\
  (forall g', cacheReadableAt g' (spring_dynamicsCacheIndex this) s = true ->
     TwoPointSpring_getForceOnStation1 this (set_stage g' s') =
       (Returned (Vec3_scale (cc_fscalar cc / cc_x cc)%real (cc_v_G cc)),
        set_stage g' s')).
Proof.
  intros Hstage Hcc Hdc Hm Hrbf Hpf Hmf Hsizes.
  set (f1_G := Vec3_scale (cc_fscalar cc / cc_x cc)%real (cc_v_G cc)).
  destruct (spring_putDynamicsCache_run this dc0 (mkSpringDynamicsCache f1_G) s Hdc)
    as (slot & Hslot & Hput).
  set (s1 := set_cacheEntries _ s) in Hput.
  assert (Hrun : TwoPointSpring_realizeDynamics this s =
    (Threw (AssertionFailed
             (if negb (vec_size rbf =? getNBodies matter)
              then "rigidBodyForces.size() == nBodies"
              else if negb (vec_size pf =? getNParticles matter)
              then "particleForces.size() == nParticles"
              else "mobilityForces.size() == nMobilities")), s1)).
  { unfold TwoPointSpring_realizeDynamics.
    erewrite bind_returned by (apply stagecheck_ok, Hstage).
    erewrite bind_returned by exact Hcc.
    erewrite bind_returned by exact Hdc.
    erewrite bind_returned by (subst f1_G; exact Hput).
    erewrite bind_returned by (apply getMatterSubsystem_run; simpl; exact Hm).
    unfold updRigidBodyForces, updParticleForces, updMobilityForces,
      rigidBodyForces_size, particleForces_size, mobilityForces_size.
    erewrite bind_returned by (eapply vectorUpd_run; simpl; exact Hrbf).
    erewrite bind_returned by (eapply vectorUpd_run; simpl; exact Hpf).
    erewrite bind_returned by (eapply vectorUpd_run; simpl; exact Hmf).
    erewrite bind_returned by (eapply vectorSize_run; simpl; exact Hrbf).
    destruct (vec_size rbf =? getNBodies matter) eqn:E1; cbn [negb];
      [|erewrite bind_threw by apply assert_fails; reflexivity].
    erewrite bind_returned by (apply assert_run; reflexivity).
    erewrite bind_returned by (eapply vectorSize_run; simpl; exact Hpf).
    destruct (vec_size pf =? getNParticles matter) eqn:E2; cbn [negb];
      [|erewrite bind_threw by apply assert_fails; reflexivity].
    erewrite bind_returned by (apply assert_run; reflexivity).
    erewrite bind_returned by (eapply vectorSize_run; simpl; exact Hmf).
    destruct (vec_size mf =? getNMobilities matter) eqn:E3; [discriminate|].
    erewrite bind_threw by apply assert_fails. reflexivity. }
  intros s'. subst s'. rewrite Hrun. cbn [fst snd].
  split; [reflexivity|]. split; [reflexivity|]. split.
  - apply (spring_updDynamicsCache_put this s slot (mkSpringDynamicsCache f1_G) Hslot).
    reflexivity.
  - intros g' Hg'.
    apply (spring_getForceOnStation1_put this s slot (mkSpringDynamicsCache f1_G) Hslot);
      [reflexivity|].
    rewrite (cacheReadableAt_slot _ _ _ _ Hslot) in Hg'. simpl.
    now destruct (Stage_ltb g' (slotStage slot)).
Qed.

(** ** Gravity on matter without bodies and particles *)

Lemma gravity_nothing_to_pull g gh0 : forall ms rbfs pfs pe,
  Forall (fun matter => matterBodies matter = [] /\ matterParticleMasses matter = []) ms ->
  Forall2 bodiesSized rbfs ms ->
  Forall2 particlesSized pfs ms ->
  zip_with (gravity_subsystem_rbf g) rbfs ms = rbfs /\
  zip_with (gravity_subsystem_pf g) pfs ms = pfs /\
  fold_left (gravity_subsystem_pe g gh0) ms pe = pe.
Proof.
  induction ms as [|m ms IH]; intros rbfs pfs pe Hall Hr Hp.
  - apply Forall2_nil_inv_r in Hr, Hp. subst. repeat split.
  - apply Forall2_cons_inv_r in Hr as (rbf & rbfs' & Hr1 & Hr & ->).
    apply Forall2_cons_inv_r in Hp as (pf & pfs' & Hp1 & Hp & ->).
    apply Forall_cons in Hall as [[Hb Hm] Hall].
    destruct (IH rbfs' pfs' pe Hall Hr Hp) as (IH1 & IH2 & IH3).
    unfold bodiesSized in Hr1. unfold particlesSized in Hp1.
    rewrite Hb in Hr1. rewrite Hm in Hp1.
    destruct rbf; [|discriminate]. destruct pf; [|discriminate].
    cbn [zip_with fold_left]. rewrite IH1, IH2.
    unfold gravity_subsystem_rbf, gravity_subsystem_pf, gravity_subsystem_pe at 2.
    rewrite Hb. cbn [zip_with fold_left]. repeat split. exact IH3.
Qed.

(** X12: on matter subsystems without bodies and without particles (on
    no matter subsystem at all, too), gravity's realizeDynamics returns
    and leaves the state as it was, enabled or not. *)
Theorem gravity_realizeDynamics_without_masses this s p pc :
  Stage_ltb (stage s) Moving = false ->
  UniformGravity_getParameters this s = (Returned p, s) ->
  UniformGravity_getParameterCache this s = (Returned pc, s) ->
  Forall (fun matter => matterBodies matter = [] /\ matterParticleMasses matter = [])
    (matterSubsystems s) ->
  Forall2 bodiesSized (rigidBodyForces s) (matterSubsystems s) ->
  Forall2 particlesSized (particleForces s) (matterSubsystems s) ->
  UniformGravity_realizeDynamics this s = (Returned tt, s).
Proof.
  intros Hstage Hp Hpc Hall Hr Hpf.
  destruct (gp_enabled p) eqn:Een.
  2: { rewrite (gravity_nothingToDo_run this s p Hp) by (left; exact Een).
       rewrite Hstage. reflexivity. }
  destruct (reqb (pc_gMagnitude pc) r0) eqn:Emag.
  { rewrite (gravity_nothingToDo_run this s p Hp) by (right; eauto).
    rewrite Hstage. reflexivity. }
  rewrite (gravity_realizeDynamics_run this s p pc Hstage Hp Hpc Een Emag Hr Hpf).
  unfold gravity_dynamics_result.
  destruct (gravity_nothing_to_pull (gp_gravity p)
              (pc_gMagnitude pc * gp_zeroHeight p)%real
              _ _ _ (potentialEnergy s) Hall Hr Hpf) as (-> & -> & ->).
  destruct s; reflexivity.
Qed.

(** ** From the constructors to the state *)

(** X14: what the constructors are given reaches the state through
    realizeConstruction.  A spring constructed from (b1, s1, b2, s2, k, x0)
    is built with these bodies and stations, and its accessors read
    stiffness k, natural length x0, damping 0 and gravity 0, whatever the
    indices held before.  Gravity constructed from (g, z) reads g, z and
    enabled; gravity constructed from nothing reads the zero vector, zero
    height 0 and enabled; in both its configurationCacheIndex stays what
    it was before.  What the uninitialized cache entries hold does not
    matter. *)
Theorem constructors_defaults_reach_the_state s (mySubsystemIndex : Z) (u : Z * Z * Z) :
  (forall b1 (s1 : Vec3) b2 (s2 : Vec3) (k x0 : Real) uninitialized,
     exists this s',
       TwoPointSpring_realizeConstruction
         (TwoPointSpringSubsystemRep_new b1 s1 b2 s2 k x0 mySubsystemIndex u)
         uninitialized s =
         (Returned this, s') /\
       spring_built this = true /\
       body1 this = b1 /\ station1 this = s1 /\
       body2 this = b2 /\ station2 this = s2 /\
       TwoPointSpring_getStiffness this s' = (Returned k, s') /\
       TwoPointSpring_getNaturalLength this s' = (Returned x0, s') /\
       TwoPointSpring_getDamping this s' = (Returned r0, s') /\
       TwoPointSpring_getGravity this s' = (Returned Vec3_zero, s') /\
       forall u',
         TwoPointSpring_realizeConstruction
           (TwoPointSpringSubsystemRep_new b1 s1 b2 s2 k x0 mySubsystemIndex u')
           uninitialized s =
           (Returned this, s')) /\
  (forall (g : Vec3) (z : Real) uninitialized,
     exists this s',
       UniformGravity_realizeConstruction
         (UniformGravitySubsystemRep_new g z mySubsystemIndex u) uninitialized s =
         (Returned this, s') /\
       gravity_built this = true /\
       UniformGravity_getGravity this s' = (Returned g, s') /\
       UniformGravity_getZeroHeight this s' = (Returned z, s') /\
       UniformGravity_isEnabled this s' = (Returned true, s') /\
       gravity_configurationCacheIndex this = snd u) /\
  (forall uninitialized, exists this s',
     UniformGravity_realizeConstruction
       (UniformGravitySubsystemRep_default mySubsystemIndex u) uninitialized s =
       (Returned this, s') /\
     gravity_built this = true /\
     UniformGravity_getGravity this s' = (Returned Vec3_zero, s') /\
     UniformGravity_getZeroHeight this s' = (Returned r0, s') /\
     UniformGravity_isEnabled this s' = (Returned true, s') /\
     gravity_configurationCacheIndex this = snd u).
Proof.
  destruct u as [[i1 i2] i3]. split; [|split].
  - intros b1 s1 b2 s2 k x0 uc.
    pose proof (spring_realizeConstruction_reads
                  (TwoPointSpringSubsystemRep_new b1 s1 b2 s2 k x0 mySubsystemIndex
                     (i1, i2, i3)) uc s) as Hreads.
    rewrite spring_realizeConstruction_run in *. cbn [fst snd] in Hreads.
    destruct (Hreads _ eq_refl) as (Hp & _).
    eexists _, _. split; [reflexivity|].
    do 5 (split; [reflexivity|]).
    unfold TwoPointSpring_getStiffness, TwoPointSpring_getNaturalLength,
      TwoPointSpring_getDamping, TwoPointSpring_getGravity, bind.
    cbn [TwoPointSpringSubsystemRep_new spring_mySubsystemIndex body1 body2 station1
         station2 spring_defaultParameters] in *.
    rewrite Hp. do 4 (split; [reflexivity|]).
    intros [[j1 j2] j3]. rewrite spring_realizeConstruction_run. reflexivity.
  - intros g z uc.
    pose proof (gravity_realizeConstruction_reads
                  (UniformGravitySubsystemRep_new g z mySubsystemIndex (i1, i2, i3)) uc s)
      as Hreads.
    rewrite gravity_realizeConstruction_run in *. cbn [fst snd] in Hreads.
    destruct (Hreads _ eq_refl) as (Hp & _).
    eexists _, _. split; [reflexivity|]. split; [reflexivity|].
    unfold UniformGravity_getGravity, UniformGravity_getZeroHeight,
      UniformGravity_isEnabled, bind.
    cbn [UniformGravitySubsystemRep_new gravity_mySubsystemIndex
         gravity_defaultParameters gravity_configurationCacheIndex] in *.
    rewrite Hp. repeat split.
  - intros uc.
    pose proof (gravity_realizeConstruction_reads
                  (UniformGravitySubsystemRep_default mySubsystemIndex (i1, i2, i3)) uc s)
      as Hreads.
    rewrite gravity_realizeConstruction_run in *. cbn [fst snd] in Hreads.
    destruct (Hreads _ eq_refl) as (Hp & _).
    eexists _, _. split; [reflexivity|]. split; [reflexivity|].
    unfold UniformGravity_getGravity, UniformGravity_getZeroHeight,
      UniformGravity_isEnabled, bind.
    cbn [UniformGravitySubsystemRep_default gravity_mySubsystemIndex
         gravity_defaultParameters gravity_configurationCacheIndex] in *.
    rewrite Hp. repeat split.
Qed.

(** X13: gravity constructed from nothing contributes nothing.  Where
    the norm of the zero vector compares equal to 0, realizeParameters
    caches that norm as the magnitude and the vertical (0, 0, 1) as the
    direction, read at every stage from Parametrized on, and
    realizeDynamics returns with the state as it was.  What the
    uninitialized cache entry held does not matter. *)
Theorem default_gravity_contributes_nothing s (mySubsystemIndex : Z) (u : Z * Z * Z)
  uninitialized g1 g2 :
  reqb (Vec3_norm Vec3_zero) r0 = true ->
  Stage_ltb g1 Modeled = false ->
  Stage_ltb g2 Moving = false ->
  exists this s1 s2,
    UniformGravity_realizeConstruction
      (UniformGravitySubsystemRep_default mySubsystemIndex u) uninitialized s =
      (Returned this, s1) /\
    UniformGravity_realizeParameters this (set_stage g1 s1) = (Returned tt, s2) /\
    (forall g, Stage_ltb g Parametrized = false ->
       UniformGravity_getGravityMagnitude this (set_stage g s2) =
         (Returned (Vec3_norm Vec3_zero), set_stage g s2) /\
       UniformGravity_getGravityDirection this (set_stage g s2) =
         (Returned (mkUnitVec3_trusted (mkVec3 r0 r0 r1)), set_stage g s2)) /\
    UniformGravity_realizeDynamics this (set_stage g2 s2) = (Returned tt, set_stage g2 s2).
Proof.
  intros Hzero Hg1 Hg2. destruct u as [[i1 i2] i3].
  pose proof (gravity_realizeConstruction_reads
                (UniformGravitySubsystemRep_default mySubsystemIndex (i1, i2, i3))
                uninitialized s)
    as Hreads.
  rewrite gravity_realizeConstruction_run in *. cbn [fst snd] in Hreads.
  destruct (Hreads _ eq_refl) as (Hp & Hpc & _). clear Hreads.
  cbn [UniformGravitySubsystemRep_default gravity_mySubsystemIndex
       gravity_defaultParameters gravity_configurationCacheIndex] in *.
  set (this := mkGravityRep _ _ _ _ _ _) in *.
  set (s1 := set_cacheEntries _ _) in *.
  destruct (gravity_realizeParameters_run this (set_stage g1 s1)
              UniformGravity_Parameters_default uninitialized)
    as (s2 & Hrun & _ & Hpc2 & Hp2).
  { exact Hg1. }
  { eapply gravity_getParameters_transfer; [|exact Hp]. reflexivity. }
  { eapply gravity_updParameterCache_transfer; [|exact Hpc]. reflexivity. }
  exists this, s1, s2. split; [reflexivity|]. split; [exact Hrun|].
  assert (Hcache : gravity_parameterCache UniformGravity_Parameters_default =
                   mkGravityParameterCache (mkUnitVec3_trusted (mkVec3 r0 r0 r1))
                     (Vec3_norm Vec3_zero)).
  { unfold gravity_parameterCache, UniformGravity_Parameters_default.
    cbn [gp_gravity]. rewrite Hzero. reflexivity. }
  rewrite Hcache in Hpc2.
  assert (Hread : forall g, Stage_ltb g Parametrized = false ->
            cacheReadableAt g (gravity_parameterCacheIndex this) (set_stage g1 s1) = true).
  { intros g Hg. unfold cacheReadableAt, this, s1.
    cbn [cacheEntries set_cacheEntries set_stage gravity_parameterCacheIndex].
    rewrite vec_get_app_size. cbn [slotStage]. rewrite Hg. reflexivity. }
  split; [|].
  - intros g Hg. specialize (Hpc2 g (Hread g Hg)). split.
    + unfold UniformGravity_getGravityMagnitude, bind. rewrite Hpc2. reflexivity.
    + unfold UniformGravity_getGravityDirection, bind. rewrite Hpc2. reflexivity.
  - rewrite (gravity_nothingToDo_run this (set_stage g2 s2)
               UniformGravity_Parameters_default).
    + cbn [stage set_stage]. rewrite Hg2. reflexivity.
    + eapply gravity_getParameters_transfer; [|exact Hp2]. reflexivity.
    + right. eexists. split.
      * apply Hpc2, Hread. now destruct g2.
      * exact Hzero.
Qed.

(** ** The tags of the cache entries and the stages of the hooks *)


(** ** A second pass over accumulators that were not zeroed *)

Section ExactArithmeticTwice.
Hypothesis radd_comm : forall x y : Real, (x + y = y + x)%real.
Hypothesis radd_assoc : forall x y z : Real, (x + (y + z) = x + y + z)%real.
Hypothesis radd_0_l : forall x : Real, (r0 + x = x)%real.
Hypothesis rsub_add : forall x y z : Real, (x + y - z = x - z + y)%real.

(** X15: in exact arithmetic, a Dynamics hook run a second time on
    accumulators that were not zeroed in between has the same outcome and
    adds its contribution a second time. *)
Theorem realizeDynamics_twice_adds_twice f s :
  let s1 := snd (realizeDynamics f s) in
  let s2 := snd (realizeDynamics f s1) in
  fst (realizeDynamics f s1) = fst (realizeDynamics f s) /\
  forcesOf s2 =
    Forces_add (Forces_add (forcesOf s) (contribution f s)) (contribution f s).
Proof.
  intros s1 s2.
  pose proof (keeps_inputs_realizeDynamics f s) as Halike. fold s1 in Halike.
  pose proof (keeps_tags_realizeDynamics f s) as Htags. fold s1 in Htags.
  destruct (contribution_same radd_comm radd_assoc radd_0_l rsub_add f s s1 Halike
              (Htags _))
    as [Hout Hc].
  split.
  - rewrite (proj1 (realizeDynamics_shift radd_comm radd_assoc radd_0_l rsub_add f s1)).
    rewrite (proj1 (realizeDynamics_shift radd_comm radd_assoc radd_0_l rsub_add f s)).
    exact Hout.
  - subst s2.
    rewrite (realizeDynamics_adds radd_comm radd_assoc radd_0_l rsub_add f s1), Hc.
    subst s1.
    rewrite (realizeDynamics_adds radd_comm radd_assoc radd_0_l rsub_add f s).
    reflexivity.
Qed.
End ExactArithmeticTwice.

End Properties.

(** * Exact arithmetic: gravity's direction is a unit vector *)

Section OverTheReals.
Local Open Scope R_scope.

Lemma R_reqb_true (x y : R) : reqb x y = true <-> x = y.
Proof. simpl. destruct (Req_dec_T x y); split; congruence. Qed.

Lemma R_norm_sq (v : @Vec3 R) : Vec3_norm v * Vec3_norm v = Vec3_dot v v.
Proof.
  unfold Vec3_norm. simpl. apply sqrt_sqrt. unfold Vec3_dot. simpl. nra.
Qed.
Lemma R_norm_zero (v : @Vec3 R) : Vec3_norm v = 0 <-> v = Vec3_zero.
Proof.
  split.
  - intros H. pose proof (R_norm_sq v) as Hsq. rewrite H in Hsq.
    unfold Vec3_dot in Hsq. simpl in Hsq. destruct v as [x y z]. simpl in *.
    unfold Vec3_zero. simpl.
    assert (x = 0) by nra. assert (y = 0) by nra. assert (z = 0) by nra.
    subst. reflexivity.
  - intros ->. unfold Vec3_norm, Vec3_dot, Vec3_zero. simpl.
    replace (0 * 0 + 0 * 0 + 0 * 0) with 0 by ring. apply sqrt_0.
Qed.
Lemma R_norm_normalized (v : @Vec3 R) :
  Vec3_norm v <> 0 -> Vec3_norm (Vec3_over v (Vec3_norm v)) = 1.
Proof.
  intros Hn. pose proof (R_norm_sq v) as Hsq.
  generalize dependent (Vec3_norm v). intros n Hn Hsq.
  unfold Vec3_norm, Vec3_dot, Vec3_over in *. simpl in *.
  replace (vx v / n * (vx v / n) + vy v / n * (vy v / n) + vz v / n * (vz v / n))
    with ((vx v * vx v + vy v * vy v + vz v * vz v) / (n * n)) by (field; exact Hn).
  rewrite <- Hsq. replace (n * n / (n * n)) with 1 by (field; exact Hn).
  apply sqrt_1.
Qed.
Lemma R_norm_vertical : @Vec3_norm R _ (mkVec3 0 0 1) = 1.
Proof.
  unfold Vec3_norm, Vec3_dot. simpl.
  replace (0 * 0 + 0 * 0 + 1 * 1) with 1 by ring. apply sqrt_1.
Qed.

(** In exact arithmetic the direction realizeParameters computes is a unit
    vector: g / |g| when g is not the zero vector, the vertical otherwise. *)
Lemma R_gravity_direction (p : @UniformGravity_Parameters R) :
  let pc := gravity_parameterCache p in
  Vec3_norm (asVec3 (pc_gDirection pc)) = 1 /\
  (gp_gravity p <> Vec3_zero ->
   Vec3_norm (gp_gravity p) <> 0 /\
   asVec3 (pc_gDirection pc) = Vec3_over (gp_gravity p) (Vec3_norm (gp_gravity p))) /\
  (gp_gravity p = Vec3_zero ->
   pc_gMagnitude pc = 0 /\ asVec3 (pc_gDirection pc) = mkVec3 0 0 1).
Proof.
  unfold gravity_parameterCache. cbn [pc_gDirection pc_gMagnitude asVec3].
  destruct (reqb (Vec3_norm (gp_gravity p)) r0) eqn:E.
  - apply R_reqb_true in E. change (@r0 R _) with 0 in E.
    split; [apply R_norm_vertical|]. split.
    + intros Hne. exfalso. apply Hne, R_norm_zero, E.
    + intros _. split; [exact E | reflexivity].
  - assert (Hn : Vec3_norm (gp_gravity p) <> 0).
    { intros H. apply R_reqb_true in H. change 0 with (@r0 R _) in H. congruence. }
    split; [apply R_norm_normalized, Hn|]. split.
    + intros _. split; [exact Hn | reflexivity].
    + intros Hz. exfalso. apply Hn, R_norm_zero, Hz.
Qed.

End OverTheReals.


(** * IEEE-754 binary64: coincident stations give a NaN force *)

(** NaN is absorbing. *)
Lemma b64_add_nan_r (x : binary64) : radd x b64_nan = b64_nan.
Proof. destruct x; reflexivity. Qed.
Lemma b64_sub_nan_r (x : binary64) : rsub x b64_nan = b64_nan.
Proof. destruct x; reflexivity. Qed.
Lemma b64_mul_nan_r (x : binary64) : rmul x b64_nan = b64_nan.
Proof. destruct x; reflexivity. Qed.
Lemma b64_mul_nan_l (x : binary64) : rmul b64_nan x = b64_nan.
Proof. destruct x; reflexivity. Qed.
Lemma b64_div_nan_r (x : binary64) : rdiv x b64_nan = b64_nan.
Proof. destruct x; reflexivity. Qed.

(** x - x is +0, or NaN when x is infinite or NaN. *)
Lemma b64_sub_diag (x : binary64) : rsub x x = b64_zero \/ rsub x x = b64_nan.
Proof.
  destruct x as [s|s| |s m e]; simpl.
  - left. destruct s; reflexivity.
  - right. destruct s; reflexivity.
  - right. reflexivity.
  - left. unfold SFsub. rewrite Z.sub_diag. reflexivity.
Qed.

Lemma b64_sub_diag_finite (x : binary64) :
  b64_is_finite x = true -> rsub x x = b64_zero.
Proof.
  destruct x as [s|s| |s m e]; simpl; try discriminate; intros _.
  - destruct s; reflexivity.
  - unfold SFsub. rewrite Z.sub_diag. reflexivity.
Qed.

(** The distance of a finite point from itself is +0. *)
Lemma b64_coincident_length (p : @Vec3 binary64) :
  Vec3_is_finite p = true -> Vec3_norm (Vec3_sub p p) = b64_zero.
Proof.
  destruct p as [a b c]. unfold Vec3_is_finite. cbn [vx vy vz].
  intros [[Ha Hb]%andb_true_iff Hc]%andb_true_iff.
  unfold Vec3_sub, Vec3_norm, Vec3_dot. cbn [vx vy vz].
  rewrite !b64_sub_diag_finite by assumption. reflexivity.
Qed.

(** (f / 0) * 0 is NaN, whatever f is. *)
Lemma b64_div_zero_mul_zero (f : binary64) :
  rmul (rdiv f b64_zero) b64_zero = b64_nan.
Proof. destruct f as [s|s| |s m e]; reflexivity. Qed.

Lemma b64_coincident_force (p : @Vec3 binary64) (fscalar_of : binary64 -> binary64) :
  let v := Vec3_sub p p in
  let x := Vec3_norm v in
  Vec3_scale (rdiv (fscalar_of x) x) v = Vec3_nan.
Proof.
  destruct p as [a b c]. unfold Vec3_sub, Vec3_norm, Vec3_dot, Vec3_scale. cbn [vx vy vz].
  destruct (b64_sub_diag a) as [-> | ->], (b64_sub_diag b) as [-> | ->],
    (b64_sub_diag c) as [-> | ->].
  all: cbv zeta.
  all: match goal with
       | |- context [rsqrt ?e] =>
           let r := eval vm_compute in (rsqrt e) in
           change (rsqrt e) with r
       end.
  all: unfold Vec3_nan; f_equal;
    try apply b64_div_zero_mul_zero;
    try apply b64_mul_nan_r;
    try (rewrite b64_div_nan_r; apply b64_mul_nan_l).
Qed.

Lemma Vec3_cross_nan (a : @Vec3 binary64) : Vec3_cross a Vec3_nan = Vec3_nan.
Proof.
  unfold Vec3_cross, Vec3_nan. cbn [vx vy vz].
  rewrite !b64_mul_nan_r. reflexivity.
Qed.
Lemma Vec3_add_nan (a : @Vec3 binary64) : Vec3_add a Vec3_nan = Vec3_nan.
Proof.
  unfold Vec3_add, Vec3_nan. cbn [vx vy vz]. rewrite !b64_add_nan_r. reflexivity.
Qed.
Lemma Vec3_sub_nan (a : @Vec3 binary64) : Vec3_sub a Vec3_nan = Vec3_nan.
Proof.
  unfold Vec3_sub, Vec3_nan. cbn [vx vy vz]. rewrite !b64_sub_nan_r. reflexivity.
Qed.
Lemma SpatialVec_add_nan (F : @SpatialVec binary64) (a : @Vec3 binary64) :
  SpatialVec_add F (mkSpatialVec (Vec3_cross a Vec3_nan) Vec3_nan) = SpatialVec_nan.
Proof.
  unfold SpatialVec_add, SpatialVec_nan. cbn [sv_torque sv_force].
  now rewrite Vec3_cross_nan, !Vec3_add_nan.
Qed.
Lemma SpatialVec_sub_nan (F : @SpatialVec binary64) (a : @Vec3 binary64) :
  SpatialVec_sub F (mkSpatialVec (Vec3_cross a Vec3_nan) Vec3_nan) = SpatialVec_nan.
Proof.
  unfold SpatialVec_sub, SpatialVec_nan. cbn [sv_torque sv_force].
  now rewrite Vec3_cross_nan, !Vec3_sub_nan.
Qed.

(** C4: when the two stations are at the same point in ground, the
    spring's hooks still return; the cached force f1_G has all three
    components NaN; and the slots of body1 and body2 in the rigid body
    forces end up NaN in all components: the NaN goes into the sums as it
    is.  The two cache entries are allocated, and the stage [g] at which
    realizeDynamics runs is not below the tag of the configuration cache;
    the cached force is there for the hook's write access, and is read at
    every stage not below the tag of its entry. *)
Theorem spring_coincident_stations_nan
  this (s0 : @State binary64) g p cc0 dc0 matter b1 b2 rbf pf mf :
  Stage_ltb (stage s0) Timed = false ->
  Stage_ltb g Moving = false ->
  TwoPointSpring_getParameters this s0 = (Returned p, s0) ->
  TwoPointSpring_updConfigurationCache this s0 = (Returned cc0, s0) ->
  TwoPointSpring_updDynamicsCache this s0 = (Returned dc0, s0) ->
  cacheReadableAt g (spring_configurationCacheIndex this) s0 = true ->
  vec_get (matterSubsystems s0) 0 = Some matter ->
  vec_get (matterBodies matter) (body1 this) = Some b1 ->
  vec_get (matterBodies matter) (body2 this) = Some b2 ->
  vec_get (rigidBodyForces s0) 0 = Some rbf ->
  vec_get (particleForces s0) 0 = Some pf ->
  vec_get (mobilityForces s0) 0 = Some mf ->
  vec_size rbf = getNBodies matter ->
  vec_size pf = getNParticles matter ->
  vec_size mf = getNMobilities matter ->
  let p1 := Vec3_add (X_T (bodyConfiguration b1))
              (Rotation_apply (X_R (bodyConfiguration b1)) (station1 this)) in
  let p2 := Vec3_add (X_T (bodyConfiguration b2))
              (Rotation_apply (X_R (bodyConfiguration b2)) (station2 this)) in
  p2 = p1 ->
  exists s1 cc s2,
    TwoPointSpring_realizeConfiguration this s0 = (Returned tt, s1) /\
    TwoPointSpring_getConfigurationCache this (set_stage g s1) =
      (Returned cc, set_stage g s1) /\
    (Vec3_is_finite p1 = true -> cc_x cc = b64_zero) /\
    TwoPointSpring_realizeDynamics this (set_stage g s1) = (Returned tt, s2) /\
    TwoPointSpring_updDynamicsCache this s2 =
      (Returned (mkSpringDynamicsCache Vec3_nan), s2) /\
    (forall g', cacheReadableAt g' (spring_dynamicsCacheIndex this) s0 = true ->
       TwoPointSpring_getForceOnStation1 this (set_stage g' s2) =
         (Returned Vec3_nan, set_stage g' s2)) /\
    vec_get (rigidBodyForces s2) 0 =
      Some (vec_set (vec_set rbf (body1 this) SpatialVec_nan)
                    (body2 this) SpatialVec_nan).
Proof.
  intros Hstage Hg Hp Hcc Hdc Hread Hm Hb1 Hb2 Hrbf Hpf Hmf Hsr Hsp Hsm p1 p2 Hsame.
  destruct (spring_configuration_then_dynamics this s0 g p cc0 dc0 matter b1 b2
              rbf pf mf Hstage Hg Hp Hcc Hdc Hread Hm Hb1 Hb2 Hrbf Hpf Hmf Hsr Hsp Hsm)
    as (s1 & dslot & F1 & F2 & Hconf & Hdslot & HF1 & HF2 & Hdyn & Hsame1 & Hcc1
        & Hdslot0).
  assert (Hnan :
    Vec3_scale (rdiv (cc_fscalar (spring_configuration this p b1 b2))
                     (cc_x (spring_configuration this p b1 b2)))
               (cc_v_G (spring_configuration this p b1 b2)) = Vec3_nan).
  { unfold spring_configuration. cbn [cc_fscalar cc_x cc_v_G].
    fold p1 p2. rewrite Hsame.
    apply (b64_coincident_force p1
             (fun x => rmul (p_stiffness p) (rsub x (p_naturalLength p)))). }
  exists s1, (spring_configuration this p b1 b2). eexists.
  split; [exact Hconf|]. split; [exact Hcc1|]. split.
  { intros Hfin. unfold spring_configuration. cbn [cc_x]. fold p1 p2.
    rewrite Hsame. apply b64_coincident_length, Hfin. }
  split; [exact Hdyn|]. split; [|split].
  - rewrite <- Hnan.
    eapply (spring_updDynamicsCache_put this (set_stage g s1) dslot
              (mkSpringDynamicsCache _)); [exact Hdslot | reflexivity].
  - intros g' Hg'. rewrite <- Hnan.
    eapply (spring_getForceOnStation1_put this (set_stage g s1) dslot
              (mkSpringDynamicsCache _)); [exact Hdslot | reflexivity |].
    rewrite (cacheReadableAt_slot _ _ _ _ Hdslot0) in Hg'. simpl.
    now destruct (Stage_ltb g' (slotStage dslot)).
  - unfold spring_dynamics_result. cbn [rigidBodyForces].
    rewrite Hnan, SpatialVec_add_nan, SpatialVec_sub_nan.
    eapply vec_get_set_eq, vec_get_set_eq. simpl. rewrite Hsame1. exact Hrbf.
Qed.

(** * The concrete system run *)

(** realizeConstruction gives the indices of [example_spring] and
    [example_gravity] and the state [example_built]. *)
Example example_construction :
  bind (TwoPointSpring_realizeConstruction example_spring0 example_uninitialized_spring)
    (fun spring =>
       bind (UniformGravity_realizeConstruction example_gravity0
               example_uninitialized_gravity)
         (fun gravity => ret (spring, gravity)))
    example_allocated =
  (Returned (example_spring, example_gravity), example_built).
Proof. reflexivity. Qed.

(** One Dynamics pass of the spring and gravity: the spring pulls the two
    bodies together with 100, gravity adds m g to every body and particle
    of both matter subsystems, and the potential energy is
    50 - 100 - 10 = -60. *)
Example example_dynamics_pass :
  exists s',
    realizeDynamicsAll
      [TwoPointSpringSubsystem example_spring; UniformGravitySubsystem example_gravity]
      example_moving = (Returned tt, s') /\
    rigidBodyForces s' =
      [[mkSpatialVec Vec3_zero (v64 100 (-20) 0);
        mkSpatialVec Vec3_zero (v64 (-100) (-30) 0)];
       [mkSpatialVec Vec3_zero (v64 0 (-10) 0)]] /\
    particleForces s' = [[v64 0 (-10) 0]; [v64 0 (-10) 0; v64 0 (-20) 0]] /\
    potentialEnergy s' = f64 (-60).
Proof. eexists. split; [vm_compute; reflexivity|]. repeat split. Qed.

(** * The theorems at the concrete system *)

(** realizeParameters of a spring of stiffness -1 reports the stiffness. *)
Lemma spring_realizeParameters_value_domain_witness :
  TwoPointSpring_realizeParameters example_spring example_negative =
    (Threw (ValueWasNegative "stiffness" (f64 (-1))
              "TwoPointSpring::realizeParameters()"),
     example_negative).
Proof.
  destruct (spring_realizeParameters_value_domain example_spring example_negative
              (TwoPointSpring_Parameters_init (f64 (-1)) (f64 1))
              ltac:(reflexivity) ltac:(vm_compute; reflexivity)) as (Hs & _ & Ho).
  rewrite (surjective_pairing (TwoPointSpring_realizeParameters _ _)), Hs, Ho.
  reflexivity.
Defined.

(** Stiffness 100, natural length 1 and stations 2 apart along the first
    axis: stretch 1, pe = 50 and the force (100, 0, 0) on station 1. *)
Lemma spring_force_and_energy_witness :
  exists s1 cc s2,
    TwoPointSpring_realizeConfiguration example_spring example_timed = (Returned tt, s1) /\
    TwoPointSpring_getConfigurationCache example_spring (set_stage Moving s1) =
      (Returned cc, set_stage Moving s1) /\
    cc_x cc = f64 2 /\
    cc_fscalar cc = f64 100 /\
    cc_pe cc = f64 50 /\
    TwoPointSpring_realizeDynamics example_spring (set_stage Moving s1) = (Returned tt, s2) /\
    TwoPointSpring_getForceOnStation1 example_spring (set_stage Dynamics s2) =
      (Returned (v64 100 0 0), set_stage Dynamics s2) /\
    vec_get (rigidBodyForces s2) 0 =
      Some [mkSpatialVec Vec3_zero (v64 100 0 0);
            mkSpatialVec Vec3_zero (v64 (-100) 0 0)] /\
    potentialEnergy s2 = f64 50.
Proof.
  destruct (spring_force_and_energy example_spring example_timed Moving
              (TwoPointSpring_Parameters_init (f64 100) (f64 1))
              (fst example_uninitialized_spring)
              (snd example_uninitialized_spring)
              example_matter0 example_bodyA example_bodyB
              [SpatialVec_zero; SpatialVec_zero] [Vec3_zero] [f64 0; f64 0]
              ltac:(reflexivity) ltac:(reflexivity)
              ltac:(vm_compute; reflexivity) ltac:(vm_compute; reflexivity)
              ltac:(vm_compute; reflexivity) ltac:(vm_compute; reflexivity)
              ltac:(reflexivity) ltac:(reflexivity) ltac:(reflexivity)
              ltac:(reflexivity) ltac:(reflexivity) ltac:(reflexivity)
              ltac:(reflexivity) ltac:(reflexivity) ltac:(reflexivity))
    as (s1 & cc & s2 & F1 & F2 & Hconf & Hcc & _ & Hx & Hf & Hpe & Hdyn & _ & Hf1
        & HF1 & HF2 & Hrbf & Hpe2 & _).
  exists s1, cc, s2.
  split; [exact Hconf|]. split; [exact Hcc|].
  split; [rewrite Hx; vm_compute; reflexivity|].
  split; [rewrite Hf; vm_compute; reflexivity|].
  split; [rewrite Hpe; vm_compute; reflexivity|].
  split; [exact Hdyn|].
  split; [rewrite (Hf1 Dynamics ltac:(vm_compute; reflexivity)); vm_compute; reflexivity|].
  vm_compute in HF1. injection HF1 as <-.
  vm_compute in HF2. injection HF2 as <-.
  split; [rewrite Hrbf; vm_compute; reflexivity|].
  rewrite Hpe2. vm_compute. reflexivity.
Defined.

(** C3 does not hold of every gravity vector that is not zero.  In
    binary64, with gravity enabled and g = (0, 2^-600, 0), the squares
    underflow and realizeParameters caches the magnitude +0; realizeDynamics
    then returns at its guard and leaves the state as it was, although the
    bodies have mass: the slot of the first body of matter subsystem 0
    stays zero, where the claim has m g added to it, which is not zero. *)
Lemma gravity_faint_adds_nothing :
  UniformGravity_getParameters example_gravity_alone example_faint =
    (Returned example_faint_parameters, example_faint) /\
  gp_enabled example_faint_parameters = true /\
  gp_gravity example_faint_parameters <> Vec3_zero /\
  UniformGravity_realizeParameters example_gravity_alone example_faint =
    (Returned tt, example_faint_realized) /\
  UniformGravity_realizeDynamics example_gravity_alone
    (set_stage Moving example_faint_realized) =
    (Returned tt, set_stage Moving example_faint_realized) /\
  vec_get (rigidBodyForces (set_stage Moving example_faint_realized)) 0 =
    Some [SpatialVec_zero; SpatialVec_zero] /\
  gravity_bodyForce (gp_gravity example_faint_parameters) SpatialVec_zero example_bodyA
    <> SpatialVec_zero.
Proof.
  split; [reflexivity|]. split; [reflexivity|].
  split; [intros H; vm_compute in H; discriminate H|].
  split; [vm_compute; reflexivity|].
  split; [vm_compute; reflexivity|].
  split; [reflexivity|].
  intros H. vm_compute in H. discriminate H.
Qed.


(** Gravity reaches the body and the two particles of matter subsystem 1
    as well, and the potential energy is -100 - 10 = -110. *)
Lemma gravity_forces_every_subsystem_witness :
  exists s1 s',
    UniformGravity_realizeParameters example_gravity (set_stage Modeled example_built) =
      (Returned tt, s1) /\
    UniformGravity_realizeDynamics example_gravity (set_stage Moving s1) =
      (Returned tt, s') /\
    vec_get (particleForces s') 1 = Some [v64 0 (-10) 0; v64 0 (-20) 0] /\
    vec_get (rigidBodyForces s') 1 = Some [mkSpatialVec Vec3_zero (v64 0 (-10) 0)] /\
    vec_get (rigidBodyForces s') 0 =
      Some [mkSpatialVec Vec3_zero (v64 0 (-20) 0);
            mkSpatialVec Vec3_zero (v64 0 (-30) 0)] /\
    potentialEnergy s' = f64 (-110) /\
    mobilityForces s' = mobilityForces example_moving.
Proof.
  destruct (gravity_forces_every_subsystem example_gravity
              (set_stage Modeled example_built) Moving
              (UniformGravity_Parameters_init (v64 0 (-10) 0) (f64 0))
              example_uninitialized_gravity
              ltac:(reflexivity) ltac:(reflexivity)
              ltac:(vm_compute; reflexivity) ltac:(vm_compute; reflexivity)
              ltac:(vm_compute; reflexivity) ltac:(reflexivity)
              ltac:(vm_compute; reflexivity)
              ltac:(repeat constructor) ltac:(repeat constructor))
    as (s1 & s' & Hpar & Hrun & Hsub & Hpe & Hmf & _).
  exists s1, s'. split; [exact Hpar|]. split; [exact Hrun|].
  destruct (Hsub 1 example_matter1 eq_refl) as (rbf1 & pf1 & Hr1 & Hp1 & Hp1' & Hr1').
  destruct (Hsub 0 example_matter0 eq_refl) as (rbf0 & pf0 & Hr0 & _ & _ & Hr0').
  vm_compute in Hr1. injection Hr1 as <-.
  vm_compute in Hp1. injection Hp1 as <-.
  vm_compute in Hr0. injection Hr0 as <-.
  split; [rewrite Hp1'; vm_compute; reflexivity|].
  split; [rewrite Hr1'; vm_compute; reflexivity|].
  split; [rewrite Hr0'; vm_compute; reflexivity|].
  split; [rewrite Hpe; vm_compute; reflexivity | exact Hmf].
Defined.

(** The spring whose first station is moved to (2, 0, 0), where the second
    is: length +0 and a NaN force. *)
Lemma spring_coincident_stations_nan_witness :
  exists s1 cc s2,
    TwoPointSpring_realizeConfiguration example_coincident_spring example_timed =
      (Returned tt, s1) /\
    TwoPointSpring_getConfigurationCache example_coincident_spring (set_stage Moving s1) =
      (Returned cc, set_stage Moving s1) /\
    cc_x cc = b64_zero /\
    TwoPointSpring_realizeDynamics example_coincident_spring (set_stage Moving s1) =
      (Returned tt, s2) /\
    TwoPointSpring_getForceOnStation1 example_coincident_spring (set_stage Dynamics s2) =
      (Returned Vec3_nan, set_stage Dynamics s2) /\
    vec_get (rigidBodyForces s2) 0 = Some [SpatialVec_nan; SpatialVec_nan].
Proof.
  destruct (spring_coincident_stations_nan example_coincident_spring example_timed Moving
              (TwoPointSpring_Parameters_init (f64 100) (f64 1))
              (fst example_uninitialized_spring)
              (snd example_uninitialized_spring)
              example_matter0 example_bodyA example_bodyB
              [SpatialVec_zero; SpatialVec_zero] [Vec3_zero] [f64 0; f64 0]
              ltac:(reflexivity) ltac:(reflexivity)
              ltac:(vm_compute; reflexivity) ltac:(vm_compute; reflexivity)
              ltac:(vm_compute; reflexivity) ltac:(vm_compute; reflexivity)
              ltac:(reflexivity) ltac:(reflexivity) ltac:(reflexivity)
              ltac:(reflexivity) ltac:(reflexivity) ltac:(reflexivity)
              ltac:(reflexivity) ltac:(reflexivity) ltac:(reflexivity)
              ltac:(vm_compute; reflexivity))
    as (s1 & cc & s2 & Hconf & Hcc & Hx & Hdyn & _ & Hf1 & Hrbf).
  exists s1, cc, s2.
  split; [exact Hconf|]. split; [exact Hcc|].
  split; [apply Hx; vm_compute; reflexivity|].
  split; [exact Hdyn|].
  split; [exact (Hf1 Dynamics ltac:(vm_compute; reflexivity))|].
  rewrite Hrbf. reflexivity.
Defined.

(** With gravity switched off the Dynamics hook returns the state as it
    was. *)
Lemma gravity_realizeDynamics_short_circuit_witness :
  UniformGravity_realizeDynamics example_gravity example_disabled =
    (Returned tt, example_disabled).
Proof.
  destruct (gravity_realizeDynamics_short_circuit example_gravity example_disabled
              (mkGravityParameters (v64 0 (-10) 0) (f64 0) false)
              ltac:(vm_compute; reflexivity)
              ltac:(left; reflexivity)) as (_ & Hret & _).
  apply Hret. reflexivity.
Defined.

(** With damping 1/2 and u = (1, 2) the mobility forces of matter
    subsystem 0 go from (0, 0) to (-1/2, -1). *)
Lemma spring_damping_witness :
  exists s',
    TwoPointSpring_realizeDynamics example_spring example_damped = (Returned tt, s') /\
    mobilityForces s' = [[rsub (f64 0) b64_half; f64 (-1)]; []] /\
    particleForces s' = particleForces example_damped.
Proof.
  destruct (spring_damping example_spring example_damped
              (mkSpringConfigurationCache Vec3_zero Vec3_zero (v64 2 0 0)
                 (f64 2) (f64 100) (f64 50))
              (snd example_uninitialized_spring)
              (mkSpringParameters (f64 100) (f64 1) Vec3_zero b64_half)
              example_matter0
              [SpatialVec_zero; SpatialVec_zero] [Vec3_zero] [f64 0; f64 0]
              SpatialVec_zero SpatialVec_zero
              ltac:(reflexivity)
              ltac:(vm_compute; reflexivity) ltac:(vm_compute; reflexivity)
              ltac:(vm_compute; reflexivity)
              ltac:(reflexivity) ltac:(reflexivity) ltac:(reflexivity)
              ltac:(reflexivity) ltac:(reflexivity) ltac:(reflexivity)
              ltac:(reflexivity) ltac:(reflexivity) ltac:(vm_compute; reflexivity))
    as (s' & Hrun & Hmf & _ & Hpf & _).
  exists s'. split; [exact Hrun|]. split; [|exact Hpf].
  rewrite Hmf. vm_compute. reflexivity.
Defined.

(** * The theorems over the reals *)


(** The addition of the reals has the laws asked for, so a pass over the
    reals adds up in any order. *)
Lemma dynamics_accumulation_is_additive_witness :
  (forall x y : R, x + y = y + x)%R /\
  (forall x y z : R, x + (y + z) = x + y + z)%R /\
  (forall x : R, 0 + x = x)%R /\
  (forall x y z : R, x + y - z = x - z + y)%R /\
  (forall (fs fs' : list (@ForceSubsystemRep R)) (s : @State R),
     Permutation fs fs' ->
     fst (realizeDynamicsAll fs (zeroed s)) = Returned tt ->
     fst (realizeDynamicsAll fs' (zeroed s)) = Returned tt /\
     forcesOf (snd (realizeDynamicsAll fs' (zeroed s))) =
       fold_left Forces_add (map (fun f => contribution f s) fs)
         (Forces_zero (forcesOf s))).
Proof.
  assert (H1 : forall x y : R, (x + y = y + x)%R) by (intros; ring).
  assert (H2 : forall x y z : R, (x + (y + z) = x + y + z)%R) by (intros; ring).
  assert (H3 : forall x : R, (0 + x = x)%R) by (intros; ring).
  assert (H4 : forall x y z : R, (x + y - z = x - z + y)%R) by (intros; ring).
  repeat (split; [assumption|]).
  apply (dynamics_accumulation_is_additive (Real := R) (ops := R_ops) H1 H2 H3 H4).
Defined.

(** * Further theorems at the concrete system *)

(** The spring, constructed first, reads its parameters after gravity was
    constructed; and in the Moving state it reads its potential energy
    after one more gravity subsystem was constructed. *)
Lemma realizeConstruction_keeps_earlier_slots_witness :
  let s := snd (TwoPointSpring_realizeConstruction example_spring0
                  example_uninitialized_spring example_allocated) in
  let s' := snd (UniformGravity_realizeConstruction example_gravity0
                   example_uninitialized_gravity s) in
  let t := snd (UniformGravity_realizeConstruction example_gravity0
                  example_uninitialized_gravity example_moving) in
  TwoPointSpring_getParameters example_spring s' =
    (Returned (TwoPointSpring_Parameters_init (f64 100) (f64 1)), s') /\
  TwoPointSpring_getConfigurationCache example_spring t =
    (Returned (mkSpringConfigurationCache Vec3_zero Vec3_zero (v64 2 0 0)
                 (f64 2) (f64 100) (f64 50)), t).
Proof.
  intros s s' t. split.
  - destruct (realizeConstruction_keeps_earlier_slots s) as (_ & Hg & Hget).
    destruct (Hget s' (proj1 (Hg example_gravity0 example_uninitialized_gravity)))
      as (Hp & _).
    apply Hp. reflexivity.
  - destruct (realizeConstruction_keeps_earlier_slots example_moving) as (_ & Hg & Hget).
    destruct (Hg example_gravity0 example_uninitialized_gravity) as (Hkept & Hstage).
    destruct (Hget t Hkept) as (_ & Hcc & _).
    apply (Hcc example_spring _ Hstage). vm_compute. reflexivity.
Defined.

(** A stiffness of 7 assigned in the Moving state. *)
Lemma spring_upd_then_get_witness :
  exists s',
    TwoPointSpring_updStiffness example_spring (f64 7) example_moving = (Returned tt, s') /\
    TwoPointSpring_getParameters example_spring s' =
      (Returned (mkSpringParameters (f64 7) (f64 1) Vec3_zero b64_zero), s') /\
    stage s' = Modeled.
Proof.
  destruct (spring_upd_then_get example_spring example_moving
              (TwoPointSpring_Parameters_init (ops := binary64_ops) (f64 100) (f64 1))
              ltac:(vm_compute; reflexivity)) as (_ & _ & Hk & _).
  destruct (Hk (f64 7)) as (s' & Hrun & Hget & Hstage & _).
  exists s'. split; [exact Hrun|]. split; [exact Hget|].
  rewrite (Hstage _ ltac:(vm_compute; reflexivity)). reflexivity.
Defined.

(** Gravity switched off in the Moving state. *)
Lemma gravity_upd_then_get_witness :
  exists s',
    UniformGravity_updIsEnabled example_gravity false example_moving = (Returned tt, s') /\
    UniformGravity_getParameters example_gravity s' =
      (Returned (mkGravityParameters (v64 0 (-10) 0) (f64 0) false), s').
Proof.
  destruct (gravity_upd_then_get example_gravity example_moving
              (UniformGravity_Parameters_init (Real := binary64) (v64 0 (-10) 0) (f64 0))
              ltac:(vm_compute; reflexivity)) as (_ & _ & Hb).
  destruct (Hb false) as (s' & Hrun & Hget & _).
  exists s'. split; [exact Hrun | exact Hget].
Defined.

(** The stiffness doubled after the cache was filled: the energy read
    before is 50; after the assignment the read is refused; and once
    realizeConfiguration has run again the energy read at Configured is
    100. *)
Lemma spring_updStiffness_then_realizeConfiguration_witness :
  exists s1 s2,
    TwoPointSpring_getPotentialEnergy example_spring example_moving =
      (Returned (f64 50), example_moving) /\
    TwoPointSpring_updStiffness example_spring (f64 200) example_moving = (Returned tt, s1) /\
    TwoPointSpring_getPotentialEnergy example_spring s1 =
      (Threw (BadAccess "getCacheEntry: stage"), s1) /\
    TwoPointSpring_realizeConfiguration example_spring (set_stage Timed s1) =
      (Returned tt, s2) /\
    TwoPointSpring_getPotentialEnergy example_spring (set_stage Configured s2) =
      (Returned (f64 100), set_stage Configured s2).
Proof.
  destruct (spring_updStiffness_then_realizeConfiguration example_spring example_moving
              0 0 (TwoPointSpring_Parameters_init (ops := binary64_ops) (f64 100) (f64 1))
              (spring_configuration (ops := binary64_ops) example_spring
                 (TwoPointSpring_Parameters_init (ops := binary64_ops) (f64 100) (f64 1))
                 example_bodyA example_bodyB)
              example_matter0 example_bodyA example_bodyB (f64 200) Timed
              ltac:(vm_compute; reflexivity) ltac:(vm_compute; reflexivity) ltac:(vm_compute; reflexivity)
              ltac:(vm_compute; reflexivity) ltac:(vm_compute; reflexivity) ltac:(vm_compute; reflexivity)
              ltac:(vm_compute; reflexivity))
    as (s1 & s2 & Hbefore & Hupd & _ & Hstale & _ & Hconf & Hpe).
  exists s1, s2. split; [|split; [exact Hupd|]]; [|split; [exact Hstale|]];
    [|split; [exact Hconf|]].
  - rewrite (Hbefore ltac:(vm_compute; reflexivity)). vm_compute. reflexivity.
  - rewrite (Hpe Configured ltac:(reflexivity)). vm_compute. reflexivity.
Defined.

(** realizeTime right after construction reports the stage. *)
Lemma hooks_with_nothing_to_compute_witness :
  runHook Spring_realizeTime example_spring example_gravity example_built =
    (Threw (StageTooLow Allocated Parametrized "TwoPointSpring::realizeTime()"),
     example_built).
Proof.
  destruct (hooks_with_nothing_to_compute Spring_realizeTime example_spring
              example_gravity example_built ltac:(vm_compute; reflexivity)) as [Hs Ho].
  rewrite (surjective_pairing (runHook _ _ _ _)), Hs, Ho by discriminate.
  reflexivity.
Defined.

(** One slot short, the spring stops at the first assertion. *)
Lemma spring_realizeDynamics_checks_sizes_witness :
  fst (TwoPointSpring_realizeDynamics example_spring example_missized) =
    Threw (AssertionFailed "rigidBodyForces.size() == nBodies") /\
  forcesOf (snd (TwoPointSpring_realizeDynamics example_spring example_missized)) =
    forcesOf example_missized.
Proof.
  destruct (spring_realizeDynamics_checks_sizes example_spring example_missized
              (spring_configuration (ops := binary64_ops) example_spring
                 (TwoPointSpring_Parameters_init (ops := binary64_ops) (f64 100) (f64 1))
                 example_bodyA example_bodyB)
              (snd example_uninitialized_spring)
              example_matter0 [SpatialVec_zero] [Vec3_zero] [f64 0; f64 0]
              ltac:(vm_compute; reflexivity) ltac:(vm_compute; reflexivity)
              ltac:(vm_compute; reflexivity) ltac:(vm_compute; reflexivity) ltac:(vm_compute; reflexivity)
              ltac:(vm_compute; reflexivity) ltac:(vm_compute; reflexivity) ltac:(vm_compute; reflexivity))
    as (Ho & Hf & _).
  split; [exact Ho | exact Hf].
Defined.

(** Gravity (0, -10, 0) on a matter subsystem without bodies. *)
Lemma gravity_realizeDynamics_without_masses_witness :
  UniformGravity_realizeDynamics example_gravity_alone example_massless =
    (Returned tt, example_massless).
Proof.
  apply (gravity_realizeDynamics_without_masses example_gravity_alone example_massless
           (UniformGravity_Parameters_init (Real := binary64) (v64 0 (-10) 0) (f64 0))
           (mkGravityParameterCache (mkUnitVec3_trusted (v64 0 (-1) 0)) (f64 10)));
    try (vm_compute; reflexivity); repeat constructor.
Defined.

(** In binary64 the norm of the zero vector is +0, which compares equal
    to 0. *)
Lemma default_gravity_contributes_nothing_witness :
  exists this s1 s2,
    UniformGravity_realizeConstruction
      (UniformGravitySubsystemRep_default 1 (-1, -1, -1)) example_uninitialized_gravity
      example_allocated =
      (Returned this, s1) /\
    UniformGravity_realizeParameters this (set_stage Modeled s1) = (Returned tt, s2) /\
    UniformGravity_realizeDynamics this (set_stage Moving s2) =
      (Returned tt, set_stage Moving s2).
Proof.
  destruct (default_gravity_contributes_nothing (Real := binary64) (ops := binary64_ops)
              example_allocated
              1 (-1, -1, -1) example_uninitialized_gravity Modeled Moving
              ltac:(vm_compute; reflexivity) ltac:(reflexivity) ltac:(reflexivity))
    as (this & s1 & s2 & Hc & Hp & _ & Hd).
  exists this, s1, s2. auto.
Defined.

(** * Further theorems over the reals *)

Lemma R_reqb_false (x y : R) : x <> y -> reqb x y = false.
Proof. simpl. destruct (Req_dec_T x y); congruence. Qed.

(** Over the reals, gravity (0, -10, 0) on a body of mass 2 at height 5
    contributes the force (0, -20, 0) and the energy -100; run twice on
    accumulators that held the force (1, 0, 0) and the energy 3, it
    returns both times and leaves (1, -40, 0) and -197. *)
Lemma realizeDynamics_twice_adds_twice_witness :
  let f := UniformGravitySubsystem example_gravityR in
  let s1 := snd (realizeDynamics f example_movingR) in
  let s2 := snd (realizeDynamics f s1) in
  contribution f example_movingR =
    mkForces [[(mkSpatialVec (mkVec3 0 0 0) (mkVec3 0 (-20) 0))%R]] [[]] [[]] (-100)%R /\
  fst (realizeDynamics f s1) = Returned tt /\
  forcesOf s2 =
    mkForces [[(mkSpatialVec (mkVec3 0 0 0) (mkVec3 1 (-40) 0))%R]] [[]] [[]] (-197)%R.
Proof.
  intros f s1 s2.
  assert (Hmag : @reqb R _ 10%R 0%R = false) by (apply R_reqb_false; lra).
  assert (Hc : contribution f example_movingR =
    mkForces [[(mkSpatialVec (mkVec3 0 0 0) (mkVec3 0 (-20) 0))%R]] [[]] [[]] (-100)%R).
  { unfold contribution, f. cbn [realizeDynamics].
    rewrite (gravity_realizeDynamics_run example_gravityR (zeroed example_movingR)
               (UniformGravity_Parameters_init (mkVec3 0 (-10) 0) 0)%R
               (mkGravityParameterCache (mkUnitVec3_trusted (mkVec3 0 (-1) 0)) 10)%R
               eq_refl eq_refl eq_refl eq_refl Hmag
               ltac:(repeat constructor) ltac:(repeat constructor)).
    cbv - [Rplus Rmult Rminus Ropp Rdiv Rinv IZR].
    repeat f_equal; lra. }
  assert (Hrun : realizeDynamics f example_movingR =
                 (Returned tt,
                  gravity_dynamics_result
                    (UniformGravity_Parameters_init (mkVec3 0 (-10) 0) 0)%R
                    (mkGravityParameterCache (mkUnitVec3_trusted (mkVec3 0 (-1) 0)) 10)%R
                    example_movingR)).
  { apply (gravity_realizeDynamics_run example_gravityR example_movingR
             (UniformGravity_Parameters_init (mkVec3 0 (-10) 0) 0)%R
             (mkGravityParameterCache (mkUnitVec3_trusted (mkVec3 0 (-1) 0)) 10)%R
             eq_refl eq_refl eq_refl eq_refl Hmag
             ltac:(repeat constructor) ltac:(repeat constructor)). }
  destruct (realizeDynamics_twice_adds_twice (Real := R) (ops := R_ops)
              ltac:(intros; simpl; ring) ltac:(intros; simpl; ring)
              ltac:(intros; simpl; ring) ltac:(intros; simpl; ring) f example_movingR)
    as [Hout Hadd].
  split; [exact Hc|]. split.
  - fold s1 in Hout. rewrite Hout, Hrun. reflexivity.
  - fold s1 s2 in Hadd. rewrite Hadd, Hc.
    cbv - [Rplus Rmult Rminus Ropp Rdiv Rinv IZR].
    repeat f_equal; lra.
Defined.
